(** * steamroller: the grid-engine bridge ([steamroller/engines/grid_engine.py])

    A shallow embedding of the job-submission core: job naming, target
    renaming by command digest, dependency collection from node tags,
    submission and the descriptive (dry-run) printer.

    Conventions of the embedding.
    - A Python [str] is modelled by the [string] of its UTF-8 bytes, so
      [bytes(s, "utf-8")], [.encode()] and [.decode()] are the identity.
      Every character the code inspects (['/'], ['.'], [':'], [' '], ['-'],
      digits, signs) is ASCII, so searching and slicing agree on both views.
    - Exceptions are values of [PyError]; a function that can raise returns
      a [result].
    - Services of the host build system and of the operating system (variable
      substitution, the subprocess, the file system) are Section variables. *)

From Stdlib Require Import ZArith Ascii String.
From stdpp Require Import gmap strings list fin_maps pretty.

Local Open Scope string_scope.
Local Open Scope list_scope.
Local Open Scope Z_scope.

(** ** Errors *)

Inductive PyError : Type :=
  | KeyError (key : string)
  | IndexError
  | ValueError (msg : string)
  | OSError
  | Exception (msg : string).

Inductive result (A : Type) : Type :=
  | Ok (a : A)
  | Raise (e : PyError).
Arguments Ok {A} a.
Arguments Raise {A} e.

Global Instance result_ret : MRet result := fun _ a => Ok a.
Global Instance result_bind : MBind result := fun _ _ k r =>
  match r with
  | Ok a => k a
  | Raise e => Raise e
  end.

(** ** Python string operations used by the module *)

Module Str.

Fixpoint take (n : nat) (s : string) : string :=
  match n, s with
  | O, _ => ""
  | S _, EmptyString => ""
  | S n', String c s' => String c (take n' s')
  end.

Fixpoint drop (n : nat) (s : string) : string :=
  match n, s with
  | O, _ => s
  | S _, EmptyString => ""
  | S n', String _ s' => drop n' s'
  end.

(** [s[:i]] and [s[i:]] for an index [i >= 0]. *)
Definition slice_to (i : Z) (s : string) : string := take (Z.to_nat i) s.
Definition slice_from (i : Z) (s : string) : string := drop (Z.to_nat i) s.

(** [s[i:i+1]]: the one-character string at [i], empty out of range. *)
Definition char_at (i : Z) (s : string) : string := take 1 (slice_from i s).

(** [s.rfind(c)] for a one-character [c]: the highest index, or [-1]. *)
Fixpoint rfind_from (c : ascii) (s : string) (i : Z) (found : Z) : Z :=
  match s with
  | EmptyString => found
  | String a s' =>
      rfind_from c s' (i + 1) (if Ascii.eqb a c then i else found)
  end.
Definition rfind (c : ascii) (s : string) : Z := rfind_from c s 0 (-1).

(** [sep.join(l)] *)
Fixpoint join (sep : string) (l : list string) : string :=
  match l with
  | [] => ""
  | [x] => x
  | x :: l' => x +:+ sep +:+ join sep l'
  end.

(** [s.lstrip(c)] for a one-character [c]. *)
Fixpoint lstrip_char (c : ascii) (s : string) : string :=
  match s with
  | String a s' => if Ascii.eqb a c then lstrip_char c s' else s
  | EmptyString => ""
  end.

(** [s.split(c)] for a one-character separator [c]. *)
Fixpoint split_go (c : ascii) (cur : string) (s : string) : list string :=
  match s with
  | EmptyString => [String.rev cur]
  | String a s' =>
      if Ascii.eqb a c then String.rev cur :: split_go c "" s'
      else split_go c (String a cur) s'
  end.
Definition split (c : ascii) (s : string) : list string := split_go c "" s.

Fixpoint starts_with (p s : string) : bool :=
  match p, s with
  | EmptyString, _ => true
  | String a p', String b s' => Ascii.eqb a b && starts_with p' s'
  | String _ _, EmptyString => false
  end.

Definition ends_with (p s : string) : bool :=
  starts_with (String.rev p) (String.rev s).

(** [s.replace(old, new)] for a non-empty [old]: leftmost occurrences,
    not overlapping. The fuel is the number of characters still to skip
    after a match. *)
Fixpoint replace_go (old new : string) (skip : nat) (s : string) : string :=
  match s with
  | EmptyString => ""
  | String a s' =>
      match skip with
      | S k => replace_go old new k s'
      | O =>
          if starts_with old s
          then new +:+ replace_go old new (String.length old - 1) s'
          else String a (replace_go old new O s')
      end
  end.
Definition replace (old new s : string) : string := replace_go old new O s.

Fixpoint contains_char (c : ascii) (s : string) : bool :=
  match s with
  | EmptyString => false
  | String a s' => Ascii.eqb a c || contains_char c s'
  end.

Fixpoint forallb (p : ascii -> bool) (s : string) : bool :=
  match s with
  | EmptyString => true
  | String a s' => p a && forallb p s'
  end.

End Str.

(** The control characters the module mentions. *)
Definition LF : ascii := "010"%char.
Definition nl : string := String LF "".

(** [c * n]: the character repeated. *)
Definition chars (n : nat) (c : ascii) : string :=
  string_of_list_ascii (replicate n c).

(** ** MD5 ([hashlib.md5], RFC 1321), on 32-bit words held in [Z] *)

Module MD5.

Definition mask32 : Z := 0xffffffff.
Definition w32 (x : Z) : Z := Z.land x mask32.
Definition add32 (x y : Z) : Z := w32 (x + y).
Definition not32 (x : Z) : Z := Z.lxor x mask32.
Definition rotl32 (x n : Z) : Z :=
  w32 (Z.lor (Z.shiftl x n) (Z.shiftr x (32 - n))).

Definition K : list Z :=
  [ 0xd76aa478; 0xe8c7b756; 0x242070db; 0xc1bdceee;
    0xf57c0faf; 0x4787c62a; 0xa8304613; 0xfd469501;
    0x698098d8; 0x8b44f7af; 0xffff5bb1; 0x895cd7be;
    0x6b901122; 0xfd987193; 0xa679438e; 0x49b40821;
    0xf61e2562; 0xc040b340; 0x265e5a51; 0xe9b6c7aa;
    0xd62f105d; 0x02441453; 0xd8a1e681; 0xe7d3fbc8;
    0x21e1cde6; 0xc33707d6; 0xf4d50d87; 0x455a14ed;
    0xa9e3e905; 0xfcefa3f8; 0x676f02d9; 0x8d2a4c8a;
    0xfffa3942; 0x8771f681; 0x6d9d6122; 0xfde5380c;
    0xa4beea44; 0x4bdecfa9; 0xf6bb4b60; 0xbebfbc70;
    0x289b7ec6; 0xeaa127fa; 0xd4ef3085; 0x04881d05;
    0xd9d4d039; 0xe6db99e5; 0x1fa27cf8; 0xc4ac5665;
    0xf4292244; 0x432aff97; 0xab9423a7; 0xfc93a039;
    0x655b59c3; 0x8f0ccc92; 0xffeff47d; 0x85845dd1;
    0x6fa87e4f; 0xfe2ce6e0; 0xa3014314; 0x4e0811a1;
    0xf7537e82; 0xbd3af235; 0x2ad7d2bb; 0xeb86d391 ].

Definition S : list Z :=
  [ 7; 12; 17; 22; 7; 12; 17; 22; 7; 12; 17; 22; 7; 12; 17; 22;
    5; 9; 14; 20; 5; 9; 14; 20; 5; 9; 14; 20; 5; 9; 14; 20;
    4; 11; 16; 23; 4; 11; 16; 23; 4; 11; 16; 23; 4; 11; 16; 23;
    6; 10; 15; 21; 6; 10; 15; 21; 6; 10; 15; 21; 6; 10; 15; 21 ].

Record state : Type := State { sa : Z; sb : Z; sc : Z; sd : Z }.

Definition init : state :=
  State 0x67452301 0xefcdab89 0x98badcfe 0x10325476.

Definition nthZ (l : list Z) (i : Z) : Z := nth (Z.to_nat i) l 0.

(** One of the 64 operations on a block of sixteen words [M]. *)
Definition step (M : list Z) (st : state) (i : Z) : state :=
  let '(State a b c d) := st in
  let '(f, g) :=
    if i <? 16 then (Z.lor (Z.land b c) (Z.land (not32 b) d), i)
    else if i <? 32 then
      (Z.lor (Z.land d b) (Z.land (not32 d) c), (5 * i + 1) mod 16)
    else if i <? 48 then (Z.lxor b (Z.lxor c d), (3 * i + 5) mod 16)
    else (Z.lxor c (Z.lor b (not32 d)), (7 * i) mod 16) in
  let f' := add32 (add32 (add32 f a) (nthZ K i)) (nthZ M g) in
  State d (add32 b (rotl32 f' (nthZ S i))) b c.

Definition rounds : list Z := seqZ 0 64.

Definition process_block (st : state) (M : list Z) : state :=
  let '(State a b c d) := foldl (step M) st rounds in
  State (add32 (sa st) a) (add32 (sb st) b)
        (add32 (sc st) c) (add32 (sd st) d).

(** Little-endian bytes. *)
Fixpoint le_bytes (n : nat) (x : Z) : list Z :=
  match n with
  | O => []
  | Datatypes.S n' => Z.land x 0xff :: le_bytes n' (Z.shiftr x 8)
  end.

Fixpoint le_word (bs : list Z) : Z :=
  match bs with
  | [] => 0
  | b :: bs' => b + 256 * le_word bs'
  end.

Definition bytes_of (s : string) : list Z :=
  map (fun c => Z.of_N (N_of_ascii c)) (list_ascii_of_string s).

(** Append 0x80, zeros up to 56 modulo 64, then the bit length on 64 bits. *)
Definition pad (msg : list Z) : list Z :=
  let len := Z.of_nat (length msg) in
  let zeros := (55 - len) mod 64 in
  msg ++ [0x80] ++ replicate (Z.to_nat zeros) 0
      ++ le_bytes 8 (Z.land (8 * len) 0xffffffffffffffff).

(** Cut a list into consecutive pieces of [n] elements. *)
Fixpoint chunks_go {A} (fuel n : nat) (l : list A) : list (list A) :=
  match fuel, l with
  | _, [] => []
  | O, _ => []
  | Datatypes.S fuel', _ =>
      firstn n l :: chunks_go fuel' n (skipn n l)
  end.
Definition chunks {A} (n : nat) (l : list A) : list (list A) :=
  chunks_go (length l) n l.

Definition block_words (block : list Z) : list Z :=
  map le_word (chunks 4 block).

Definition digest_state (msg : list Z) : state :=
  foldl process_block init (map block_words (chunks 64 (pad msg))).

Definition digest (msg : list Z) : list Z :=
  let '(State a b c d) := digest_state msg in
  le_bytes 4 a ++ le_bytes 4 b ++ le_bytes 4 c ++ le_bytes 4 d.

Definition hex_digit (x : Z) : ascii :=
  nth (Z.to_nat x)
      (list_ascii_of_string "0123456789abcdef") "0"%char.

Definition hex_byte (b : Z) : string :=
  String (hex_digit (Z.shiftr b 4)) (String (hex_digit (Z.land b 0xf)) "").

Fixpoint hex (bs : list Z) : string :=
  match bs with
  | [] => ""
  | b :: bs' => hex_byte b +:+ hex bs'
  end.

Definition is_hex (c : ascii) : bool :=
  Str.contains_char c "0123456789abcdef".

(** [m = hashlib.md5(); m.update(data); m.hexdigest()] *)
Definition hexdigest (data : string) : string := hex (digest (bytes_of data)).

End MD5.

(** ** [os.path] (posixpath) *)

Module OsPath.

(** The [while] loop of [_splitext]: the indices between the last
    separator and the last dot; the first character that is not a dot
    makes the split. *)
Fixpoint splitext_scan (p : string) (dotIndex : Z) (idxs : list Z)
  : option (string * string) :=
  match idxs with
  | [] => None
  | filenameIndex :: rest =>
      if negb (String.eqb (Str.char_at filenameIndex p) ".")
      then Some (Str.slice_to dotIndex p, Str.slice_from dotIndex p)
      else splitext_scan p dotIndex rest
  end.

(** [os.path.splitext(p)] *)
Definition splitext (p : string) : string * string :=
  let sepIndex := Str.rfind "/" p in
  let dotIndex := Str.rfind "." p in
  if dotIndex >? sepIndex then
    let filenameIndex := sepIndex + 1 in
    match splitext_scan p dotIndex
            (seqZ filenameIndex (dotIndex - filenameIndex)) with
    | Some r => r
    | None => (p, "")
    end
  else (p, "").

(** [os.path.join(a, b)] *)
Definition join (a b : string) : string :=
  if Str.starts_with "/" b || String.eqb a "" then b
  else if Str.ends_with "/" a then a +:+ b
  else a +:+ "/" +:+ b.

Fixpoint rstrip_rev (c : ascii) (r : string) : string :=
  match r with
  | String a r' => if Ascii.eqb a c then rstrip_rev c r' else r
  | EmptyString => ""
  end.
(** [s.rstrip(c)] for a one-character [c]. *)
Definition rstrip_char (c : ascii) (s : string) : string :=
  String.rev (rstrip_rev c (String.rev s)).


(** [os.path.dirname(p)] *)
Definition dirname (p : string) : string :=
  let i := Str.rfind "/" p + 1 in
  let head := Str.slice_to i p in
  if negb (String.eqb head "") && negb (Str.forallb (Ascii.eqb "/") head)
  then rstrip_char "/" head
  else head.

(** [os.path.split(p)] *)
Definition split (p : string) : string * string :=
  let i := Str.rfind "/" p + 1 in
  let head := Str.slice_to i p in
  let tail := Str.slice_from i p in
  (if negb (String.eqb head "") && negb (Str.forallb (Ascii.eqb "/") head)
   then rstrip_char "/" head
   else head,
   tail).

End OsPath.

(** ** [int(b)] on the bytes of a subprocess *)

Module PyInt.

(** ASCII whitespace: what [bytes.strip()] removes and [int] skips. *)
Definition is_space (c : ascii) : bool :=
  let n := N_of_ascii c in
  (N.eqb n 32 || N.eqb n 9 || N.eqb n 10 || N.eqb n 13
   || N.eqb n 11 || N.eqb n 12)%N.

Fixpoint lstrip (s : string) : string :=
  match s with
  | String a s' => if is_space a then lstrip s' else s
  | EmptyString => ""
  end.

(** [b.strip()] *)
Definition strip (s : string) : string :=
  String.rev (lstrip (String.rev (lstrip s))).

Definition digit (c : ascii) : option Z :=
  let n := N_of_ascii c in
  if (N.leb 48 n && N.leb n 57)%N then Some (Z.of_N n - 48) else None.

(** Decimal digits, single underscores allowed between two digits. *)
Fixpoint digits (acc : Z) (after_digit : bool) (s : string) : option Z :=
  match s with
  | EmptyString => if after_digit then Some acc else None
  | String c s' =>
      match digit c with
      | Some d => digits (10 * acc + d) true s'
      | None =>
          if Ascii.eqb c "_" && after_digit then digits acc false s'
          else None
      end
  end.

Definition is_digit (c : ascii) : bool :=
  match digit c with
  | Some _ => true
  | None => false
  end.

(** The scan of the conversion: the longest run of digits and underscores,
    and what follows it. *)
Fixpoint scan (s : string) : string * string :=
  match s with
  | EmptyString => ("", "")
  | String c s' =>
      if is_digit c || Ascii.eqb c "_"
      then let '(run, rest) := scan s' in (String c run, rest)
      else ("", s)
  end.

Fixpoint count_digits (s : string) : nat :=
  match s with
  | EmptyString => O
  | String c s' => if is_digit c then S (count_digits s') else count_digits s'
  end.

(** [sys.get_int_max_str_digits()]: the default of CPython 3.11 and later
    (and of the security releases of 3.7 to 3.10 that introduced the
    limit). *)
Definition int_max_str_digits : nat := 4300.

Definition exceeds_limit (n : nat) : string :=
  "Exceeds the limit (" +:+ pretty int_max_str_digits
  +:+ " digits) for integer string conversion: value has " +:+ pretty n
  +:+ " digits; use sys.set_int_max_str_digits() to increase the limit".

(** [repr(b)] of a bytes object: double quotes when the bytes hold a single
    quote and no double quote, single quotes otherwise; the quote and the
    backslash escaped, tab, newline and carriage return by letter, every
    other byte outside the printable ASCII range as [\xhh]. *)
Definition dquote : ascii := "034"%char.

Definition repr_quote (b : string) : ascii :=
  if Str.contains_char "'" b && negb (Str.contains_char dquote b)
  then dquote else "'"%char.

Definition repr_byte (quote c : ascii) : string :=
  let n := N_of_ascii c in
  if Ascii.eqb c quote || Ascii.eqb c "\" then String "\" (String c "")
  else if N.eqb n 9 then "\t"
  else if N.eqb n 10 then "\n"
  else if N.eqb n 13 then "\r"
  else if (N.ltb n 32 || N.leb 127 n)%N
       then "\x" +:+ MD5.hex_byte (Z.of_N n)
  else String c "".

Fixpoint repr_body (quote : ascii) (b : string) : string :=
  match b with
  | EmptyString => ""
  | String c b' => repr_byte quote c +:+ repr_body quote b'
  end.

Definition repr_bytes (b : string) : string :=
  let q := repr_quote b in
  String "b" (String q (repr_body q b +:+ String q "")).

(** The message of a refused literal: the first 200 characters of the
    [repr] of the first 200 bytes. *)
Definition invalid_literal (b : string) : string :=
  "invalid literal for int() with base 10: "
  +:+ Str.take 200 (repr_bytes (Str.take 200 b)).

(** [int(b)] for bytes [b], base 10: surrounding whitespace, an optional
    sign, then the run of digits and underscores. A misplaced underscore is
    refused first, then a run of more than [int_max_str_digits] digits, then
    anything left after the run. *)
Definition int (s : string) : result Z :=
  let s' := strip s in
  let '(negative, body) :=
    match s' with
    | String "-" r => (true, r)
    | String "+" r => (false, r)
    | _ => (false, s')
    end in
  let '(run, rest) := scan body in
  match digits 0 false run with
  | None => Raise (ValueError (invalid_literal s))
  | Some n =>
      if Nat.ltb int_max_str_digits (count_digits run)
      then Raise (ValueError (exceeds_limit (count_digits run)))
      else if String.eqb rest ""
           then Ok (if negative then - n else n)
           else Raise (ValueError (invalid_literal s))
  end.

End PyInt.

(** ** Build-graph nodes, tags and environments (host build system) *)

(** What [isinstance] tells the emitter about a node; [OtherNode] carries
    the text of [type(t)]. *)
Inductive NodeKind : Type :=
  | FileNode
  | DirNode
  | OtherNode (cls : string).

(** The host's file-system nodes are interned by path, so a node is
    identified by its kind and [get_abspath()]. *)
Record Node : Type := mkNode { node_kind : NodeKind; get_abspath : string }.

Global Instance NodeKind_eq_dec : EqDecision NodeKind.
Proof. solve_decision. Defined.
Global Instance Node_eq_dec : EqDecision Node.
Proof. solve_decision. Defined.

Definition node_encode (n : Node) : (bool + string) * string :=
  (match node_kind n with
   | FileNode => inl true
   | DirNode => inl false
   | OtherNode c => inr c
   end, get_abspath n).
Definition node_decode (p : (bool + string) * string) : Node :=
  mkNode (match p.1 with
          | inl true => FileNode
          | inl false => DirNode
          | inr c => OtherNode c
          end) p.2.
Global Instance Node_countable : Countable Node.
Proof.
  apply (inj_countable' node_encode node_decode).
  intros [[| |c] p]; reflexivity.
Defined.

(** The targets the emitter accepts: instances of [SCons.Node.FS.File] or
    of [SCons.Node.FS.Dir]. *)
Definition file_or_dir (t : Node) : Prop :=
  node_kind t = FileNode \/ node_kind t = DirNode.

(** [env.File(name)] and [env.Dir(name)] for an absolute [name]. *)
Definition env_File (name : string) : Node := mkNode FileNode name.
Definition env_Dir (name : string) : Node := mkNode DirNode name.

(** The tag store: for each node its [_tags] dictionary. Job identifiers are
    the only values this module stores. *)
Abbreviation TagStore := (gmap Node (gmap string Z)).

(** [n.GetTag(key)]: [None] when the node has no tags or not this one. *)
Definition GetTag (st : TagStore) (n : Node) (key : string) : option Z :=
  st !! n ≫= (fun d => d !! key).

(** [n.Tag(key, value)] *)
Definition Tag (st : TagStore) (n : Node) (key : string) (value : Z)
  : TagStore :=
  <[n := <[key := value]> (default ∅ (st !! n))]> st.

(** Construction variables that hold text. *)
Abbreviation Env := (gmap string string).

(** [env[key]] *)
Definition env_getitem (env : Env) (key : string) : result string :=
  match env !! key with
  | Some v => Ok v
  | None => Raise (KeyError key)
  end.

(** [env.Override({...})] as [submit] builds it: the base environment and
    the five variables laid over it. *)
Record Override : Type := mkOverride {
  ov_base : Env;
  STEAMROLLER_NAME : string;
  STEAMROLLER_LOG : string;
  STEAMROLLER_WORKING_DIRECTORY : string;
  STEAMROLLER_DEPENDENCIES : gset Z;
  STEAMROLLER_SUBMIT_STRING : string
}.

(** [renv[key]]: the overriding variables win. Only the keys that hold text
    are read this way. *)
Definition renv_getitem (renv : Override) (key : string) : result string :=
  if String.eqb key "STEAMROLLER_NAME" then Ok (STEAMROLLER_NAME renv)
  else if String.eqb key "STEAMROLLER_LOG" then Ok (STEAMROLLER_LOG renv)
  else if String.eqb key "STEAMROLLER_WORKING_DIRECTORY"
       then Ok (STEAMROLLER_WORKING_DIRECTORY renv)
  else if String.eqb key "STEAMROLLER_SUBMIT_STRING"
       then Ok (STEAMROLLER_SUBMIT_STRING renv)
  else env_getitem (ov_base renv) key.

(** ** The module-level functions *)

(** [create_name(target, source, env)] *)
Definition create_name (target source : list Node) (env : Env)
  : result string :=
  let m :=
    MD5.hexdigest
      (Str.join " " (map get_abspath target ++ map get_abspath source)) in
  prefix ← env_getitem env "STEAMROLLER_NAME_PREFIX";
  Ok (prefix +:+ "_" +:+ m).

(** The set built by
    [set(filter(lambda x : x != None, [s.GetTag(key) for s in source]))]. *)
Definition tag_values (st : TagStore) (key : string) (source : list Node)
  : list (option Z) :=
  map (fun s => GetTag st s key) source.

Definition not_None (x : option Z) : bool :=
  match x with
  | Some _ => true
  | None => false
  end.

Fixpoint set_of (l : list (option Z)) : gset Z :=
  match l with
  | [] => ∅
  | Some j :: l' => {[ j ]} ∪ set_of l'
  | None :: l' => set_of l'
  end.

Definition collect_tags (st : TagStore) (key : string) (source : list Node)
  : gset Z :=
  set_of (List.filter not_None (tag_values st key source)).

(** [for t in target: t.Tag(key, job_id)] *)
Definition tag_all (st : TagStore) (key : string) (job_id : Z)
  (target : list Node) : TagStore :=
  foldl (fun st' t => Tag st' t key job_id) st target.

Section Host.

(** [env.subst_list(c, SCons.Subst.SUBST_CMD, target=..., source=...)] *)
Variable subst_list :
  Env -> string -> list Node -> list Node -> result (list (list string)).
(** [SCons.Subst.escape_list(l, env.get('ESCAPE', lambda x: x))] *)
Variable escape_list : Env -> list string -> list string.
(** [renv.subst(s)] on the overridden environment *)
Variable renv_subst : Override -> string -> result string.
(** [shlex.split] *)
Variable shlex_split : string -> result (list string).
(** [subprocess.Popen(argv, stdout=PIPE, stdin=PIPE)]: launching may fail;
    a launched process maps what [communicate] writes to its standard
    input to the bytes of its standard output. *)
Variable Popen : list string -> result (string -> string).
(** [os.getcwd()] and [env.Dir(d).abspath] *)
Variable getcwd : string.
Variable Dir_abspath : Env -> string -> string.

(** [prepare_commands(target, source, env, commands)] *)
Definition prepare_commands (target source : list Node) (env : Env)
  (commands : list string) : result (list string) :=
  cmd_listsA ← mapM (fun c => subst_list env c target source) commands;
  cmd_listsB ← mapM (fun c : list (list string) =>
                       match c with
                       | c0 :: _ => Ok (escape_list env c0)
                       | [] => Raise IndexError
                       end) cmd_listsA;
  Ok (map (Str.join " ") cmd_listsB).

(** [submit(submit_string, target, source, env, commands, dependencies,
    working_dir)] *)
Definition submit (submit_string : string) (target source : list Node)
  (env : Env) (commands : list string) (dependencies : gset Z)
  (working_dir : string) : result Z :=
  name ← create_name target source env;
  target0 ← match target with
             | t :: _ => Ok t
             | [] => Raise IndexError
             end;
  let log_file := get_abspath target0 +:+ ".log" in
  let renv :=
    mkOverride env name log_file working_dir dependencies submit_string in
  raw ← renv_getitem renv "STEAMROLLER_SUBMIT_STRING";
  submit_string' ← renv_subst renv raw;
  argv ← shlex_split submit_string';
  p ← Popen argv;
  shell ← renv_getitem renv "STEAMROLLER_SHELL";
  let out := p (Str.join nl (shell :: commands)) in
  PyInt.int (PyInt.strip out).

(** The closure returned by [create_method(generator, chdir,
    submit_string)]. The tag store goes in and comes out; an exception
    leaves it as it was when the exception was raised. *)
Section Method.

Variable generator : list Node -> list Node -> Env -> bool -> list string.
Variable chdir : option string.
Variable submit_string : string.

Definition truthy (s : option string) : bool :=
  match s with
  | Some s' => negb (String.eqb s' "")
  | None => false
  end.

(** Everything up to and including the call of [submit]. *)
Definition method_submit (target source : list Node) (env : Env)
  (st : TagStore) : result Z :=
  commands ← prepare_commands target source env
               (generator target source env false);
  let nchdir :=
    if truthy chdir then Dir_abspath env (default "" chdir)
    else getcwd in
  let depends_on := collect_tags st "built_by_job" source in
  submit submit_string target source env commands depends_on nchdir.

Definition method (target source : list Node) (env : Env)
  (st : TagStore) : TagStore * result unit :=
  match method_submit target source env st with
  | Ok job_id => (tag_all st "built_by_job" job_id target, Ok tt)
  | Raise e => (st, Raise e)
  end.

End Method.

End Host.

(** ** [class GridEngine] *)

Module GridEngine.

(** *** Objects and the [pseudo_id] attribute

    [pseudo_id = 0] is an attribute of the class. Reading [self.pseudo_id]
    finds the entry of the instance's own [__dict__] when there is one and
    the class attribute otherwise; the assignment in
    [self.pseudo_id += 1] always stores into the instance. *)
Record Engine : Type := mkEngine { self_id : positive; name : string }.

Record Attrs : Type := mkAttrs {
  class_pseudo_id : Z;
  instance_pseudo_id : gmap positive Z
}.

(** The attributes when the module has just been imported. *)
Definition initial_attrs : Attrs := mkAttrs 0 ∅.

Definition get_pseudo_id (a : Attrs) (self : Engine) : Z :=
  default (class_pseudo_id a) (instance_pseudo_id a !! self_id self).

Definition set_pseudo_id (a : Attrs) (self : Engine) (v : Z) : Attrs :=
  mkAttrs (class_pseudo_id a) (<[self_id self := v]> (instance_pseudo_id a)).

(** *** [check_for_executable] *)
Section CheckForExecutable.

(** [os.path.exists] and [os.environ] *)
Variable path_exists : string -> bool.
Variable environ : gmap string string.

Definition check_for_executable (name : string) : result bool :=
  PATH ← env_getitem environ "PATH";
  Ok (existsb (fun x : bool => x)
        (map (fun p => path_exists (OsPath.join p name))
             (Str.split ":" PATH))).

End CheckForExecutable.

(** *** [create_name] *)
Definition create_name (self : Engine) (target source : list Node)
  (env : Env) : result string :=
  let m :=
    MD5.hexdigest
      (Str.join " " (map get_abspath target ++ map get_abspath source)) in
  prefix ← env_getitem env "STEAMROLLER_NAME_PREFIX";
  Ok (prefix +:+ "_" +:+ m).

(** *** [create_generator] *)
Definition create_generator (self : Engine) (commands : list string)
  : list Node -> list Node -> Env -> bool -> list string :=
  fun target source env for_signature => commands.

(** *** [create_emitter] *)

(** What the emitter changes outside the build graph: the files and the
    directories of the file system, by the paths they were written or made
    under, and the dependencies registered with [env.Depends]. Failures of
    the operating system calls are not modelled. *)
Record EmitWorld : Type := mkEmitWorld {
  files : gmap string string;
  directories : gset string;
  depends : list (Node * string)
}.

(** [os.path.exists(p)] *)
Definition fs_exists (w : EmitWorld) (p : string) : bool :=
  bool_decide (p ∈ directories w) || bool_decide (is_Some (files w !! p)).

(** [os.mkdir(name)], where a directory that is already there is accepted
    ([exist_ok=True]). *)
Definition mkdir (w : EmitWorld) (name : string) : EmitWorld :=
  mkEmitWorld (files w) ({[ name ]} ∪ directories w) (depends w).

(** The head and the tail that [os.makedirs] works with: those of
    [os.path.split(name)], and those of the head when the tail is empty
    (a path that ends in a separator). *)
Definition parent (name : string) : string * string :=
  let '(head, tail) := OsPath.split name in
  if String.eqb tail "" then OsPath.split head else (head, tail).

(** [os.makedirs(name, exist_ok=True)]: a missing parent is made first, by
    the same function; a last component [.] under a parent that had to be
    made is not made itself. The recursion is on a shorter path each time,
    so the length of the path and one are enough calls. *)
Fixpoint makedirs_go (fuel : nat) (w : EmitWorld) (name : string)
  : EmitWorld :=
  match fuel with
  | O => w
  | S fuel' =>
      let '(head, tail) := parent name in
      if negb (String.eqb head "") && negb (String.eqb tail "")
         && negb (fs_exists w head)
      then
        let w1 := makedirs_go fuel' w head in
        if String.eqb tail "." then w1 else mkdir w1 name
      else mkdir w name
  end.

Definition makedirs (w : EmitWorld) (name : string) : EmitWorld :=
  makedirs_go (S (String.length name)) w name.


Definition write_file (w : EmitWorld) (path content : string) : EmitWorld :=
  mkEmitWorld (<[path := content]> (files w)) (directories w) (depends w).

Definition Depends (w : EmitWorld) (t : Node) (s : string) : EmitWorld :=
  mkEmitWorld (files w) (directories w) (depends w ++ [(t, s)]).

(** [hash_str]: the first eight characters of the hexadecimal digest. *)
Definition hash_str (content : string) : string :=
  Str.slice_to 8 (MD5.hexdigest content).

(** ["{}_{}{}".format(base, hash_str, ext)] *)
Definition new_name (hash : string) (path : string) : string :=
  let '(base, ext) := OsPath.splitext path in
  base +:+ "_" +:+ hash +:+ ext.

(** The node the first loop builds for a file or directory target. *)
Definition renamed (hash : string) (t : Node) : Node :=
  mkNode (node_kind t) (new_name hash (get_abspath t)).

(** The body of the first loop for one target. *)
Definition rename_target (hash : string) (t : Node) : result Node :=
  let new_name := new_name hash (get_abspath t) in
  match node_kind t with
  | FileNode => Ok (env_File new_name)
  | DirNode => Ok (env_Dir new_name)
  | OtherNode cls => Raise (Exception ("Unknown target type: " +:+ cls))
  end.

(** ["{}_{}.command".format(base, ext.lstrip("."))] *)
Definition log_name (path : string) : string :=
  let '(base, ext) := OsPath.splitext path in
  base +:+ "_" +:+ Str.lstrip_char "." ext +:+ ".command".

(** [new_command.replace(" --", "\n  --")] *)
Definition reformat (new_command : string) : string :=
  Str.replace " --" (nl +:+ "  --") new_command.

(** The body of the second loop for one target. *)
Definition write_log (new_command : string) (w : EmitWorld) (t : Node)
  : EmitWorld :=
  let log_name := log_name (get_abspath t) in
  let w1 := makedirs w (OsPath.dirname log_name) in
  let command := reformat new_command in
  write_file w1 log_name command.

Section Emitter.

Variable script : string.
(** rendering of the rule's commands, as bytes *)
Variable get_contents : list Node -> list Node -> Env -> string.
Variable other_deps : list string.

Definition emitter (target source : list Node) (env : Env)
  (w : EmitWorld) : EmitWorld * result (list Node * list Node) :=
  let content := get_contents target source env in
  let hash := hash_str content in
  match mapM (rename_target hash) target with
  | Raise e => (w, Raise e)
  | Ok new_targets =>
      let target := new_targets in
      let new_command := get_contents target source env in
      let w1 := foldl (write_log new_command) w target in
      let w2 :=
        foldl (fun w' '(t, s) => Depends w' t s) w1
              (t ← target; s ← other_deps ++ [script]; [(t, s)]) in
      (w2, Ok (target, source))
  end.

End Emitter.

(** *** [create_command_printer] *)

(** [s.title()] on ASCII text: a letter that follows a letter is lowered,
    any other letter is raised. *)
Definition is_upper (c : ascii) : bool :=
  let n := N_of_ascii c in (N.leb 65 n && N.leb n 90)%N.
Definition is_lower (c : ascii) : bool :=
  let n := N_of_ascii c in (N.leb 97 n && N.leb n 122)%N.
Definition to_upper (c : ascii) : ascii :=
  if is_lower c then ascii_of_N (N_of_ascii c - 32) else c.
Definition to_lower (c : ascii) : ascii :=
  if is_upper c then ascii_of_N (N_of_ascii c + 32) else c.

Fixpoint title_go (previous_is_cased : bool) (s : string) : string :=
  match s with
  | EmptyString => ""
  | String c s' =>
      if is_upper c || is_lower c
      then String (if previous_is_cased then to_lower c else to_upper c)
                  (title_go true s')
      else String c (title_go false s')
  end.
Definition title (s : string) : string := title_go false s.

(** What the printer reports; [render] is the text it returns. *)
Record Description : Type := mkDescription {
  d_engine : string;
  d_commands : list string;
  d_name : string;
  d_job_id : Z;
  d_depends_on_jobs : gset Z
}.

Section CommandPrinter.

Variable subst_list :
  Env -> string -> list Node -> list Node -> result (list (list string)).
Variable escape_list : Env -> list string -> list string.
(** [str] of a list of commands and of a set of identifiers *)
Variable str_commands : list string -> string.
Variable str_set : gset Z -> string.
Variable generator : list Node -> list Node -> Env -> bool -> list string.

(** ["{0}({1})".format(self.name.title(), ", ".join([...]))] *)
Definition render (d : Description) : string :=
  title (d_engine d) +:+ "(" +:+
  Str.join ", "
    [ "commands=" +:+ str_commands (d_commands d);
      "name=" +:+ d_name d;
      "job_id=" +:+ pretty (d_job_id d);
      "depends_on_jobs=" +:+ str_set (d_depends_on_jobs d) ]
  +:+ ")".

(** The closure returned by [create_command_printer(generator)], up to
    the final formatting. The tags and the attributes go in and come
    out; when the name cannot be computed the targets are already
    tagged and the counter already advanced. *)
Definition command_printer (self : Engine) (target source : list Node)
  (env : Env) (st : TagStore * Attrs)
  : (TagStore * Attrs) * result Description :=
  let '(tags, attrs) := st in
  match prepare_commands subst_list escape_list target source env
          (generator target source env false) with
  | Raise e => (st, Raise e)
  | Ok commands =>
      let depends_on := collect_tags tags "built_by_pseudo_job" source in
      let job_id := get_pseudo_id attrs self in
      let tags' := tag_all tags "built_by_pseudo_job" job_id target in
      let attrs' :=
        set_pseudo_id attrs self (get_pseudo_id attrs self + 1) in
      ((tags', attrs'),
       name ← create_name self target source env;
       Ok (mkDescription (GridEngine.name self) commands name job_id
             depends_on))
  end.

(** The text the printer returns. *)
Definition command_printer_text (self : Engine)
  (target source : list Node) (env : Env) (st : TagStore * Attrs)
  : (TagStore * Attrs) * result string :=
  let '(st', r) := command_printer self target source env st in
  (st', d ← r; Ok (render d)).

(** A rule handed to the printer of an engine object. *)
Record Call : Type := mkCall {
  call_self : Engine;
  call_target : list Node;
  call_source : list Node;
  call_env : Env
}.

(** Successive calls in one process, with what each returned. *)
Fixpoint run_printer (calls : list Call) (st : TagStore * Attrs)
  : (TagStore * Attrs) * list (result Description) :=
  match calls with
  | [] => (st, [])
  | c :: calls' =>
      let '(st1, r) :=
        command_printer (call_self c) (call_target c) (call_source c)
          (call_env c) st in
      let '(st2, rs) := run_printer calls' st1 in
      (st2, r :: rs)
  end.

End CommandPrinter.

End GridEngine.

(** ** [job_exists] *)

Section JobExists.

(** [subprocess.Popen(argv, stdout=PIPE, stderr=PIPE)]; [communicate()]
    writes nothing to the process. *)
Variable Popen : list string -> result (string -> string).

(** [job_exists(job_name)] *)
Definition job_exists (job_name : string) : result bool :=
  pid ← Popen ["squeue"; "--me"; "--name"; job_name; "--noheader"];
  let stdout := pid "" in
  Ok (Nat.ltb 0 (String.length (PyInt.strip stdout))).

End JobExists.

(** ** [re.match] for the pattern of [create_builder]

    Regular expressions over character classes, matched by backtracking in
    the order of [re]: a greedy star tries the longest repetition first, a
    lazy one the shortest. The classes are those of text whose whitespace is
    ASCII. *)

Module Re.

Inductive regex : Type :=
  | Chr (p : ascii -> bool)
  | Star (p : ascii -> bool)
  | StarLazy (p : ascii -> bool)
  | Opt (p : ascii -> bool)
  | Cat (r1 r2 : regex)
  | Group (r : regex)
  | Eos.

(** [\s], [\S] and [.] *)
Definition space (c : ascii) : bool :=
  let n := N_of_ascii c in
  ((N.leb 9 n && N.leb n 13) || (N.leb 28 n && N.leb n 32))%N.
Definition nonspace (c : ascii) : bool := negb (space c).
Definition dot (c : ascii) : bool := negb (Ascii.eqb c LF).

Definition is_ascii (c : ascii) : bool := (N.ltb (N_of_ascii c) 128)%N.

(** a literal text, and [r+] for a class *)
Fixpoint lit (s : string) : regex :=
  match s with
  | EmptyString => Star (fun _ => false)
  | String c EmptyString => Chr (Ascii.eqb c)
  | String c s' => Cat (Chr (Ascii.eqb c)) (lit s')
  end.
Definition plus (p : ascii -> bool) : regex := Cat (Chr p) (Star p).

(** [p*]: as many characters as possible, then fewer. *)
Fixpoint star {R} (p : ascii -> bool) (s : string) (k : string -> option R)
  : option R :=
  match s with
  | String c s' =>
      if p c then
        match star p s' k with
        | Some r => Some r
        | None => k s
        end
      else k s
  | EmptyString => k s
  end.

(** [p*?]: as few characters as possible, then more. *)
Fixpoint star_lazy {R} (p : ascii -> bool) (s : string)
  (k : string -> option R) : option R :=
  match k s with
  | Some r => Some r
  | None =>
      match s with
      | String c s' => if p c then star_lazy p s' k else None
      | EmptyString => None
      end
  end.

(** The text between the start [s] of a group and what is left at its end. *)
Definition consumed (s rest : string) : string :=
  Str.take (String.length s - String.length rest) s.

(** Match [r] at the head of [s], then go on with [k] on what is left; the
    groups closed so far are collected in order. *)
Fixpoint matcher (r : regex) (s : string) (groups : list string)
  (k : string -> list string -> option (list string))
  : option (list string) :=
  match r with
  | Chr p =>
      match s with
      | String c s' => if p c then k s' groups else None
      | EmptyString => None
      end
  | Star p => star p s (fun s' => k s' groups)
  | StarLazy p => star_lazy p s (fun s' => k s' groups)
  | Opt p =>
      match s with
      | String c s' =>
          if p c then
            match k s' groups with
            | Some r => Some r
            | None => k s groups
            end
          else k s groups
      | EmptyString => k s groups
      end
  | Cat r1 r2 => matcher r1 s groups (fun s' g' => matcher r2 s' g' k)
  | Group r' =>
      matcher r' s groups (fun s' g' => k s' (g' ++ [consumed s s']))
  | Eos =>
      if String.eqb s "" || String.eqb s nl then k s groups else None
  end.

(** [re.match(r, s)] and its [groups()] *)
Definition re_match (r : regex) (s : string) : option (list string) :=
  matcher r s [] (fun _ groups => Some groups).

(** What a successful match means: [r] matches [pre] when [rest] follows,
    and its groups hold [groups]. *)
Inductive Sem : regex -> string -> string -> list string -> Prop :=
  | SemChr p c rest : p c = true -> Sem (Chr p) (String c "") rest []
  | SemStar p pre rest :
      Str.forallb p pre = true -> Sem (Star p) pre rest []
  | SemStarLazy p pre rest :
      Str.forallb p pre = true -> Sem (StarLazy p) pre rest []
  | SemOptNone p rest : Sem (Opt p) "" rest []
  | SemOptSome p c rest : p c = true -> Sem (Opt p) (String c "") rest []
  | SemCat r1 r2 pre1 pre2 rest g1 g2 :
      Sem r1 pre1 (pre2 +:+ rest) g1 ->
      Sem r2 pre2 rest g2 ->
      Sem (Cat r1 r2) (pre1 +:+ pre2) rest (g1 ++ g2)
  | SemGroup r pre rest g :
      Sem r pre rest g -> Sem (Group r) pre rest (g ++ [pre])
  | SemEos rest : rest = "" \/ rest = nl -> Sem Eos "" rest [].

(** The pattern of [create_builder]: leading whitespace; group 1, non-blank
    characters ending in [Python] or [python] and an optional [3];
    whitespace; group 2, as few characters as possible and then [.py];
    whitespace; group 3, the rest of the line; the end of the text. *)
Definition command_pattern : regex :=
  Cat (Star space)
 (Cat (Group (Cat (Star nonspace)
             (Cat (Chr (fun c => Ascii.eqb c "P" || Ascii.eqb c "p"))
             (Cat (lit "ython") (Opt (Ascii.eqb "3"))))))
 (Cat (plus space)
 (Cat (Group (Cat (StarLazy dot) (lit ".py")))
 (Cat (plus space)
 (Cat (Group (Star dot)) Eos))))).

End Re.

(** ** [GridEngine.create_builder] *)

(** What [Builder(action=Action(method, printer), emitter=emitter)] is made
    of, with [action.gc]. *)
Record Builder : Type := mkBuilder {
  action_method :
    list Node -> list Node -> Env -> TagStore -> TagStore * result unit;
  action_printer :
    list Node -> list Node -> Env -> TagStore * GridEngine.Attrs ->
    (TagStore * GridEngine.Attrs) * result string;
  action_gc : list Node -> list Node -> Env -> string;
  builder_emitter :
    list Node -> list Node -> Env -> GridEngine.EmitWorld ->
    GridEngine.EmitWorld * result (list Node * list Node)
}.

Section CreateBuilder.

Variable subst_list :
  Env -> string -> list Node -> list Node -> result (list (list string)).
Variable escape_list : Env -> list string -> list string.
Variable renv_subst : Override -> string -> result string.
Variable shlex_split : string -> result (list string).
Variable Popen : list string -> result (string -> string).
Variable getcwd : string.
Variable Dir_abspath : Env -> string -> string.
Variable str_commands : list string -> string.
Variable str_set : gset Z -> string.
(** [os.path.exists] *)
Variable path_exists : string -> bool.
(** [Action(commands).get_contents(target, source, env)] *)
Variable action_get_contents :
  list string -> list Node -> list Node -> Env -> string.

(** [self.create_builder(env, builder)], where [commands] is
    [builder.action.presub_lines(env)], [chdir] is [builder.action.chdir]
    and [submit_string] is [self.submit_string]. *)
Definition create_builder (self : GridEngine.Engine) (submit_string : string)
  (commands : list string) (chdir : option string) : result Builder :=
  commands0 ← match commands with
               | c :: _ => Ok c
               | [] => Raise IndexError
               end;
  match Re.re_match Re.command_pattern commands0 with
  | None =>
      Raise (Exception ("Could not parse command: '" +:+ commands0 +:+ "'"))
  | Some [interpreter; script; args] =>
      if negb (path_exists script)
      then Raise (Exception ("No such file: '" +:+ script +:+ "'"))
      else
        let generator := GridEngine.create_generator self commands in
        let get_contents :=
          fun target source env =>
            action_get_contents (generator target source env false)
              target source env in
        Ok (mkBuilder
              (method subst_list escape_list renv_subst shlex_split Popen
                 getcwd Dir_abspath generator chdir submit_string)
              (GridEngine.command_printer_text subst_list escape_list
                 str_commands str_set generator self)
              get_contents
              (GridEngine.emitter script get_contents []))
  | Some _ => Raise (ValueError "not enough values to unpack")
  end.

End CreateBuilder.

(** ** Occurrences of a text *)

(** [old in s] *)
Fixpoint occurs (old s : string) : bool :=
  Str.starts_with old s
  || match s with
     | String _ s' => occurs old s'
     | EmptyString => false
     end.

(** * A sample host

    A small build system and operating system on which the functions run:
    substitution leaves text as it is, the command line is one word, and the
    scheduler answers with a fixed text. *)

Module Sample.

Definition subst_list (env : Env) (c : string) (target source : list Node)
  : result (list (list string)) := Ok [[c]].
Definition escape_list (env : Env) (l : list string) : list string := l.
Definition renv_subst (renv : Override) (s : string) : result string :=
  Ok s.
Definition shlex_split (s : string) : result (list string) := Ok [s].
Definition Popen (answer : string) (argv : list string)
  : result (string -> string) := Ok (fun _ => answer).
Definition getcwd : string := "/w".
Definition Dir_abspath (env : Env) (d : string) : string := d.
Definition generator (target source : list Node) (env : Env)
  (for_signature : bool) : list string := ["python run.py --x 1"].
Definition get_contents (target source : list Node) (env : Env) : string :=
  "run --x 1".
Definition str_commands (l : list string) : string :=
  "[" +:+ Str.join ", " (map (fun c => "'" +:+ c +:+ "'") l) +:+ "]".
Definition str_set (d : gset Z) : string :=
  match elements d with
  | [] => "set()"
  | l => "{" +:+ Str.join ", " (map pretty l) +:+ "}"
  end.

Definition env : Env :=
  {[ "STEAMROLLER_NAME_PREFIX" := "steamroller";
     "STEAMROLLER_SHELL" := "#!/bin/bash" ]}.

Definition out_txt : Node := mkNode FileNode "/w/out.txt".
Definition in_txt : Node := mkNode FileNode "/w/in.txt".
Definition models_d : Node := mkNode DirNode "/w/models.d".
Definition deep_txt : Node := mkNode FileNode "/w/sub/deep/out.txt".

(** the method of a rule whose scheduler prints [answer] *)
Definition method (answer : string) :=
  method subst_list escape_list renv_subst shlex_split (Popen answer)
    getcwd Dir_abspath generator None "sbatch".

Definition emitter :=
  GridEngine.emitter "run.py" get_contents [].

Definition empty_world : GridEngine.EmitWorld :=
  GridEngine.mkEmitWorld ∅ ∅ [].

Definition command_printer_text :=
  GridEngine.command_printer_text subst_list escape_list str_commands
    str_set generator.

Definition slurm : GridEngine.Engine := GridEngine.mkEngine 1 "slurm".
Definition sge : GridEngine.Engine := GridEngine.mkEngine 2 "sge".

End Sample.

(** A sample file system and builder: only [run.py] exists, and the
    contents of an action are its commands, one per line. *)

Module SampleBuilder.

Definition path_exists (path : string) : bool := String.eqb path "run.py".
Definition action_get_contents (commands : list string)
  (target source : list Node) (env : Env) : string := Str.join nl commands.
Definition create_builder :=
  create_builder Sample.subst_list Sample.escape_list Sample.renv_subst
    Sample.shlex_split (Sample.Popen "1337") Sample.getcwd
    Sample.Dir_abspath Sample.str_commands Sample.str_set path_exists
    action_get_contents Sample.slurm "sbatch".
Definition parse (command : string) : option (list string) :=
  Re.re_match Re.command_pattern command.
Definition tab : string := String "009"%char "".

End SampleBuilder.

(** * Checks of the embedding on concrete inputs *)

Example md5_empty : MD5.hexdigest "" = "d41d8cd98f00b204e9800998ecf8427e".
Proof. vm_compute. reflexivity. Qed.
Example md5_abc : MD5.hexdigest "abc" = "900150983cd24fb0d6963f7d28e17f72".
Proof. vm_compute. reflexivity. Qed.
Example splitext_file : OsPath.splitext "/w/out.txt" = ("/w/out", ".txt").
Proof. reflexivity. Qed.
Example splitext_two_dots :
  OsPath.splitext "/w/a.tar.gz" = ("/w/a.tar", ".gz").
Proof. reflexivity. Qed.
Example splitext_hidden : OsPath.splitext "/w/.bashrc" = ("/w/.bashrc", "").
Proof. reflexivity. Qed.
Example splitext_dot_in_dir : OsPath.splitext "/w.d/out" = ("/w.d/out", "").
Proof. reflexivity. Qed.
Example join_plain : OsPath.join "/usr/bin" "sbatch" = "/usr/bin/sbatch".
Proof. reflexivity. Qed.
Example join_slash : OsPath.join "/usr/bin/" "sbatch" = "/usr/bin/sbatch".
Proof. reflexivity. Qed.
Example join_empty : OsPath.join "" "sbatch" = "sbatch".
Proof. reflexivity. Qed.
Example join_absolute : OsPath.join "/usr/bin" "/opt/x" = "/opt/x".
Proof. reflexivity. Qed.
Example dirname_file : OsPath.dirname "/w/sub/out_txt.command" = "/w/sub".
Proof. reflexivity. Qed.
Example dirname_root : OsPath.dirname "/out" = "/".
Proof. reflexivity. Qed.
Example split_path :
  Str.split ":" "/usr/bin::/bin" = ["/usr/bin"; ""; "/bin"].
Proof. reflexivity. Qed.
Example split_empty : Str.split ":" "" = [""].
Proof. reflexivity. Qed.
Example replace_options :
  Str.replace " --" (nl +:+ "  --") "run --x 1 --y"
  = "run" +:+ nl +:+ "  --x 1" +:+ nl +:+ "  --y".
Proof. reflexivity. Qed.
Example replace_three_dashes :
  Str.replace " --" "X" "a ---b  --" = "aX-b X".
Proof. reflexivity. Qed.
Example replace_adjacent : Str.replace " --" "X" "  -- --" = " XX".
Proof. reflexivity. Qed.
Example replace_overlap : Str.replace "aa" "b" "aaaaa" = "bba".
Proof. reflexivity. Qed.
Example int_1337 : PyInt.int (PyInt.strip ("1337" +:+ nl)) = Ok 1337.
Proof. reflexivity. Qed.
Example int_negative : PyInt.int "-12" = Ok (-12).
Proof. reflexivity. Qed.
Example int_underscore : PyInt.int "1_000" = Ok 1000.
Proof. reflexivity. Qed.
Example int_bad_underscore : exists e, PyInt.int "1__0" = Raise e.
Proof. eexists. reflexivity. Qed.
Example int_empty : exists e, PyInt.int "" = Raise e.
Proof. eexists. reflexivity. Qed.
Example split_nested : OsPath.split "/w/sub/deep" = ("/w/sub", "deep").
Proof. reflexivity. Qed.
Example split_top : OsPath.split "/w" = ("/", "w").
Proof. reflexivity. Qed.
Example split_root : OsPath.split "/" = ("/", "").
Proof. reflexivity. Qed.
Example split_relative : OsPath.split "sub" = ("", "sub").
Proof. reflexivity. Qed.
Example split_trailing_slash : OsPath.split "a/b/" = ("a/b", "").
Proof. reflexivity. Qed.
Example split_double_slash : OsPath.split "a//b" = ("a", "b").
Proof. reflexivity. Qed.
Example split_leading_slashes : OsPath.split "//x" = ("//", "x").
Proof. reflexivity. Qed.

(** [os.makedirs] makes the missing parents, only the parent under a last
    component [.], and goes through a trailing separator. *)
Example makedirs_parents :
  GridEngine.directories
    (GridEngine.makedirs (GridEngine.mkEmitWorld ∅ {[ "/w" ]} [])
       "/w/sub/deep")
  = {[ "/w"; "/w/sub"; "/w/sub/deep" ]}.
Proof. vm_compute. reflexivity. Qed.
Example makedirs_dot :
  GridEngine.directories
    (GridEngine.makedirs (GridEngine.mkEmitWorld ∅ {[ "/w" ]} []) "/w/a/.")
  = {[ "/w"; "/w/a" ]}.
Proof. vm_compute. reflexivity. Qed.
Example makedirs_trailing_slash :
  GridEngine.directories
    (GridEngine.makedirs (GridEngine.mkEmitWorld ∅ {[ "/w" ]} []) "/w/b/c/")
  = {[ "/w"; "/w/b"; "/w/b/c/" ]}.
Proof. vm_compute. reflexivity. Qed.
Example makedirs_existing :
  GridEngine.directories
    (GridEngine.makedirs (GridEngine.mkEmitWorld ∅ {[ "/w"; "/w/sub" ]} [])
       "/w/sub")
  = {[ "/w"; "/w/sub" ]}.
Proof. vm_compute. reflexivity. Qed.
Example emitter_makes_parents :
  GridEngine.directories
    (Sample.emitter [Sample.deep_txt] [] Sample.env
       (GridEngine.mkEmitWorld ∅ {[ "/w" ]} [])).1
  = {[ "/w"; "/w/sub"; "/w/sub/deep" ]}.
Proof. vm_compute. reflexivity. Qed.
Example int_inner_space : exists e, PyInt.int "1 2" = Raise e.
Proof. eexists. reflexivity. Qed.
Example md5_two_blocks :
  MD5.hexdigest
    "aaaaaaaaaaaaaaaaaaaaaaaaaaaaaaaaaaaaaaaaaaaaaaaaaaaaaaaaaaaaaaaaaaaaaa"
  = "0f5c6c4e740bfcc08c3c26ccb2673d46".
Proof. vm_compute. reflexivity. Qed.
Example md5_full_pad :
  MD5.hexdigest
    "aaaaaaaaaaaaaaaaaaaaaaaaaaaaaaaaaaaaaaaaaaaaaaaaaaaaaaaa"
  = "3b0c8ac703f828b04c6c197006d17218".
Proof. vm_compute. reflexivity. Qed.
Example md5_command : MD5.hexdigest "run --x 1" = "d9fb6462cd3056200acc12641bbf7b3b".
Proof. vm_compute. reflexivity. Qed.
Example create_name_value :
  create_name [mkNode FileNode "/w/out.txt"] [mkNode FileNode "/w/in.txt"]
    {[ "STEAMROLLER_NAME_PREFIX" := "steamroller" ]}
  = Ok "steamroller_adefb3d7f9abf2a708990c728d129651".
Proof. vm_compute. reflexivity. Qed.
Example create_name_three_paths :
  create_name [mkNode FileNode "/w/a.txt"; mkNode FileNode "/w/b.txt"]
    [mkNode FileNode "/w/c.txt"]
    {[ "STEAMROLLER_NAME_PREFIX" := "steamroller" ]}
  = Ok "steamroller_d3e50171fe03f06c6211a18b77d13999".
Proof. vm_compute. reflexivity. Qed.
Example create_name_sources_after_targets :
  create_name [mkNode FileNode "/w/in.txt"] [mkNode FileNode "/w/out.txt"]
    {[ "STEAMROLLER_NAME_PREFIX" := "steamroller" ]}
  = Ok "steamroller_a365472506f1dfe11152b5925defb8bb".
Proof. vm_compute. reflexivity. Qed.
Example create_name_no_paths :
  create_name [] [] {[ "STEAMROLLER_NAME_PREFIX" := "p" ]}
  = Ok "p_d41d8cd98f00b204e9800998ecf8427e".
Proof. vm_compute. reflexivity. Qed.
Example printer_text :
  (Sample.command_printer_text Sample.slurm [Sample.out_txt] [Sample.in_txt]
     Sample.env (Tag ∅ Sample.in_txt "built_by_pseudo_job" 7,
                 GridEngine.initial_attrs)).2
  = Ok ("Slurm(commands=['python run.py --x 1'], "
        +:+ "name=steamroller_adefb3d7f9abf2a708990c728d129651, "
        +:+ "job_id=0, depends_on_jobs={7})").
Proof. vm_compute. reflexivity. Qed.
Example title_name : GridEngine.title "slurm engine-x" = "Slurm Engine-X".
Proof. reflexivity. Qed.

(** The digit limit: 4300 digits are read, 4301 are refused, also with
    leading zeros and before a character that is not a digit; a misplaced
    underscore is refused first. *)
Example int_exceeds_limit :
  PyInt.int (chars 4301 "1")
  = Raise (ValueError "Exceeds the limit (4300 digits) for integer string conversion: value has 4301 digits; use sys.set_int_max_str_digits() to increase the limit").
Proof. vm_compute. reflexivity. Qed.
Example int_at_limit :
  PyInt.int ("+" +:+ chars 4300 "0" +:+ nl) = Ok 0.
Proof. vm_compute. reflexivity. Qed.
Example int_exceeds_before_bad_char :
  PyInt.int ("-" +:+ chars 4301 "0" +:+ "x")
  = Raise (ValueError (PyInt.exceeds_limit 4301)).
Proof. vm_compute. reflexivity. Qed.
Example int_underscore_before_limit :
  PyInt.int (chars 5000 "1" +:+ "__1")
  = Raise (ValueError
             ("invalid literal for int() with base 10: b'"
              +:+ chars 198 "1")).
Proof. vm_compute. reflexivity. Qed.

(** The message of a refused literal shows the [repr] of the bytes. *)
Example int_refused_sentence :
  PyInt.int "Submitted batch job 1337"
  = Raise (ValueError
             "invalid literal for int() with base 10: b'Submitted batch job 1337'").
Proof. vm_compute. reflexivity. Qed.
Example repr_single_quote :
  PyInt.repr_bytes "it's"
  = "b" +:+ String PyInt.dquote "it's" +:+ String PyInt.dquote "".
Proof. vm_compute. reflexivity. Qed.
Example repr_both_quotes :
  PyInt.repr_bytes ("both'" +:+ String PyInt.dquote "")
  = "b'both\'" +:+ String PyInt.dquote "'".
Proof. vm_compute. reflexivity. Qed.
Example repr_newline : PyInt.repr_bytes ("a" +:+ nl +:+ "b") = "b'a\nb'".
Proof. vm_compute. reflexivity. Qed.
Example repr_high_byte :
  PyInt.repr_bytes (String (ascii_of_nat 255) "12") = "b'\xff12'".
Proof. vm_compute. reflexivity. Qed.
Example repr_controls :
  PyInt.repr_bytes
    (String (ascii_of_nat 9)
       (String (ascii_of_nat 127) (String (ascii_of_nat 31) " ~\")))
  = "b'\t\x7f\x1f ~\\'".
Proof. vm_compute. reflexivity. Qed.
Example int_empty_message :
  PyInt.int "" = Raise (ValueError "invalid literal for int() with base 10: b''").
Proof. vm_compute. reflexivity. Qed.

Example parse_command : SampleBuilder.parse "python run.py --x 1"
  = Some ["python"; "run.py"; "--x 1"].
Proof. reflexivity. Qed.
Example parse_no_argument : SampleBuilder.parse "python run.py" = None.
Proof. reflexivity. Qed.
Example parse_final_newline :
  SampleBuilder.parse ("python run.py" +:+ nl) = Some ["python"; "run.py"; ""].
Proof. reflexivity. Qed.
Example parse_path_and_scripts :
  SampleBuilder.parse "  /usr/bin/python3 a.py b.py c"
  = Some ["/usr/bin/python3"; "a.py"; "b.py c"].
Proof. reflexivity. Qed.
Example parse_lazy_script : SampleBuilder.parse "python a.pyc b.py x"
  = Some ["python"; "a.pyc b.py"; "x"].
Proof. reflexivity. Qed.
Example parse_two_lines :
  SampleBuilder.parse ("python run.py a" +:+ nl +:+ "b") = None.
Proof. reflexivity. Qed.
Example parse_two_newlines :
  SampleBuilder.parse ("python run.py a" +:+ nl +:+ nl) = None.
Proof. reflexivity. Qed.
Example parse_other_interpreter : SampleBuilder.parse "pythonx run.py a" = None.
Proof. reflexivity. Qed.
Example parse_tabs :
  SampleBuilder.parse
    ("Python" +:+ SampleBuilder.tab +:+ "run.py" +:+ SampleBuilder.tab)
  = Some ["Python"; "run.py"; ""].
Proof. reflexivity. Qed.
Example parse_bare_extension : SampleBuilder.parse "python .py a"
  = Some ["python"; ".py"; "a"].
Proof. reflexivity. Qed.
Example job_exists_listed :
  job_exists (fun _ => Ok (fun _ => " 1337 run" +:+ nl)) "steamroller_x"
  = Ok true.
Proof. reflexivity. Qed.
Example job_exists_blank :
  job_exists (fun _ => Ok (fun _ => " " +:+ nl)) "steamroller_x" = Ok false.
Proof. reflexivity. Qed.

(** * Properties *)

(** ** Job names *)

(** C10: the module-level [create_name] and the method
    [GridEngine.create_name] return the same result (the same name, or the
    same error) for every target list, source list and environment, whatever
    the engine object is. *)
Theorem create_name_method_agrees (self : GridEngine.Engine)
    (target source : list Node) (env : Env) :
  GridEngine.create_name self target source env
  = create_name target source env.
Proof. reflexivity. Qed.

(** ** Tags *)

Section TagLemmas.

Implicit Types (st : TagStore) (n : Node) (key : string) (v : Z).

Lemma GetTag_Tag_same st n key v : GetTag (Tag st n key v) n key = Some v.
Proof.
  unfold GetTag, Tag. rewrite lookup_insert_eq. simpl.
  apply lookup_insert_eq.
Qed.

Lemma GetTag_Tag_other st n key v n' key' :
  n' <> n \/ key' <> key ->
  GetTag (Tag st n key v) n' key' = GetTag st n' key'.
Proof.
  intros H. unfold GetTag, Tag.
  destruct (decide (n = n')) as [->|Hn].
  - rewrite lookup_insert_eq. simpl.
    destruct H as [H|H]; [congruence|].
    rewrite lookup_insert_ne by congruence.
    destruct (st !! n') as [d|]; simpl; [reflexivity|apply lookup_empty].
  - rewrite lookup_insert_ne by assumption. reflexivity.
Qed.

Lemma GetTag_tag_all_other st key v (target : list Node) n' key' :
  n' ∉ target \/ key' <> key ->
  GetTag (tag_all st key v target) n' key' = GetTag st n' key'.
Proof.
  unfold tag_all. revert st.
  induction target as [|t target IH]; intros st H; simpl; [reflexivity|].
  rewrite IH.
  - apply GetTag_Tag_other. destruct H as [H|H]; [left|right; exact H].
    intros ->. apply H. left.
  - destruct H as [H|H]; [left|right; exact H].
    intros Hin. apply H. right. exact Hin.
Qed.

Lemma GetTag_tag_all_target st key v (target : list Node) n :
  n ∈ target -> GetTag (tag_all st key v target) n key = Some v.
Proof.
  unfold tag_all. revert st.
  induction target as [|t target IH]; intros st Hin; simpl.
  - inversion Hin.
  - destruct (decide (n ∈ target)) as [Hd|Hd]; [apply IH, Hd|].
    apply elem_of_cons in Hin as [->|Hin]; [|contradiction].
    change (GetTag (tag_all (Tag st t key v) key v target) t key = Some v).
    rewrite GetTag_tag_all_other by (left; exact Hd).
    apply GetTag_Tag_same.
Qed.

Lemma elem_of_set_of (l : list (option Z)) (j : Z) :
  j ∈ set_of l <-> Some j ∈ l.
Proof.
  induction l as [|[k|] l IH]; simpl.
  - split; [intros H; set_solver|intros H; inversion H].
  - rewrite elem_of_union, elem_of_singleton, IH, elem_of_cons.
    split; (intros [H|H]; [left; congruence|right; exact H]).
  - rewrite IH, elem_of_cons. split; [intros H; right; exact H|].
    intros [H|H]; [discriminate|exact H].
Qed.

Lemma elem_of_collect_tags st key (source : list Node) (j : Z) :
  j ∈ collect_tags st key source
  <-> exists s, s ∈ source /\ GetTag st s key = Some j.
Proof.
  unfold collect_tags, tag_values.
  rewrite elem_of_set_of, list_elem_of_In, filter_In, <- list_elem_of_In.
  rewrite list_elem_of_fmap. split.
  - intros [(s & Hs & Hin) _]. exists s. split; [exact Hin|congruence].
  - intros (s & Hin & Hs). split; [|reflexivity].
    exists s. split; [congruence|exact Hin].
Qed.

End TagLemmas.

(** ** The real submission path *)

Section MethodProperties.

Variable subst_list :
  Env -> string -> list Node -> list Node -> result (list (list string)).
Variable escape_list : Env -> list string -> list string.
Variable renv_subst : Override -> string -> result string.
Variable shlex_split : string -> result (list string).
Variable Popen : list string -> result (string -> string).
Variable getcwd : string.
Variable Dir_abspath : Env -> string -> string.
Variable generator : list Node -> list Node -> Env -> bool -> list string.
Variable chdir : option string.
Variable submit_string : string.

Local Abbreviation the_submit :=
  (submit renv_subst shlex_split Popen submit_string).
Local Abbreviation the_method_submit :=
  (method_submit subst_list escape_list renv_subst shlex_split Popen getcwd
     Dir_abspath generator chdir submit_string).
Local Abbreviation the_method :=
  (method subst_list escape_list renv_subst shlex_split Popen getcwd
     Dir_abspath generator chdir submit_string).

Local Arguments Str.join : simpl never.
Local Arguments PyInt.int : simpl never.
Local Arguments tag_all : simpl never.

(** C3: the set [depends_on] that the method hands to [submit] holds an
    identifier exactly when some source node carries it as its
    [built_by_job] tag; a source without that tag adds nothing. *)
Theorem depends_on_exact (target source : list Node) (env : Env)
    (st : TagStore) :
  let depends_on := collect_tags st "built_by_job" source in
  the_method_submit target source env st
  = (commands ← prepare_commands subst_list escape_list target source env
                  (generator target source env false);
     the_submit target source env commands depends_on
       (if truthy chdir then Dir_abspath env (default "" chdir)
        else getcwd))
  /\ (forall j : Z,
        j ∈ depends_on
        <-> exists s, s ∈ source /\ GetTag st s "built_by_job" = Some j)
  /\ (forall s : Node,
        GetTag st s "built_by_job" = None ->
        collect_tags st "built_by_job" (s :: source) = depends_on).
Proof.
  intros depends_on. split; [reflexivity|]. split.
  - intros j. apply elem_of_collect_tags.
  - intros s Hs. subst depends_on. unfold collect_tags, tag_values.
    simpl. rewrite Hs. reflexivity.
Qed.

(** C9: the method changes no tag except [built_by_job] on the target
    nodes: on every node outside the target list (the sources among them)
    every tag reads as before, and on every node every other key reads as
    before. *)
Theorem method_writes_only_built_by_job (target source : list Node)
    (env : Env) (st : TagStore) (n : Node) (key : string) :
  n ∉ target \/ key <> "built_by_job" ->
  GetTag (the_method target source env st).1 n key = GetTag st n key.
Proof.
  intros H. unfold method.
  destruct (method_submit _ _ _ _ _ _ _ _ _ _ _ _ _ _) as [job_id|e];
    simpl; [|reflexivity].
  apply GetTag_tag_all_other. exact H.
Qed.

(** On success every target carries the new identifier. *)
Lemma method_tags_targets (target source : list Node) (env : Env)
    (st : TagStore) (job_id : Z) (t : Node) :
  the_method_submit target source env st = Ok job_id ->
  t ∈ target ->
  GetTag (the_method target source env st).1 t "built_by_job" = Some job_id.
Proof.
  intros Hs Hin. unfold method.
  rewrite Hs. simpl. apply GetTag_tag_all_target. exact Hin.
Qed.

(** C4: when the submission process has been launched and has written
    [out], the job identifier is [int(out.strip())]: if that is an integer
    every target is tagged with it, and if it is not the method raises the
    parse error and the tag store is what it was. *)
Theorem method_parses_job_id (target source : list Node) (env : Env)
    (st : TagStore) (commands : list string) (name sub shell : string)
    (argv : list string) (p : string -> string) (t0 : Node)
    (rest : list Node) :
  prepare_commands subst_list escape_list target source env
    (generator target source env false) = Ok commands ->
  create_name target source env = Ok name ->
  target = t0 :: rest ->
  renv_subst
    (mkOverride env name (get_abspath t0 +:+ ".log")
       (if truthy chdir then Dir_abspath env (default "" chdir) else getcwd)
       (collect_tags st "built_by_job" source) submit_string)
    submit_string = Ok sub ->
  shlex_split sub = Ok argv ->
  Popen argv = Ok p ->
  env !! "STEAMROLLER_SHELL" = Some shell ->
  let out := p (Str.join nl (shell :: commands)) in
  the_method target source env st
  = match PyInt.int (PyInt.strip out) with
    | Ok job_id => (tag_all st "built_by_job" job_id target, Ok tt)
    | Raise e => (st, Raise e)
    end.
Proof.
  intros Hc Hn Ht Hsub Hargv Hp Hshell out.
  unfold method, method_submit.
  rewrite Hc. simpl. unfold submit. rewrite Hn. simpl.
  rewrite Ht. simpl. rewrite Ht in Hn. rewrite Hsub. simpl.
  rewrite Hargv. simpl. rewrite Hp. simpl.
  unfold renv_getitem. simpl. unfold env_getitem. rewrite Hshell. simpl.
  fold out. destruct (PyInt.int (PyInt.strip out)); reflexivity.
Qed.

(** Whatever the error, the method leaves the tags alone when it raises. *)
Lemma method_error_keeps_tags (target source : list Node) (env : Env)
    (st : TagStore) (e : PyError) :
  (the_method target source env st).2 = Raise e ->
  (the_method target source env st).1 = st.
Proof.
  unfold method.
  destruct (method_submit _ _ _ _ _ _ _ _ _ _ _ _ _ _); simpl;
    [discriminate|reflexivity].
Qed.

End MethodProperties.

Lemma method_writes_only_built_by_job_witness :
  GetTag
    (Sample.method ("1337" +:+ nl) [Sample.out_txt] [Sample.in_txt]
       Sample.env (Tag ∅ Sample.in_txt "built_by_job" 42)).1
    Sample.in_txt "built_by_job"
  = GetTag (Tag ∅ Sample.in_txt "built_by_job" 42) Sample.in_txt
      "built_by_job".
Proof.
  apply (method_writes_only_built_by_job Sample.subst_list Sample.escape_list
           Sample.renv_subst Sample.shlex_split
           (Sample.Popen ("1337" +:+ nl)) Sample.getcwd Sample.Dir_abspath
           Sample.generator None "sbatch").
  left. intros H. apply list_elem_of_singleton in H. discriminate H.
Defined.

Lemma method_parses_job_id_witness :
  Sample.method ("1337" +:+ nl) [Sample.out_txt] [Sample.in_txt] Sample.env ∅
  = (tag_all ∅ "built_by_job" 1337 [Sample.out_txt], Ok tt)
  /\ Sample.method ("not-a-number" +:+ nl) [Sample.out_txt] [Sample.in_txt]
       Sample.env ∅
     = (∅, Raise (ValueError
                    "invalid literal for int() with base 10: b'not-a-number'")).
Proof.
  split.
  - exact (method_parses_job_id Sample.subst_list Sample.escape_list
             Sample.renv_subst Sample.shlex_split
             (Sample.Popen ("1337" +:+ nl)) Sample.getcwd Sample.Dir_abspath
             Sample.generator None "sbatch"
             [Sample.out_txt] [Sample.in_txt] Sample.env ∅
             ["python run.py --x 1"]
             ("steamroller" +:+ "_" +:+
              MD5.hexdigest (Str.join " " ["/w/out.txt"; "/w/in.txt"]))
             "sbatch" "#!/bin/bash" ["sbatch"] (fun _ => "1337" +:+ nl)
             Sample.out_txt []
             eq_refl eq_refl eq_refl eq_refl eq_refl eq_refl eq_refl).
  - exact (method_parses_job_id Sample.subst_list Sample.escape_list
             Sample.renv_subst Sample.shlex_split
             (Sample.Popen ("not-a-number" +:+ nl)) Sample.getcwd
             Sample.Dir_abspath Sample.generator None "sbatch"
             [Sample.out_txt] [Sample.in_txt] Sample.env ∅
             ["python run.py --x 1"]
             ("steamroller" +:+ "_" +:+
              MD5.hexdigest (Str.join " " ["/w/out.txt"; "/w/in.txt"]))
             "sbatch" "#!/bin/bash" ["sbatch"]
             (fun _ => "not-a-number" +:+ nl)
             Sample.out_txt []
             eq_refl eq_refl eq_refl eq_refl eq_refl eq_refl eq_refl).
Defined.

(** ** Strings and paths *)

Section StringLemmas.

Implicit Types (s p : string) (c : ascii) (n : nat).

Lemma append_cons (a : ascii) s t : String a s +:+ t = String a (s +:+ t).
Proof. reflexivity. Qed.

Lemma append_nil_l s : "" +:+ s = s.
Proof. reflexivity. Qed.

Ltac str_simpl := simpl; rewrite ?append_cons, ?append_nil_l; simpl.

Lemma append_nil_r s : s +:+ "" = s.
Proof.
  induction s as [|a s IH]; str_simpl; [reflexivity|].
  rewrite IH. reflexivity.
Qed.

Lemma append_assoc s1 s2 s3 : (s1 +:+ s2) +:+ s3 = s1 +:+ (s2 +:+ s3).
Proof.
  induction s1 as [|a s1 IH]; str_simpl; [reflexivity|].
  rewrite IH. reflexivity.
Qed.

Lemma take_drop n s : Str.take n s +:+ Str.drop n s = s.
Proof.
  revert s. induction n as [|n IH]; intros [|a s]; str_simpl;
    try reflexivity.
  rewrite IH. reflexivity.
Qed.

Lemma length_take n s :
  String.length (Str.take n s) = min n (String.length s).
Proof.
  revert s. induction n as [|n IH]; intros [|a s]; simpl; try reflexivity.
  rewrite IH. reflexivity.
Qed.

Lemma starts_with_take n s : Str.starts_with (Str.take n s) s = true.
Proof.
  revert s. induction n as [|n IH]; intros [|a s]; simpl; try reflexivity.
  rewrite Ascii.eqb_refl, IH. reflexivity.
Qed.

Lemma forallb_take (f : ascii -> bool) n s :
  Str.forallb f s = true -> Str.forallb f (Str.take n s) = true.
Proof.
  revert s. induction n as [|n IH]; intros [|a s]; simpl; try reflexivity.
  intros H. apply andb_prop in H as [Ha Hs]. rewrite Ha, (IH s Hs).
  reflexivity.
Qed.

Lemma forallb_append (f : ascii -> bool) s1 s2 :
  Str.forallb f (s1 +:+ s2) = Str.forallb f s1 && Str.forallb f s2.
Proof.
  induction s1 as [|a s1 IH]; str_simpl; [reflexivity|].
  rewrite IH. apply andb_assoc.
Qed.

Lemma drop_add n m s : Str.drop (n + m) s = Str.drop m (Str.drop n s).
Proof.
  revert s. induction n as [|n IH]; intros s; simpl; [reflexivity|].
  destruct s as [|a s]; [destruct m; reflexivity|]. apply IH.
Qed.

Lemma drop_append pre s : Str.drop (String.length pre) (pre +:+ s) = s.
Proof. induction pre as [|a pre IH]; str_simpl; [reflexivity|exact IH]. Qed.

Lemma take_append pre s : Str.take (String.length pre) (pre +:+ s) = pre.
Proof.
  induction pre as [|a pre IH]; str_simpl; [reflexivity|].
  rewrite IH. reflexivity.
Qed.


Lemma contains_char_drop c n s :
  Str.contains_char c s = false -> Str.contains_char c (Str.drop n s) = false.
Proof.
  revert s. induction n as [|n IH]; intros [|a s]; simpl; try tauto.
  intros H. apply orb_false_elim in H as [_ H]. apply IH, H.
Qed.

(** [rfind]: either the character is absent and the answer is the value
    given for that, or the string splits at its last occurrence. *)
Lemma rfind_from_spec c s : forall i found : Z,
  (Str.rfind_from c s i found = found /\ Str.contains_char c s = false)
  \/ (exists pre e,
        s = pre +:+ String c e
        /\ Str.rfind_from c s i found = i + Z.of_nat (String.length pre)
        /\ Str.contains_char c e = false).
Proof.
  induction s as [|a s IH]; intros i found; simpl.
  - left. split; reflexivity.
  - destruct (Ascii.eqb a c) eqn:E.
    + apply Ascii.eqb_eq in E. subst a.
      destruct (IH (i + 1) i) as [[Hr Hc]|(pre & e & Hs & Hr & Hc)].
      * right. exists "", s. str_simpl. repeat split; [lia|exact Hc].
      * right. exists (String c pre), e. str_simpl.
        repeat split; [congruence|lia|exact Hc].
    + destruct (IH (i + 1) found) as [[Hr Hc]|(pre & e & Hs & Hr & Hc)].
      * left. split; [exact Hr|exact Hc].
      * right. exists (String a pre), e. str_simpl.
        repeat split; [congruence|lia|exact Hc].
Qed.

Lemma rfind_spec c s :
  (Str.rfind c s = -1 /\ Str.contains_char c s = false)
  \/ (exists pre e,
        s = pre +:+ String c e
        /\ Str.rfind c s = Z.of_nat (String.length pre)
        /\ Str.contains_char c e = false).
Proof.
  unfold Str.rfind.
  destruct (rfind_from_spec c s 0 (-1)) as [H|(pre & e & Hs & Hr & Hc)];
    [left; exact H|].
  right. exists pre, e. repeat split; [exact Hs|lia|exact Hc].
Qed.

Lemma splitext_scan_some p (dotIndex : Z) (idxs : list Z) r :
  OsPath.splitext_scan p dotIndex idxs = Some r ->
  r = (Str.slice_to dotIndex p, Str.slice_from dotIndex p).
Proof.
  induction idxs as [|i idxs IH]; simpl; [discriminate|].
  destruct (negb _); [congruence|exact IH].
Qed.

(** [splitext]: the two parts make up the path, and the extension is empty
    or a dot followed by characters that are neither dots nor slashes. *)
Lemma splitext_spec p base ext :
  OsPath.splitext p = (base, ext) ->
  base +:+ ext = p
  /\ (ext = ""
      \/ exists e, ext = String "." e
                   /\ Str.contains_char "." e = false
                   /\ Str.contains_char "/" e = false).
Proof.
  unfold OsPath.splitext.
  destruct (Str.rfind "." p >? Str.rfind "/" p) eqn:Hgt.
  2:{ intros [= <- <-]. split; [apply append_nil_r|left; reflexivity]. }
  destruct (OsPath.splitext_scan _ _ _) as [r|] eqn:Hscan.
  2:{ intros [= <- <-]. split; [apply append_nil_r|left; reflexivity]. }
  apply splitext_scan_some in Hscan. subst r. intros [= <- <-].
  split; [apply take_drop|]. right.
  apply Z.gtb_lt in Hgt.
  destruct (rfind_spec "." p) as [[Hd _]|(pre & e & Hp & Hd & He)].
  { destruct (rfind_spec "/" p) as [[Hs _]|(pre' & e' & _ & Hs & _)]; lia. }
  unfold Str.slice_from. rewrite Hd, Nat2Z.id.
  assert (Hdrop : Str.drop (String.length pre) p = String "." e)
    by (rewrite Hp at 1; apply drop_append).
  exists e. split; [exact Hdrop|]. split; [exact He|].
  assert (Hno : Str.contains_char "/" (String "." e) = false).
  { rewrite <- Hdrop.
    destruct (rfind_spec "/" p) as [[_ Hc]|(pre' & e' & Hp' & Hs & He')].
    - apply contains_char_drop, Hc.
    - assert (Hlen : String.length pre
                     = (String.length pre' + 1
                        + (String.length pre - String.length pre' - 1))%nat)
        by lia.
      rewrite Hlen, drop_add, drop_add. rewrite Hp' at 1.
      rewrite drop_append. simpl. apply contains_char_drop, He'. }
  simpl in Hno. exact Hno.
Qed.

Lemma hex_digit_is_hex (x : Z) : MD5.is_hex (MD5.hex_digit x) = true.
Proof.
  unfold MD5.hex_digit. generalize (Z.to_nat x). intros n.
  do 16 (destruct n as [|n]; [reflexivity|]). destruct n; reflexivity.
Qed.

Lemma hex_is_hex (bs : list Z) : Str.forallb MD5.is_hex (MD5.hex bs) = true.
Proof.
  induction bs as [|b bs IH]; [reflexivity|].
  change (MD5.hex (b :: bs)) with (MD5.hex_byte b +:+ MD5.hex bs).
  rewrite forallb_append, IH. unfold MD5.hex_byte.
  simpl. rewrite !hex_digit_is_hex. reflexivity.
Qed.

Lemma length_hex (bs : list Z) :
  String.length (MD5.hex bs) = (2 * length bs)%nat.
Proof.
  induction bs as [|b bs IH]; [reflexivity|].
  change (MD5.hex (b :: bs)) with (MD5.hex_byte b +:+ MD5.hex bs).
  unfold MD5.hex_byte. str_simpl. rewrite IH. lia.
Qed.

Lemma length_le_bytes n (x : Z) : length (MD5.le_bytes n x) = n.
Proof.
  revert x. induction n as [|n IH]; intros x; simpl; [reflexivity|].
  rewrite IH. reflexivity.
Qed.

(** A digest is sixteen bytes, written as 32 lower-case hexadecimal digits. *)
Lemma hexdigest_length (data : string) :
  String.length (MD5.hexdigest data) = 32%nat.
Proof.
  unfold MD5.hexdigest, MD5.digest.
  destruct (MD5.digest_state _) as [a b c d].
  rewrite length_hex, !length_app, !length_le_bytes. reflexivity.
Qed.

Lemma hexdigest_is_hex (data : string) :
  Str.forallb MD5.is_hex (MD5.hexdigest data) = true.
Proof. apply hex_is_hex. Qed.

(** The discriminator: eight hexadecimal digits, the start of the digest. *)
Lemma hash_str_spec (content : string) :
  String.length (GridEngine.hash_str content) = 8%nat
  /\ Str.forallb MD5.is_hex (GridEngine.hash_str content) = true
  /\ Str.starts_with (GridEngine.hash_str content) (MD5.hexdigest content)
     = true.
Proof.
  unfold GridEngine.hash_str, Str.slice_to. split; [|split].
  - rewrite length_take, hexdigest_length. reflexivity.
  - apply forallb_take, hexdigest_is_hex.
  - apply starts_with_take.
Qed.

End StringLemmas.

(** ** Job names: what is digested *)

(** [" ".join] is the concatenation with separators of the library. *)
Lemma join_concat (sep : string) (l : list string) :
  Str.join sep l = String.concat sep l.
Proof.
  induction l as [|x l IH]; [reflexivity|].
  destruct l as [|y l]; [reflexivity|].
  change (x +:+ sep +:+ Str.join sep (y :: l)
          = x +:+ sep +:+ String.concat sep (y :: l)).
  rewrite IH. reflexivity.
Qed.

(** C6: the job name is the configured prefix, an underscore, and the MD5
    digest, 32 hexadecimal digits, of one text: the absolute paths of the
    targets followed by those of the sources, with one space between two
    paths. Two rules with the same paths and the same prefix get the same
    name, whatever their nodes' kinds, their other variables and their
    commands are. *)
Theorem create_name_digest_of_paths (target source target' source' : list Node)
    (env env' : Env) (prefix : string) :
  env !! "STEAMROLLER_NAME_PREFIX" = Some prefix ->
  env' !! "STEAMROLLER_NAME_PREFIX" = Some prefix ->
  map get_abspath target' = map get_abspath target ->
  map get_abspath source' = map get_abspath source ->
  String.length
    (MD5.hexdigest (String.concat " " (map get_abspath (target ++ source))))
  = 32%nat
  /\ Str.forallb MD5.is_hex
       (MD5.hexdigest
          (String.concat " " (map get_abspath (target ++ source))))
     = true
  /\ create_name target source env
     = Ok (prefix +:+ "_" +:+
           MD5.hexdigest
             (String.concat " " (map get_abspath (target ++ source))))
  /\ create_name target' source' env'
     = Ok (prefix +:+ "_" +:+
           MD5.hexdigest
             (String.concat " " (map get_abspath (target ++ source)))).
Proof.
  intros Hp Hp' Ht Hs.
  split; [apply hexdigest_length|]. split; [apply hexdigest_is_hex|].
  unfold create_name, env_getitem.
  rewrite Hp, Hp', Ht, Hs, join_concat, <- map_app. split; reflexivity.
Qed.

Lemma create_name_digest_of_paths_witness :
  create_name [mkNode FileNode "/w/a.txt"; mkNode FileNode "/w/b.txt"]
    [mkNode FileNode "/w/c.txt"]
    {[ "STEAMROLLER_NAME_PREFIX" := "steamroller" ]}
  = Ok "steamroller_d3e50171fe03f06c6211a18b77d13999"
  /\ create_name
       [mkNode DirNode "/w/a.txt"; mkNode (OtherNode "Entry") "/w/b.txt"]
       [mkNode DirNode "/w/c.txt"]
       {[ "STEAMROLLER_NAME_PREFIX" := "steamroller"; "X" := "y" ]}
     = Ok "steamroller_d3e50171fe03f06c6211a18b77d13999".
Proof.
  assert (Hp : ({[ "STEAMROLLER_NAME_PREFIX" := "steamroller" ]} : Env)
               !! "STEAMROLLER_NAME_PREFIX" = Some "steamroller")
    by reflexivity.
  assert (Hp' : ({[ "STEAMROLLER_NAME_PREFIX" := "steamroller";
                    "X" := "y" ]} : Env)
                !! "STEAMROLLER_NAME_PREFIX" = Some "steamroller")
    by reflexivity.
  destruct (create_name_digest_of_paths
              [mkNode FileNode "/w/a.txt"; mkNode FileNode "/w/b.txt"]
              [mkNode FileNode "/w/c.txt"]
              [mkNode DirNode "/w/a.txt"; mkNode (OtherNode "Entry") "/w/b.txt"]
              [mkNode DirNode "/w/c.txt"]
              {[ "STEAMROLLER_NAME_PREFIX" := "steamroller" ]}
              {[ "STEAMROLLER_NAME_PREFIX" := "steamroller"; "X" := "y" ]}
              "steamroller" Hp Hp' eq_refl eq_refl)
    as (_ & _ & Hname & Hname').
  split; [rewrite Hname|rewrite Hname']; vm_compute; reflexivity.
Defined.

(** ** The emitter *)

Section EmitterProperties.

Variable script : string.
Variable get_contents : list Node -> list Node -> Env -> string.
Variable other_deps : list string.

Local Abbreviation the_emitter :=
  (GridEngine.emitter script get_contents other_deps).

Lemma mapM_cons {A B} (f : A -> result B) (a : A) (l : list A) :
  mapM f (a :: l)
  = match f a with
    | Ok b => match mapM f l with
              | Ok bs => Ok (b :: bs)
              | Raise e => Raise e
              end
    | Raise e => Raise e
    end.
Proof. simpl. destruct (f a); reflexivity. Qed.

Lemma rename_unknown_target (hash : string) (target : list Node) (t : Node)
    (cls : string) :
  t ∈ target -> node_kind t = OtherNode cls ->
  exists cls',
    mapM (GridEngine.rename_target hash) target
    = Raise (Exception ("Unknown target type: " +:+ cls')).
Proof.
  induction target as [|a target IH]; intros Hin Hk.
  - inversion Hin.
  - rewrite mapM_cons. unfold GridEngine.rename_target at 1.
    destruct (node_kind a) as [| |c] eqn:Ha.
    + apply elem_of_cons in Hin as [->|Hin]; [congruence|].
      destruct (IH Hin Hk) as (cls' & ->). exists cls'. reflexivity.
    + apply elem_of_cons in Hin as [->|Hin]; [congruence|].
      destruct (IH Hin Hk) as (cls' & ->). exists cls'. reflexivity.
    + exists c. reflexivity.
Qed.

(** C8: when some nominal target is neither a file node nor a directory
    node the emitter raises ["Unknown target type: ..."]; it returns no
    renamed target, and it has written no file, made no directory and
    registered no dependency. *)
Theorem emitter_unknown_target_fails (target source : list Node)
    (env : Env) (w : GridEngine.EmitWorld) (t : Node) (cls : string) :
  t ∈ target -> node_kind t = OtherNode cls ->
  exists cls',
    the_emitter target source env w
    = (w, Raise (Exception ("Unknown target type: " +:+ cls'))).
Proof.
  intros Hin Hk. unfold GridEngine.emitter.
  destruct (rename_unknown_target
              (GridEngine.hash_str (get_contents target source env))
              target t cls Hin Hk) as (cls' & ->).
  exists cls'. reflexivity.
Qed.

End EmitterProperties.

Lemma emitter_unknown_target_fails_witness :
  exists cls',
    Sample.emitter [Sample.out_txt; mkNode (OtherNode "Entry") "/w/x"] []
      Sample.env Sample.empty_world
    = (Sample.empty_world,
       Raise (Exception ("Unknown target type: " +:+ cls'))).
Proof.
  apply (emitter_unknown_target_fails "run.py" Sample.get_contents []
           [Sample.out_txt; mkNode (OtherNode "Entry") "/w/x"] []
           Sample.env Sample.empty_world
           (mkNode (OtherNode "Entry") "/w/x") "Entry").
  - apply elem_of_cons. right. apply elem_of_cons. left. reflexivity.
  - reflexivity.
Defined.

(** ** [os.makedirs]: what it leaves alone *)

Lemma makedirs_go_frame (fuel : nat) :
  forall (w : GridEngine.EmitWorld) (name : string),
    GridEngine.files (GridEngine.makedirs_go fuel w name) = GridEngine.files w
    /\ GridEngine.depends (GridEngine.makedirs_go fuel w name)
       = GridEngine.depends w.
Proof.
  induction fuel as [|fuel IH]; intros w name; simpl;
    [split; reflexivity|].
  destruct (GridEngine.parent name) as [head tail].
  destruct (negb (String.eqb head "") && negb (String.eqb tail "")
            && negb (GridEngine.fs_exists w head));
    [|split; reflexivity].
  destruct (String.eqb tail "."); [apply IH|]. simpl. apply IH.
Qed.


Lemma makedirs_depends (w : GridEngine.EmitWorld) (name : string) :
  GridEngine.depends (GridEngine.makedirs w name) = GridEngine.depends w.
Proof. apply makedirs_go_frame. Qed.

Section EmitterRenaming.

Variable script : string.
Variable get_contents : list Node -> list Node -> Env -> string.
Variable other_deps : list string.

Local Abbreviation the_emitter :=
  (GridEngine.emitter script get_contents other_deps).

Lemma rename_known_targets (hash : string) (target : list Node) :
  Forall file_or_dir target ->
  mapM (GridEngine.rename_target hash) target
  = Ok (map (GridEngine.renamed hash) target).
Proof.
  induction 1 as [|a target Ha _ IH]; [reflexivity|].
  rewrite mapM_cons, IH. unfold GridEngine.rename_target.
  destruct a as [k p]. simpl in *.
  destruct Ha as [Ha|Ha]; simpl in Ha; subst k; reflexivity.
Qed.




(** The path of the log of a (renamed) target: base, underscore, the
    extension without its dot, [.command]. *)
Lemma log_name_spec (path : string) :
  exists base ext e,
    OsPath.splitext path = (base, ext)
    /\ base +:+ ext = path
    /\ (ext = "" /\ e = "" \/ ext = String "." e)
    /\ GridEngine.log_name path = base +:+ "_" +:+ e +:+ ".command".
Proof.
  unfold GridEngine.log_name.
  destruct (OsPath.splitext path) as [base ext] eqn:E.
  destruct (splitext_spec path base ext E) as [Happ [->|(e & -> & Hd & _)]].
  - exists base, "", "". repeat split; [exact Happ|left; split; reflexivity].
  - exists base, (String "." e), e.
    split; [reflexivity|]. split; [exact Happ|]. split; [right; reflexivity|].
    simpl. destruct e as [|a e]; [reflexivity|].
    simpl in Hd. apply orb_false_elim in Hd as [Ha _].
    simpl. rewrite Ha. reflexivity.
Qed.

(** C1, as the code has it: the discriminator is the first eight
    hexadecimal digits of the MD5 digest of the command text rendered
    against the nominal targets; a file or directory target is replaced by
    a node of the same kind whose path is the original one with an
    underscore and the discriminator put before the extension that
    [splitext] finds, for directories as for files, hence at the end only
    when there is no extension. The new targets are determined by that
    command text and the nominal targets alone. *)
Theorem emitter_renames_by_digest (target source : list Node) (env : Env)
    (w : GridEngine.EmitWorld) :
  Forall file_or_dir target ->
  let content := get_contents target source env in
  let hash := GridEngine.hash_str content in
  (String.length hash = 8%nat
   /\ Str.forallb MD5.is_hex hash = true
   /\ Str.starts_with hash (MD5.hexdigest content) = true)
  /\ (the_emitter target source env w).2
     = Ok (map (GridEngine.renamed hash) target, source)
  /\ (forall t : Node,
        node_kind (GridEngine.renamed hash t) = node_kind t
        /\ exists base ext,
             OsPath.splitext (get_abspath t) = (base, ext)
             /\ base +:+ ext = get_abspath t
             /\ (ext = ""
                 \/ exists e, ext = String "." e
                              /\ Str.contains_char "." e = false
                              /\ Str.contains_char "/" e = false)
             /\ get_abspath (GridEngine.renamed hash t)
                = base +:+ "_" +:+ hash +:+ ext
             /\ (ext = "" ->
                 get_abspath (GridEngine.renamed hash t)
                 = get_abspath t +:+ "_" +:+ hash))
  /\ (forall (script' : string)
             (get_contents' : list Node -> list Node -> Env -> string)
             (other_deps' : list string) (source' : list Node) (env' : Env)
             (w' : GridEngine.EmitWorld),
        get_contents' target source' env' = content ->
        (GridEngine.emitter script' get_contents' other_deps' target
           source' env' w').2
        = Ok (map (GridEngine.renamed hash) target, source')).
Proof.
  intros Hkinds content hash. split; [apply hash_str_spec|].
  split; [|split].
  - unfold GridEngine.emitter. fold content. fold hash.
    rewrite (rename_known_targets hash target Hkinds). reflexivity.
  - intros t. split; [reflexivity|].
    unfold GridEngine.renamed, GridEngine.new_name. simpl.
    destruct (OsPath.splitext (get_abspath t)) as [base ext] eqn:E.
    destruct (splitext_spec _ _ _ E) as [Happ Hext].
    exists base, ext. repeat split; try assumption.
    intros ->. rewrite append_nil_r in Happ |- *. rewrite Happ.
    reflexivity.
  - intros script' get_contents' other_deps' source' env' w' Hc.
    unfold GridEngine.emitter. rewrite Hc. fold hash.
    rewrite (rename_known_targets hash target Hkinds). reflexivity.
Qed.


End EmitterRenaming.

Lemma emitter_renames_by_digest_witness :
  (Sample.emitter [Sample.out_txt; Sample.models_d] [Sample.in_txt]
     Sample.env Sample.empty_world).2
  = Ok (map (GridEngine.renamed (GridEngine.hash_str "run --x 1"))
          [Sample.out_txt; Sample.models_d],
        [Sample.in_txt]).
Proof.
  assert (H : Forall file_or_dir [Sample.out_txt; Sample.models_d]).
  { constructor; [left; reflexivity|].
    constructor; [right; reflexivity|]. constructor. }
  exact (proj1 (proj2 (emitter_renames_by_digest "run.py" Sample.get_contents
                         [] [Sample.out_txt; Sample.models_d]
                         [Sample.in_txt] Sample.env Sample.empty_world H))).
Defined.

(** C1 as stated fails on a directory whose name has an extension: the
    discriminator goes before [.d], and the original path is not even the
    start of the new one. *)
Lemma directory_discriminator_not_appended :
  (Sample.emitter [Sample.models_d] [] Sample.env Sample.empty_world).2
  = Ok ([mkNode DirNode "/w/models_d9fb6462.d"], [])
  /\ GridEngine.hash_str (Sample.get_contents [Sample.models_d] [] Sample.env)
     = "d9fb6462"
  /\ "/w/models_d9fb6462.d" <> get_abspath Sample.models_d +:+ "_d9fb6462"
  /\ "/w/models_d9fb6462.d" <> get_abspath Sample.models_d +:+ "d9fb6462"
  /\ Str.starts_with (get_abspath Sample.models_d) "/w/models_d9fb6462.d"
     = false.
Proof.
  repeat split; try (vm_compute; reflexivity); vm_compute; discriminate.
Qed.



(** ** The descriptive mode *)

Section PrinterProperties.

Variable subst_list :
  Env -> string -> list Node -> list Node -> result (list (list string)).
Variable escape_list : Env -> list string -> list string.
Variable generator : list Node -> list Node -> Env -> bool -> list string.

Local Abbreviation printer :=
  (GridEngine.command_printer subst_list escape_list generator).
Local Abbreviation run :=
  (GridEngine.run_printer subst_list escape_list generator).
Local Abbreviation pseudo_id := GridEngine.get_pseudo_id.

Implicit Types (self e : GridEngine.Engine) (st : TagStore * GridEngine.Attrs)
  (c : GridEngine.Call) (d : GridEngine.Description).

Lemma pseudo_id_same_object (a : GridEngine.Attrs) self e :
  GridEngine.self_id self = GridEngine.self_id e ->
  pseudo_id a self = pseudo_id a e.
Proof. unfold GridEngine.get_pseudo_id. intros ->. reflexivity. Qed.

Lemma pseudo_id_set (a : GridEngine.Attrs) self e (v : Z) :
  pseudo_id (GridEngine.set_pseudo_id a self v) e
  = if decide (GridEngine.self_id self = GridEngine.self_id e) then v
    else pseudo_id a e.
Proof.
  unfold GridEngine.get_pseudo_id, GridEngine.set_pseudo_id. simpl.
  destruct (decide _) as [Heq|Hne].
  - rewrite Heq, lookup_insert_eq. reflexivity.
  - rewrite lookup_insert_ne by exact Hne. reflexivity.
Qed.

(** A call never lowers the counter that an engine object sees. *)
Lemma printer_counter_grows self target source env st e :
  pseudo_id st.2 e <= pseudo_id (printer self target source env st).1.2 e.
Proof.
  unfold GridEngine.command_printer. destruct st as [tags attrs].
  destruct (prepare_commands _ _ _ _ _ _); simpl; [|lia].
  rewrite pseudo_id_set. destruct (decide _) as [Heq|Hne]; [|lia].
  rewrite (pseudo_id_same_object attrs self e Heq). lia.
Qed.

(** A call that returns reports the counter it found and leaves it one
    higher on its engine object. *)
Lemma printer_reports_counter self target source env st d :
  (printer self target source env st).2 = Ok d ->
  GridEngine.d_job_id d = pseudo_id st.2 self
  /\ pseudo_id (printer self target source env st).1.2 self
     = GridEngine.d_job_id d + 1.
Proof.
  unfold GridEngine.command_printer. destruct st as [tags attrs].
  destruct (prepare_commands _ _ _ _ _ _); simpl; [|discriminate].
  destruct (GridEngine.create_name _ _ _ _); simpl; [|discriminate].
  intros [= <-]. simpl. split; [reflexivity|].
  rewrite pseudo_id_set. destruct (decide _); [reflexivity|congruence].
Qed.

(** A call that returns has tagged every target with the identifier it
    reports, under [built_by_pseudo_job]. *)
Lemma printer_records_pseudo_job self target source env st d (t : Node) :
  (printer self target source env st).2 = Ok d ->
  t ∈ target ->
  GetTag (printer self target source env st).1.1 t "built_by_pseudo_job"
  = Some (GridEngine.d_job_id d).
Proof.
  unfold GridEngine.command_printer. destruct st as [tags attrs].
  destruct (prepare_commands _ _ _ _ _ _); simpl; [|discriminate].
  destruct (GridEngine.create_name _ _ _ _); simpl; [|discriminate].
  intros [= <-] Hin. simpl. apply GetTag_tag_all_target, Hin.
Qed.

(** A call writes no tag but [built_by_pseudo_job]. *)
Lemma printer_tags_frame self target source env st (n : Node)
    (key : string) :
  key <> "built_by_pseudo_job" ->
  GetTag (printer self target source env st).1.1 n key = GetTag st.1 n key.
Proof.
  intros Hk. unfold GridEngine.command_printer. destruct st as [tags attrs].
  destruct (prepare_commands _ _ _ _ _ _); simpl; [|reflexivity].
  apply GetTag_tag_all_other. right. exact Hk.
Qed.

Lemma run_cons c (calls : list GridEngine.Call) st :
  run (c :: calls) st
  = let st1 :=
      (printer (GridEngine.call_self c) (GridEngine.call_target c)
         (GridEngine.call_source c) (GridEngine.call_env c) st).1 in
    ((run calls st1).1,
     (printer (GridEngine.call_self c) (GridEngine.call_target c)
        (GridEngine.call_source c) (GridEngine.call_env c) st).2
     :: (run calls st1).2).
Proof.
  simpl. destruct (GridEngine.command_printer _ _ _ _ _ _ _ _) as [st1 r].
  destruct (GridEngine.run_printer _ _ _ _ _) as [st2 rs]. reflexivity.
Qed.

Lemma run_counter_grows (calls : list GridEngine.Call) st e :
  pseudo_id st.2 e <= pseudo_id (run calls st).1.2 e.
Proof.
  revert st. induction calls as [|c calls IH]; intros st; [simpl; lia|].
  rewrite run_cons. simpl. etransitivity; [|apply IH].
  apply printer_counter_grows.
Qed.

Lemma run_tags_frame (calls : list GridEngine.Call) st (n : Node)
    (key : string) :
  key <> "built_by_pseudo_job" ->
  GetTag (run calls st).1.1 n key = GetTag st.1 n key.
Proof.
  intros Hk. revert st.
  induction calls as [|c calls IH]; intros st; [reflexivity|].
  rewrite run_cons. simpl. rewrite IH. apply printer_tags_frame, Hk.
Qed.

(** An identifier reported later is at least the counter seen now. *)
Lemma run_reports_at_least (calls : list GridEngine.Call) st (j : nat) c d :
  calls !! j = Some c ->
  (run calls st).2 !! j = Some (Ok d) ->
  pseudo_id st.2 (GridEngine.call_self c) <= GridEngine.d_job_id d.
Proof.
  revert st j. induction calls as [|c0 calls IH]; intros st j Hc Hd;
    [discriminate|].
  rewrite run_cons in Hd. simpl in Hd. destruct j as [|j]; simpl in Hc, Hd.
  - injection Hc as ->. injection Hd as Hd.
    apply printer_reports_counter in Hd as [-> _]. lia.
  - pose proof (IH _ j Hc Hd) as Hge.
    pose proof (printer_counter_grows (GridEngine.call_self c0)
                  (GridEngine.call_target c0) (GridEngine.call_source c0)
                  (GridEngine.call_env c0) st (GridEngine.call_self c)).
    lia.
Qed.

(** C5, as the code has it: the counter is an attribute that each engine
    object comes to own. Among successive calls of the printers of one
    engine object the identifiers reported are strictly increasing, and no
    call changes a [built_by_job] tag, or any tag but
    [built_by_pseudo_job]. *)
Theorem pseudo_ids_increase_per_engine (calls : list GridEngine.Call) st
    (i j : nat) (ci cj : GridEngine.Call) (di dj : GridEngine.Description) :
  (i < j)%nat ->
  calls !! i = Some ci ->
  calls !! j = Some cj ->
  GridEngine.self_id (GridEngine.call_self ci)
  = GridEngine.self_id (GridEngine.call_self cj) ->
  (run calls st).2 !! i = Some (Ok di) ->
  (run calls st).2 !! j = Some (Ok dj) ->
  GridEngine.d_job_id di < GridEngine.d_job_id dj
  /\ (forall (n : Node) (key : string),
        key <> "built_by_pseudo_job" ->
        GetTag (run calls st).1.1 n key = GetTag st.1 n key)
  /\ (forall n : Node,
        GetTag (run calls st).1.1 n "built_by_job"
        = GetTag st.1 n "built_by_job").
Proof.
  intros Hij Hci Hcj Hself Hdi Hdj. split.
  2:{ split; [intros n key; apply run_tags_frame|].
      intros n. apply run_tags_frame. discriminate. }
  revert st i j Hij Hci Hcj Hdi Hdj.
  induction calls as [|c0 calls IH]; intros st i j Hij Hci Hcj Hdi Hdj;
    [discriminate|].
  rewrite run_cons in Hdi, Hdj. simpl in Hdi, Hdj.
  destruct j as [|j]; [lia|]. simpl in Hcj, Hdj.
  destruct i as [|i]; simpl in Hci, Hdi.
  - injection Hci as ->. injection Hdi as Hdi.
    apply printer_reports_counter in Hdi as [_ Hnext].
    pose proof (run_reports_at_least _ _ _ _ _ Hcj Hdj) as Hge.
    rewrite <- (pseudo_id_same_object _ _ _ Hself) in Hge. lia.
  - eapply (IH _ i j); [lia|exact Hci|exact Hcj|exact Hdi|exact Hdj].
Qed.

End PrinterProperties.

Lemma pseudo_ids_increase_per_engine_witness :
  exists di dj,
    (GridEngine.run_printer Sample.subst_list Sample.escape_list
       Sample.generator
       [GridEngine.mkCall Sample.slurm [Sample.out_txt] [] Sample.env;
        GridEngine.mkCall Sample.sge [Sample.models_d] [] Sample.env;
        GridEngine.mkCall Sample.slurm [Sample.in_txt] [Sample.out_txt]
          Sample.env]
       (∅, GridEngine.initial_attrs)).2 !! 0%nat = Some (Ok di)
    /\ (GridEngine.run_printer Sample.subst_list Sample.escape_list
         Sample.generator
         [GridEngine.mkCall Sample.slurm [Sample.out_txt] [] Sample.env;
          GridEngine.mkCall Sample.sge [Sample.models_d] [] Sample.env;
          GridEngine.mkCall Sample.slurm [Sample.in_txt] [Sample.out_txt]
            Sample.env]
         (∅, GridEngine.initial_attrs)).2 !! 2%nat = Some (Ok dj)
    /\ GridEngine.d_job_id di < GridEngine.d_job_id dj.
Proof.
  eexists. eexists.
  split; [vm_compute; reflexivity|]. split; [vm_compute; reflexivity|].
  refine (proj1 (pseudo_ids_increase_per_engine Sample.subst_list
            Sample.escape_list Sample.generator
            [GridEngine.mkCall Sample.slurm [Sample.out_txt] [] Sample.env;
             GridEngine.mkCall Sample.sge [Sample.models_d] [] Sample.env;
             GridEngine.mkCall Sample.slurm [Sample.in_txt] [Sample.out_txt]
               Sample.env]
            (∅, GridEngine.initial_attrs) 0%nat 2%nat _ _ _ _ _ _ _ _ _ _));
    try reflexivity; try lia; vm_compute; reflexivity.
Defined.

(** C5 as stated fails with two engine objects in one process: each starts
    from the class attribute, so the second object's first identifier
    repeats the first object's. *)
Lemma pseudo_ids_repeat_across_engines :
  map (fun r => match r with
                | Ok d => Some (GridEngine.d_job_id d)
                | Raise _ => None
                end)
    (GridEngine.run_printer Sample.subst_list Sample.escape_list
       Sample.generator
       [GridEngine.mkCall Sample.slurm [Sample.out_txt] [] Sample.env;
        GridEngine.mkCall Sample.sge [Sample.models_d] [] Sample.env]
       (∅, GridEngine.initial_attrs)).2
  = [Some 0; Some 0]
  /\ ~ (0 < 0).
Proof. split; [vm_compute; reflexivity|lia]. Qed.

(** * Further properties of the module *)

(** ** Rendering the commands *)

Section PrepareCommands.

Variable subst_list :
  Env -> string -> list Node -> list Node -> result (list (list string)).
Variable escape_list : Env -> list string -> list string.

Lemma mapM_Ok_Forall2 {A B} (f : A -> result B) (l : list A) (l' : list B) :
  mapM f l = Ok l' -> Forall2 (fun a b => f a = Ok b) l l'.
Proof.
  revert l'. induction l as [|a l IH]; intros l'.
  - intros [= <-]. constructor.
  - rewrite mapM_cons. destruct (f a) as [b|e] eqn:Ha; [|discriminate].
    destruct (mapM f l) as [bs|e]; [|discriminate].
    intros [= <-]. constructor; [exact Ha|apply IH; reflexivity].
Qed.

Lemma mapM_all_Ok {A B} (f : A -> result B) (l : list A) :
  (forall a, a ∈ l -> exists b, f a = Ok b) -> exists l', mapM f l = Ok l'.
Proof.
  induction l as [|a l IH]; intros H; [exists []; reflexivity|].
  rewrite mapM_cons.
  destruct (H a) as [b ->]; [apply elem_of_cons; left; reflexivity|].
  destruct IH as [bs ->].
  - intros a' Hin. apply H, elem_of_cons. right. exact Hin.
  - exists (b :: bs). reflexivity.
Qed.

(** The second comprehension of [prepare_commands] fails with [IndexError]
    and with nothing else. *)
Lemma first_lines_Raise (g : list string -> list string)
    (l : list (list (list string))) (e : PyError) :
  mapM (fun c : list (list string) =>
          match c with
          | c0 :: _ => Ok (g c0)
          | [] => Raise IndexError
          end) l = Raise e ->
  e = IndexError.
Proof.
  induction l as [|c l IH]; [discriminate|].
  rewrite mapM_cons. destruct c as [|c0 c]; [congruence|].
  destruct (mapM _ l) as [bs|e']; [discriminate|].
  intros [= <-]. apply IH. reflexivity.
Qed.

(** When [prepare_commands] returns, it returns one text per command, in
    order: the first line that substitution gives for the command, escaped,
    its words joined by single spaces. Further lines of a substitution are
    dropped. *)
Theorem prepare_commands_first_lines (target source : list Node) (env : Env)
    (commands rendered : list string) :
  prepare_commands subst_list escape_list target source env commands
  = Ok rendered ->
  length rendered = length commands
  /\ Forall2 (fun c r =>
                exists c0 rest,
                  subst_list env c target source = Ok (c0 :: rest)
                  /\ r = Str.join " " (escape_list env c0))
       commands rendered.
Proof.
  unfold prepare_commands.
  destruct (mapM (fun c => subst_list env c target source) commands)
    as [A|e] eqn:HA; [|discriminate].
  simpl.
  destruct (mapM _ A) as [B|e] eqn:HB; [|discriminate].
  simpl. intros [= <-].
  apply mapM_Ok_Forall2 in HA. apply mapM_Ok_Forall2 in HB.
  assert (H : Forall2 (fun c r =>
                exists c0 rest,
                  subst_list env c target source = Ok (c0 :: rest)
                  /\ r = Str.join " " (escape_list env c0))
              commands (map (Str.join " ") B)).
  { clear -HA HB. revert B HB.
    induction HA as [|c a commands A Hc _ IH]; intros B HB.
    - inversion HB. constructor.
    - inversion HB as [|a' b A' B' Hb HB']. subst. simpl.
      constructor; [|apply IH, HB'].
      destruct a as [|c0 rest]; [discriminate|]. injection Hb as <-.
      exists c0, rest. split; [exact Hc|reflexivity]. }
  split; [|exact H].
  symmetry. eapply Forall2_length, H.
Qed.

(** When every command can be substituted but the substitution of one of
    them is empty, [prepare_commands] raises [IndexError] ([c[0]] on an
    empty list). *)
Theorem prepare_commands_empty_substitution (target source : list Node)
    (env : Env) (commands : list string) (c : string) :
  (forall c', c' ∈ commands ->
     exists l, subst_list env c' target source = Ok l) ->
  c ∈ commands ->
  subst_list env c target source = Ok [] ->
  prepare_commands subst_list escape_list target source env commands
  = Raise IndexError.
Proof.
  intros Hall Hin Hc. unfold prepare_commands.
  destruct (mapM_all_Ok _ commands Hall) as [A HA]. rewrite HA. simpl.
  destruct (mapM _ A) as [B|e] eqn:HB; simpl.
  - exfalso. apply mapM_Ok_Forall2 in HA. apply mapM_Ok_Forall2 in HB.
    clear Hall. revert B HB.
    induction HA as [|c' a commands A Hc' _ IH]; intros B HB;
      [inversion Hin|].
    inversion HB as [|a' b A' B' Hb HB']. subst.
    apply elem_of_cons in Hin as [->|Hin]; [|exact (IH Hin B' HB')].
    rewrite Hc in Hc'. injection Hc' as <-. discriminate.
  - apply first_lines_Raise in HB. subst e. reflexivity.
Qed.

End PrepareCommands.

Lemma prepare_commands_first_lines_witness :
  length ["python run.py --x 1"] = length (Sample.generator [] [] Sample.env false)
  /\ Forall2 (fun c r =>
                exists c0 rest,
                  Sample.subst_list Sample.env c [Sample.out_txt] [] = Ok (c0 :: rest)
                  /\ r = Str.join " " (Sample.escape_list Sample.env c0))
       (Sample.generator [] [] Sample.env false) ["python run.py --x 1"].
Proof.
  apply (prepare_commands_first_lines Sample.subst_list Sample.escape_list
           [Sample.out_txt] [] Sample.env
           (Sample.generator [] [] Sample.env false)
           ["python run.py --x 1"]).
  reflexivity.
Defined.

Lemma prepare_commands_empty_substitution_witness :
  prepare_commands
    (fun _ c _ _ => if String.eqb c "" then Ok [] else Ok [[c]])
    Sample.escape_list [Sample.out_txt] [] Sample.env ["echo a"; ""]
  = Raise IndexError.
Proof.
  apply (prepare_commands_empty_substitution
           (fun _ c _ _ => if String.eqb c "" then Ok [] else Ok [[c]])
           Sample.escape_list [Sample.out_txt] [] Sample.env
           ["echo a"; ""] "").
  - intros c' _. destruct (String.eqb c' ""); eexists; reflexivity.
  - apply elem_of_cons. right. apply elem_of_cons. left. reflexivity.
  - reflexivity.
Defined.

(** ** Submission: errors and the flow of identifiers *)

Section SubmissionProperties.

Variable subst_list :
  Env -> string -> list Node -> list Node -> result (list (list string)).
Variable escape_list : Env -> list string -> list string.
Variable renv_subst : Override -> string -> result string.
Variable shlex_split : string -> result (list string).
Variable Popen : list string -> result (string -> string).
Variable getcwd : string.
Variable Dir_abspath : Env -> string -> string.
Variable generator : list Node -> list Node -> Env -> bool -> list string.
Variable chdir : option string.
Variable submit_string : string.

Local Abbreviation submit' :=
  (submit renv_subst shlex_split Popen submit_string).
Local Abbreviation method_submit' :=
  (method_submit subst_list escape_list renv_subst shlex_split Popen getcwd
     Dir_abspath generator chdir submit_string).
Local Abbreviation method' :=
  (method subst_list escape_list renv_subst shlex_split Popen getcwd
     Dir_abspath generator chdir submit_string).
Local Abbreviation printer' :=
  (GridEngine.run_printer subst_list escape_list generator).

Local Arguments Str.join : simpl never.
Local Arguments PyInt.int : simpl never.
Local Arguments tag_all : simpl never.
Local Arguments create_name : simpl never.

(** Once the process runs, [submit] is the lookup of the shell line
    followed by the parse of what the process answers to the script. *)
Lemma submit_launched (target source : list Node) (env : Env)
    (commands : list string) (dependencies : gset Z) (working_dir : string)
    (name sub : string) (argv : list string) (p : string -> string)
    (t0 : Node) (rest : list Node) :
  create_name target source env = Ok name ->
  target = t0 :: rest ->
  renv_subst
    (mkOverride env name (get_abspath t0 +:+ ".log") working_dir
       dependencies submit_string) submit_string = Ok sub ->
  shlex_split sub = Ok argv ->
  Popen argv = Ok p ->
  submit' target source env commands dependencies working_dir
  = match env !! "STEAMROLLER_SHELL" with
    | Some shell =>
        PyInt.int (PyInt.strip (p (Str.join nl (shell :: commands))))
    | None => Raise (KeyError "STEAMROLLER_SHELL")
    end.
Proof.
  intros Hn Ht Hsub Hargv Hp. unfold submit. rewrite Hn. simpl.
  rewrite Ht. simpl. rewrite Ht in Hn. rewrite Hsub. simpl.
  rewrite Hargv. simpl. rewrite Hp. simpl.
  unfold renv_getitem. simpl. unfold env_getitem.
  destruct (env !! "STEAMROLLER_SHELL"); reflexivity.
Qed.

(** Without [STEAMROLLER_NAME_PREFIX] in the environment the method raises
    [KeyError] as soon as the commands are rendered: whatever the targets,
    the template and the scheduler are, and with no tag written. *)
Theorem method_missing_prefix (target source : list Node) (env : Env)
    (st : TagStore) (commands : list string) :
  prepare_commands subst_list escape_list target source env
    (generator target source env false) = Ok commands ->
  env !! "STEAMROLLER_NAME_PREFIX" = None ->
  method' target source env st
  = (st, Raise (KeyError "STEAMROLLER_NAME_PREFIX")).
Proof.
  intros Hc Hp. unfold method, method_submit. rewrite Hc. simpl.
  unfold submit, create_name, env_getitem. rewrite Hp. reflexivity.
Qed.

(** A rule without targets cannot be submitted: with the name prefix set,
    the method raises [IndexError] ([target[0]]), whatever the template and
    the scheduler are, and with no tag written. *)
Theorem method_no_target (source : list Node) (env : Env) (st : TagStore)
    (commands : list string) (prefix : string) :
  prepare_commands subst_list escape_list [] source env
    (generator [] source env false) = Ok commands ->
  env !! "STEAMROLLER_NAME_PREFIX" = Some prefix ->
  method' [] source env st = (st, Raise IndexError).
Proof.
  intros Hc Hp. unfold method, method_submit. rewrite Hc. simpl.
  unfold submit, create_name, env_getitem. rewrite Hp. reflexivity.
Qed.

(** Without [STEAMROLLER_SHELL] the method raises [KeyError] only after the
    submission process has been launched: the template is substituted, the
    command line is split and the process is started first, and a failure
    of one of these is what the method raises instead. With the process
    started, the [KeyError] leaves no target tagged although a process is
    running. *)
Theorem method_missing_shell (target source : list Node) (env : Env)
    (st : TagStore) (commands : list string) (name : string) (t0 : Node)
    (rest : list Node) :
  prepare_commands subst_list escape_list target source env
    (generator target source env false) = Ok commands ->
  create_name target source env = Ok name ->
  target = t0 :: rest ->
  env !! "STEAMROLLER_SHELL" = None ->
  method' target source env st
  = (st,
     match
       renv_subst
         (mkOverride env name (get_abspath t0 +:+ ".log")
            (if truthy chdir then Dir_abspath env (default "" chdir)
             else getcwd)
            (collect_tags st "built_by_job" source) submit_string)
         submit_string
     with
     | Raise e => Raise e
     | Ok sub =>
         match shlex_split sub with
         | Raise e => Raise e
         | Ok argv =>
             match Popen argv with
             | Raise e => Raise e
             | Ok _ => Raise (KeyError "STEAMROLLER_SHELL")
             end
         end
     end).
Proof.
  intros Hc Hn Ht Hshell. unfold method, method_submit.
  rewrite Hc. simpl. unfold submit. rewrite Hn. simpl.
  rewrite Ht. simpl.
  destruct (renv_subst _ submit_string) as [sub|e]; [|reflexivity]. simpl.
  destruct (shlex_split sub) as [argv|e]; [|reflexivity]. simpl.
  destruct (Popen argv) as [p|e]; [|reflexivity]. simpl.
  unfold renv_getitem. simpl. unfold env_getitem. rewrite Hshell.
  reflexivity.
Qed.

(** The identifier of a submitted job reaches the rules that consume its
    targets: after the method has run for a rule, the dependency set that a
    later rule computes from its sources holds the new identifier exactly
    when one of those sources is a target of the first rule, and otherwise
    only what sources outside those targets carried before. *)
Theorem job_id_reaches_consumers (target source : list Node) (env : Env)
    (st : TagStore) (job_id : Z) (source' : list Node) (j : Z) :
  method_submit' target source env st = Ok job_id ->
  j ∈ collect_tags (method' target source env st).1 "built_by_job" source'
  <-> (j = job_id /\ exists t, t ∈ target /\ t ∈ source')
      \/ (exists s, s ∈ source' /\ (s ∉ target)
                    /\ GetTag st s "built_by_job" = Some j).
Proof.
  intros Hs. unfold method. rewrite Hs. simpl.
  rewrite elem_of_collect_tags. split.
  - intros (s & Hin & Hj). destruct (decide (s ∈ target)) as [Ht|Ht].
    + rewrite (GetTag_tag_all_target st "built_by_job" job_id target s Ht)
        in Hj.
      left. split; [congruence|]. exists s. split; assumption.
    + rewrite GetTag_tag_all_other in Hj by (left; exact Ht).
      right. exists s. repeat split; assumption.
  - intros [[-> (t & Ht & Hin)]|(s & Hin & Ht & Hj)].
    + exists t. split; [exact Hin|]. apply GetTag_tag_all_target, Ht.
    + exists s. split; [exact Hin|].
      rewrite GetTag_tag_all_other by (left; exact Ht). exact Hj.
Qed.



End SubmissionProperties.

Lemma method_missing_prefix_witness :
  method Sample.subst_list Sample.escape_list Sample.renv_subst
    Sample.shlex_split (Sample.Popen "1") Sample.getcwd Sample.Dir_abspath
    Sample.generator None "sbatch" [Sample.out_txt] [] ∅ ∅
  = (∅, Raise (KeyError "STEAMROLLER_NAME_PREFIX")).
Proof.
  apply (method_missing_prefix Sample.subst_list Sample.escape_list
           Sample.renv_subst Sample.shlex_split (Sample.Popen "1")
           Sample.getcwd Sample.Dir_abspath Sample.generator None "sbatch"
           [Sample.out_txt] [] ∅ ∅ ["python run.py --x 1"]);
    reflexivity.
Defined.

Lemma method_no_target_witness :
  Sample.method "1" [] [Sample.in_txt] Sample.env ∅ = (∅, Raise IndexError).
Proof.
  apply (method_no_target Sample.subst_list Sample.escape_list
           Sample.renv_subst Sample.shlex_split (Sample.Popen "1")
           Sample.getcwd Sample.Dir_abspath Sample.generator None "sbatch"
           [Sample.in_txt] Sample.env ∅ ["python run.py --x 1"]
           "steamroller"); reflexivity.
Defined.

Lemma method_missing_shell_witness :
  method Sample.subst_list Sample.escape_list Sample.renv_subst
    Sample.shlex_split (Sample.Popen "1") Sample.getcwd Sample.Dir_abspath
    Sample.generator None "sbatch" [Sample.out_txt] []
    {[ "STEAMROLLER_NAME_PREFIX" := "steamroller" ]} ∅
  = (∅, Raise (KeyError "STEAMROLLER_SHELL"))
  /\ method Sample.subst_list Sample.escape_list Sample.renv_subst
       Sample.shlex_split (fun _ => Raise OSError) Sample.getcwd
       Sample.Dir_abspath Sample.generator None "sbatch" [Sample.out_txt] []
       {[ "STEAMROLLER_NAME_PREFIX" := "steamroller" ]} ∅
     = (∅, Raise OSError).
Proof.
  split.
  - exact (method_missing_shell Sample.subst_list Sample.escape_list
             Sample.renv_subst Sample.shlex_split (Sample.Popen "1")
             Sample.getcwd Sample.Dir_abspath Sample.generator None "sbatch"
             [Sample.out_txt] []
             {[ "STEAMROLLER_NAME_PREFIX" := "steamroller" ]} ∅
             ["python run.py --x 1"]
             ("steamroller" +:+ "_" +:+
              MD5.hexdigest (Str.join " " ["/w/out.txt"]))
             Sample.out_txt [] eq_refl eq_refl eq_refl eq_refl).
  - exact (method_missing_shell Sample.subst_list Sample.escape_list
             Sample.renv_subst Sample.shlex_split (fun _ => Raise OSError)
             Sample.getcwd Sample.Dir_abspath Sample.generator None "sbatch"
             [Sample.out_txt] []
             {[ "STEAMROLLER_NAME_PREFIX" := "steamroller" ]} ∅
             ["python run.py --x 1"]
             ("steamroller" +:+ "_" +:+
              MD5.hexdigest (Str.join " " ["/w/out.txt"]))
             Sample.out_txt [] eq_refl eq_refl eq_refl eq_refl).
Defined.

Lemma job_id_reaches_consumers_witness :
  1337 ∈ collect_tags
           (Sample.method "1337" [Sample.out_txt] [Sample.in_txt] Sample.env
              ∅).1
           "built_by_job" [Sample.out_txt; Sample.models_d]
  <-> (1337 = 1337
       /\ exists t, t ∈ [Sample.out_txt]
                    /\ t ∈ [Sample.out_txt; Sample.models_d])
      \/ (exists s, s ∈ [Sample.out_txt; Sample.models_d]
                    /\ (s ∉ [Sample.out_txt])
                    /\ GetTag ∅ s "built_by_job" = Some 1337).
Proof.
  apply (job_id_reaches_consumers Sample.subst_list Sample.escape_list
           Sample.renv_subst Sample.shlex_split (Sample.Popen "1337")
           Sample.getcwd Sample.Dir_abspath Sample.generator None "sbatch"
           [Sample.out_txt] [Sample.in_txt] Sample.env ∅ 1337
           [Sample.out_txt; Sample.models_d] 1337).
  vm_compute. reflexivity.
Defined.

(** ** The emitter: dependencies, files and names *)

Lemma length_append (s1 s2 : string) :
  String.length (s1 +:+ s2) = (String.length s1 + String.length s2)%nat.
Proof.
  induction s1 as [|a s1 IH]; [reflexivity|].
  rewrite append_cons. simpl. rewrite IH. reflexivity.
Qed.

Lemma append_inv_head (s a b : string) : s +:+ a = s +:+ b -> a = b.
Proof.
  induction s as [|c s IH]; [intros H; exact H|].
  rewrite !append_cons. intros [= H]. apply IH, H.
Qed.

Section EmitterEffects.

Variable script : string.
Variable get_contents : list Node -> list Node -> Env -> string.
Variable other_deps : list string.

Local Abbreviation emitter' :=
  (GridEngine.emitter script get_contents other_deps).
Local Abbreviation renamed_targets target source env :=
  (map (GridEngine.renamed
          (GridEngine.hash_str (get_contents target source env))) target).

Lemma depends_foldl_write_log (c : string) (l : list Node)
    (w : GridEngine.EmitWorld) :
  GridEngine.depends (foldl (GridEngine.write_log c) w l)
  = GridEngine.depends w.
Proof.
  revert w. induction l as [|a l IH]; intros w; [reflexivity|].
  simpl. rewrite IH. unfold GridEngine.write_log, GridEngine.write_file.
  simpl. apply makedirs_depends.
Qed.

Lemma depends_foldl_Depends (l : list (Node * string))
    (w : GridEngine.EmitWorld) :
  GridEngine.depends
    (foldl (fun w' '(t, s) => GridEngine.Depends w' t s) w l)
  = GridEngine.depends w ++ l.
Proof.
  revert w. induction l as [|[t s] l IH]; intros w; simpl.
  - rewrite app_nil_r. reflexivity.
  - rewrite IH. simpl. rewrite <- app_assoc. reflexivity.
Qed.


(** *** What [os.makedirs] makes *)







(** *** The directories after the logs are written *)








(** The emitter registers, after the dependencies that were there, one
    dependency of every renamed target on every entry of [other_deps] and on
    the script, target by target; so every renamed target depends on the
    script. *)
Theorem emitter_registers_dependencies (target source : list Node)
    (env : Env) (w : GridEngine.EmitWorld) :
  Forall file_or_dir target ->
  GridEngine.depends (emitter' target source env w).1
  = GridEngine.depends w
    ++ (t ← renamed_targets target source env;
        s ← other_deps ++ [script]; [(t, s)])
  /\ (forall t', t' ∈ renamed_targets target source env ->
        (t', script) ∈ GridEngine.depends (emitter' target source env w).1).
Proof.
  intros Hkinds.
  assert (Heq : GridEngine.depends (emitter' target source env w).1
          = GridEngine.depends w
            ++ (t ← renamed_targets target source env;
                s ← other_deps ++ [script]; [(t, s)])).
  { unfold GridEngine.emitter.
    rewrite (rename_known_targets _ target Hkinds). simpl.
    rewrite depends_foldl_Depends, depends_foldl_write_log. reflexivity. }
  split; [exact Heq|].
  intros t' Hin. rewrite Heq. apply elem_of_app. right.
  apply list_elem_of_bind. exists t'. split; [|exact Hin].
  apply list_elem_of_bind. exists script. split.
  - apply list_elem_of_singleton. reflexivity.
  - apply elem_of_app. right. apply list_elem_of_singleton. reflexivity.
Qed.


End EmitterEffects.

(** A renamed path is never the nominal one: it is longer by the underscore
    and the discriminator. And the log of a path is never that path, so
    writing the log does not overwrite the target it describes. *)
Theorem renamed_path_is_new (hash path : string) :
  String.length (GridEngine.new_name hash path)
  = (String.length path + 1 + String.length hash)%nat
  /\ GridEngine.new_name hash path <> path
  /\ GridEngine.log_name path <> path.
Proof.
  assert (Hlen : String.length (GridEngine.new_name hash path)
                 = (String.length path + 1 + String.length hash)%nat).
  { unfold GridEngine.new_name.
    destruct (OsPath.splitext path) as [base ext] eqn:E.
    destruct (splitext_spec path base ext E) as [<- _].
    rewrite !length_append. simpl. lia. }
  split; [exact Hlen|]. split.
  - intros H. rewrite H in Hlen. lia.
  - destruct (log_name_spec path) as (base & ext & e & _ & <- & He & ->).
    destruct He as [[-> ->]| ->].
    + intros H. apply (f_equal String.length) in H.
      rewrite !length_append in H. simpl in H. lia.
    + intros H. apply append_inv_head in H. discriminate H.
Qed.

Lemma emitter_registers_dependencies_witness :
  (GridEngine.renamed (GridEngine.hash_str "run --x 1") Sample.out_txt,
   "run.py")
  ∈ GridEngine.depends
      (Sample.emitter [Sample.out_txt] [] Sample.env Sample.empty_world).1.
Proof.
  assert (H : Forall file_or_dir [Sample.out_txt]).
  { constructor; [left; reflexivity|]. constructor. }
  apply (proj2 (emitter_registers_dependencies "run.py" Sample.get_contents
                  [] [Sample.out_txt] [] Sample.env Sample.empty_world H)).
  apply elem_of_cons. left. reflexivity.
Defined.


(** ** The descriptive mode: what a call consumes *)

Section PrinterCounter.

Variable subst_list :
  Env -> string -> list Node -> list Node -> result (list (list string)).
Variable escape_list : Env -> list string -> list string.
Variable generator : list Node -> list Node -> Env -> bool -> list string.

Local Abbreviation printer :=
  (GridEngine.command_printer subst_list escape_list generator).
Local Abbreviation run :=
  (GridEngine.run_printer subst_list escape_list generator).

(** The calls that draw an identifier from the counter of the engine object
    [e]: those made on [e] whose commands can be rendered. *)
Local Abbreviation draws e :=
  (fun c : GridEngine.Call =>
     bool_decide (GridEngine.self_id (GridEngine.call_self c)
                  = GridEngine.self_id e)
     && match prepare_commands subst_list escape_list
                (GridEngine.call_target c) (GridEngine.call_source c)
                (GridEngine.call_env c)
                (generator (GridEngine.call_target c)
                   (GridEngine.call_source c) (GridEngine.call_env c) false)
        with
        | Ok _ => true
        | Raise _ => false
        end).

(** A printer call whose commands render but whose name cannot be computed
    (no [STEAMROLLER_NAME_PREFIX]) raises [KeyError] after the fact: the
    targets are already tagged with the identifier and the counter of the
    engine object has already moved on. *)
Theorem printer_failure_consumes_identifier (self : GridEngine.Engine)
    (target source : list Node) (env : Env)
    (st : TagStore * GridEngine.Attrs) (commands : list string) :
  prepare_commands subst_list escape_list target source env
    (generator target source env false) = Ok commands ->
  env !! "STEAMROLLER_NAME_PREFIX" = None ->
  (printer self target source env st).2
  = Raise (KeyError "STEAMROLLER_NAME_PREFIX")
  /\ GridEngine.get_pseudo_id (printer self target source env st).1.2 self
     = GridEngine.get_pseudo_id st.2 self + 1
  /\ (forall t, t ∈ target ->
        GetTag (printer self target source env st).1.1 t
          "built_by_pseudo_job"
        = Some (GridEngine.get_pseudo_id st.2 self)).
Proof.
  intros Hc Hp. unfold GridEngine.command_printer.
  destruct st as [tags attrs]. rewrite Hc. simpl.
  unfold GridEngine.create_name, env_getitem. rewrite Hp. simpl.
  split; [reflexivity|]. split.
  - rewrite pseudo_id_set. destruct (decide _); [reflexivity|congruence].
  - intros t Hin. apply GetTag_tag_all_target, Hin.
Qed.

(** The counter that an engine object sees after a sequence of printer
    calls is the one it saw before plus the number of calls made on that
    object whose commands could be rendered; calls on other objects and
    calls that fail while rendering leave it alone. *)
Theorem printer_counter_counts_calls (calls : list GridEngine.Call)
    (st : TagStore * GridEngine.Attrs) (e : GridEngine.Engine) :
  GridEngine.get_pseudo_id (run calls st).1.2 e
  = GridEngine.get_pseudo_id st.2 e
    + Z.of_nat (length (List.filter (draws e) calls)).
Proof.
  revert st. induction calls as [|c calls IH]; intros st; [simpl; lia|].
  rewrite run_cons. cbn [fst snd]. rewrite IH. cbn [List.filter].
  unfold GridEngine.command_printer. destruct st as [tags attrs].
  destruct (prepare_commands _ _ _ _ _ _) as [commands|err]; cbn [fst snd].
  - rewrite pseudo_id_set. destruct (decide _) as [Heq|Hne].
    + rewrite (bool_decide_eq_true_2 _ Heq). cbn [andb length].
      rewrite (pseudo_id_same_object attrs _ e Heq). lia.
    + rewrite (bool_decide_eq_false_2 _ Hne). cbn [andb]. lia.
  - rewrite andb_false_r. lia.
Qed.

End PrinterCounter.

Lemma printer_failure_consumes_identifier_witness :
  (GridEngine.command_printer Sample.subst_list Sample.escape_list
     Sample.generator Sample.slurm [Sample.out_txt] [] ∅
     (∅, GridEngine.initial_attrs)).2
  = Raise (KeyError "STEAMROLLER_NAME_PREFIX")
  /\ GridEngine.get_pseudo_id
       (GridEngine.command_printer Sample.subst_list Sample.escape_list
          Sample.generator Sample.slurm [Sample.out_txt] [] ∅
          (∅, GridEngine.initial_attrs)).1.2 Sample.slurm
     = GridEngine.get_pseudo_id GridEngine.initial_attrs Sample.slurm + 1.
Proof.
  pose proof (printer_failure_consumes_identifier Sample.subst_list
                Sample.escape_list Sample.generator Sample.slurm
                [Sample.out_txt] [] ∅ (∅, GridEngine.initial_attrs)
                ["python run.py --x 1"] eq_refl eq_refl) as (H1 & H2 & _).
  split; [exact H1|exact H2].
Defined.

(** ** Availability: the edges of the search *)

Lemma split_go_not_nil (c : ascii) (cur s : string) :
  Str.split_go c cur s <> [].
Proof.
  revert cur. induction s as [|a s IH]; intros cur; simpl; [discriminate|].
  destruct (Ascii.eqb a c); [discriminate|apply IH].
Qed.

Lemma existsb_constant (b : bool) {A} (l : list A) :
  l <> [] -> existsb (fun x : bool => x) (map (fun _ => b) l) = b.
Proof.
  induction l as [|a l IH]; [congruence|]. intros _. simpl.
  destruct b; [reflexivity|]. destruct l as [|a' l]; [reflexivity|].
  apply IH. discriminate.
Qed.

(** For a name that is an absolute path the directories of [PATH] play no
    part: whenever [PATH] is set, whatever it holds, the answer is whether
    that path itself exists. *)
Theorem check_for_executable_absolute_name (path_exists : string -> bool)
    (environ : gmap string string) (name PATH : string) :
  environ !! "PATH" = Some PATH ->
  Str.starts_with "/" name = true ->
  GridEngine.check_for_executable path_exists environ name
  = Ok (path_exists name).
Proof.
  intros HP Habs. unfold GridEngine.check_for_executable, env_getitem.
  rewrite HP. simpl. f_equal.
  rewrite (map_ext _ (fun _ => path_exists name)).
  - apply existsb_constant, split_go_not_nil.
  - intros d. unfold OsPath.join. rewrite Habs. reflexivity.
Qed.

(** Without [PATH] in the environment the check raises [KeyError]; an empty
    [PATH] is one empty entry, and an empty entry anywhere in the list
    stands for the current directory: the name is then looked up as it is
    given. *)
Theorem check_for_executable_empty_entries (path_exists : string -> bool)
    (environ : gmap string string) (name : string) :
  (environ !! "PATH" = None ->
   GridEngine.check_for_executable path_exists environ name
   = Raise (KeyError "PATH"))
  /\ (environ !! "PATH" = Some "" ->
      GridEngine.check_for_executable path_exists environ name
      = Ok (path_exists name))
  /\ (forall PATH,
        environ !! "PATH" = Some PATH ->
        "" ∈ Str.split ":" PATH ->
        path_exists name = true ->
        GridEngine.check_for_executable path_exists environ name = Ok true).
Proof.
  unfold GridEngine.check_for_executable, env_getitem.
  split; [intros ->; reflexivity|]. split.
  - intros ->. simpl. unfold OsPath.join. simpl.
    rewrite orb_true_r, orb_false_r. reflexivity.
  - intros PATH -> Hin Hex. simpl. f_equal. apply existsb_exists.
    exists true. split; [|reflexivity]. apply in_map_iff. exists "".
    split; [|apply list_elem_of_In, Hin].
    unfold OsPath.join. simpl. rewrite orb_true_r. exact Hex.
Qed.

Lemma check_for_executable_absolute_name_witness :
  GridEngine.check_for_executable (String.eqb "/opt/bin/sbatch")
    {[ "PATH" := "/usr/bin:/bin" ]} "/opt/bin/sbatch"
  = Ok (String.eqb "/opt/bin/sbatch" "/opt/bin/sbatch").
Proof.
  apply (check_for_executable_absolute_name (String.eqb "/opt/bin/sbatch")
           {[ "PATH" := "/usr/bin:/bin" ]} "/opt/bin/sbatch"
           "/usr/bin:/bin"); reflexivity.
Defined.

(** ** Job names do not tell targets from sources *)

(** The name is computed from the targets' paths followed by the sources'
    paths as one list: a node moved from the end of the targets to the head
    of the sources leaves it unchanged, so two rules that split the same
    paths differently get the same job name. *)
Theorem create_name_ignores_split (target source : list Node) (x : Node)
    (env : Env) :
  create_name (target ++ [x]) source env = create_name target (x :: source) env
  /\ create_name target source env = create_name (target ++ source) [] env.
Proof.
  unfold create_name. split.
  - rewrite map_app. simpl. rewrite <- app_assoc. reflexivity.
  - rewrite map_app. simpl. rewrite app_nil_r. reflexivity.
Qed.

(** ** Whitespace around the answer of a process *)

Section StripLemmas.

Implicit Types (s t : string) (p : ascii -> bool).

Lemma rev_app_append s t : String.rev_app s t = String.rev s +:+ t.
Proof.
  unfold String.rev. revert t. induction s as [|a s IH]; intros t;
    [reflexivity|].
  simpl. rewrite (IH (String a t)), (IH (String a "")), append_assoc.
  reflexivity.
Qed.

Lemma rev_cons (a : ascii) s : String.rev (String a s) = String.rev s +:+ String a "".
Proof. unfold String.rev at 1. simpl. apply rev_app_append. Qed.

Lemma rev_append s t : String.rev (s +:+ t) = String.rev t +:+ String.rev s.
Proof.
  induction s as [|a s IH].
  - rewrite append_nil_l, append_nil_r. reflexivity.
  - rewrite append_cons, !rev_cons, IH, append_assoc. reflexivity.
Qed.

Lemma rev_involutive s : String.rev (String.rev s) = s.
Proof.
  induction s as [|a s IH]; [reflexivity|].
  rewrite rev_cons, rev_append, IH. reflexivity.
Qed.

Lemma forallb_str_append p s t :
  Str.forallb p (s +:+ t) = Str.forallb p s && Str.forallb p t.
Proof.
  induction s as [|a s IH]; [reflexivity|].
  rewrite append_cons. simpl. rewrite IH. apply andb_assoc.
Qed.

Lemma forallb_rev p s : Str.forallb p (String.rev s) = Str.forallb p s.
Proof.
  induction s as [|a s IH]; [reflexivity|].
  rewrite rev_cons, forallb_str_append, IH. simpl.
  rewrite andb_true_r. apply andb_comm.
Qed.

Lemma lstrip_spaces s t :
  Str.forallb PyInt.is_space s = true ->
  PyInt.lstrip (s +:+ t) = PyInt.lstrip t.
Proof.
  induction s as [|a s IH]; [reflexivity|].
  simpl. intros H. apply andb_prop in H as [Ha Hs].
  rewrite ?append_cons. simpl. rewrite Ha. apply IH, Hs.
Qed.

Lemma lstrip_no_space s :
  Str.forallb (fun c => negb (PyInt.is_space c)) s = true ->
  PyInt.lstrip s = s.
Proof.
  destruct s as [|a s]; [reflexivity|]. simpl. intros H.
  apply andb_prop in H as [Ha _]. apply negb_true_iff in Ha.
  rewrite Ha. reflexivity.
Qed.

Lemma lstrip_empty s :
  PyInt.lstrip s = "" <-> Str.forallb PyInt.is_space s = true.
Proof.
  induction s as [|a s IH]; [split; reflexivity|].
  simpl. destruct (PyInt.is_space a); simpl; [exact IH|].
  split; discriminate.
Qed.

Lemma lstrip_keeps_non_space s :
  Str.forallb PyInt.is_space (PyInt.lstrip s) = true ->
  Str.forallb PyInt.is_space s = true.
Proof.
  induction s as [|a s IH]; [reflexivity|].
  simpl. destruct (PyInt.is_space a) eqn:Ha; simpl; [exact IH|].
  rewrite Ha. discriminate.
Qed.

Lemma rev_empty s : String.rev s = "" -> s = "".
Proof.
  intros H. apply (f_equal String.rev) in H.
  rewrite rev_involutive in H. exact H.
Qed.

(** What [strip] leaves is empty exactly when the text is all whitespace. *)
Lemma strip_empty s :
  PyInt.strip s = "" <-> Str.forallb PyInt.is_space s = true.
Proof.
  unfold PyInt.strip. split.
  - intros H. apply rev_empty in H. apply lstrip_empty in H.
    rewrite forallb_rev in H. apply lstrip_keeps_non_space, H.
  - intros H. apply lstrip_empty in H. rewrite H. reflexivity.
Qed.

(** Whitespace around a text without whitespace is stripped, and nothing
    else. *)
Lemma strip_padded s lead trail :
  Str.forallb PyInt.is_space lead = true ->
  Str.forallb PyInt.is_space trail = true ->
  Str.forallb (fun c => negb (PyInt.is_space c)) s = true ->
  PyInt.strip (lead +:+ s +:+ trail) = s.
Proof.
  intros Hl Ht Hs. unfold PyInt.strip.
  rewrite (lstrip_spaces lead _ Hl).
  destruct s as [|a s].
  - rewrite append_nil_l. apply lstrip_empty in Ht. rewrite Ht. reflexivity.
  - assert (Ha : PyInt.is_space a = false).
    { simpl in Hs. apply andb_prop in Hs as [Ha _].
      apply negb_true_iff, Ha. }
    rewrite append_cons. simpl PyInt.lstrip at 2. rewrite Ha.
    rewrite <- append_cons, rev_append.
    rewrite lstrip_spaces by (rewrite forallb_rev; exact Ht).
    rewrite lstrip_no_space by (rewrite forallb_rev; exact Hs).
    apply rev_involutive.
Qed.

End StripLemmas.

(** ** [os.makedirs]: the recursion ends *)

Section MakedirsRecursion.

Lemma length_rev (s : string) : String.length (String.rev s) = String.length s.
Proof.
  induction s as [|a s IH]; [reflexivity|].
  rewrite rev_cons, length_append, IH. simpl. lia.
Qed.

Lemma length_rstrip_rev (c : ascii) (r : string) :
  (String.length (OsPath.rstrip_rev c r) <= String.length r)%nat.
Proof.
  induction r as [|a r IH]; simpl; [lia|].
  destruct (Ascii.eqb a c); simpl; lia.
Qed.

Lemma length_rstrip_char (c : ascii) (s : string) :
  (String.length (OsPath.rstrip_char c s) <= String.length s)%nat.
Proof.
  unfold OsPath.rstrip_char. rewrite length_rev.
  rewrite <- (length_rev s). apply length_rstrip_rev.
Qed.

(** [os.path.split] drops separators only. *)
Lemma split_length (p head tail : string) :
  OsPath.split p = (head, tail) ->
  (String.length head + String.length tail <= String.length p)%nat.
Proof.
  unfold OsPath.split, Str.slice_to, Str.slice_from. intros [= <- <-].
  set (i := Z.to_nat (Str.rfind "/" p + 1)).
  assert (Hp : String.length p
               = (String.length (Str.take i p)
                  + String.length (Str.drop i p))%nat)
    by (rewrite <- length_append, take_drop; reflexivity).
  destruct (negb (String.eqb (Str.take i p) "")
            && negb (Str.forallb (Ascii.eqb "/") (Str.take i p)));
    [|lia].
  pose proof (length_rstrip_char "/" (Str.take i p)). lia.
Qed.

(** The parent that [os.makedirs] recurses on is a shorter path. *)
Lemma parent_shorter (name head tail : string) :
  GridEngine.parent name = (head, tail) -> tail <> "" ->
  (String.length head < String.length name)%nat.
Proof.
  unfold GridEngine.parent.
  destruct (OsPath.split name) as [h t] eqn:E1.
  pose proof (split_length name h t E1) as H1.
  assert (Hlen : forall a b : string,
             b <> "" -> (String.length a < String.length a
                                            + String.length b)%nat).
  { intros a [|c b] Hb; [contradiction|]. simpl. lia. }
  destruct (String.eqb t "") eqn:Et.
  - intros E2 Htail. pose proof (split_length h head tail E2) as H2.
    pose proof (Hlen head tail Htail). lia.
  - intros [= <- <-] Htail. pose proof (Hlen h t Htail). lia.
Qed.

Lemma makedirs_go_fuel (f1 : nat) :
  forall (f2 : nat) (w : GridEngine.EmitWorld) (name : string),
    (String.length name < f1)%nat -> (String.length name < f2)%nat ->
    GridEngine.makedirs_go f1 w name = GridEngine.makedirs_go f2 w name.
Proof.
  induction f1 as [|f1 IH]; intros f2 w name H1 H2; [lia|].
  destruct f2 as [|f2]; [lia|]. simpl.
  destruct (GridEngine.parent name) as [head tail] eqn:Hparent.
  destruct (negb (String.eqb head "") && negb (String.eqb tail "")
            && negb (GridEngine.fs_exists w head)) eqn:Hcond;
    [|reflexivity].
  apply andb_prop in Hcond as [Hcond _].
  apply andb_prop in Hcond as [_ Htail].
  apply negb_true_iff, String.eqb_neq in Htail.
  pose proof (parent_shorter name head tail Hparent Htail) as Hlt.
  rewrite (IH f2 w head) by lia. reflexivity.
Qed.

(** [os.makedirs] as the source has it: the call on the parent is the
    function itself. *)
Lemma makedirs_unfold (w : GridEngine.EmitWorld) (name : string) :
  GridEngine.makedirs w name
  = let '(head, tail) := GridEngine.parent name in
    if negb (String.eqb head "") && negb (String.eqb tail "")
       && negb (GridEngine.fs_exists w head)
    then
      let w1 := GridEngine.makedirs w head in
      if String.eqb tail "." then w1 else GridEngine.mkdir w1 name
    else GridEngine.mkdir w name.
Proof.
  unfold GridEngine.makedirs at 1. cbn [GridEngine.makedirs_go].
  destruct (GridEngine.parent name) as [head tail] eqn:Hparent.
  destruct (negb (String.eqb head "") && negb (String.eqb tail "")
            && negb (GridEngine.fs_exists w head)) eqn:Hcond;
    [|reflexivity].
  apply andb_prop in Hcond as [Hcond _].
  apply andb_prop in Hcond as [_ Htail].
  apply negb_true_iff, String.eqb_neq in Htail.
  pose proof (parent_shorter name head tail Hparent Htail) as Hlt.
  unfold GridEngine.makedirs.
  rewrite (makedirs_go_fuel (String.length name) (S (String.length head))
             w head) by lia.
  reflexivity.
Qed.

End MakedirsRecursion.

(** ** Availability of an executable *)








(** ** [job_exists] *)

(** [job_exists] answers [True] exactly when the queue listing has been run
    and has printed something that is not whitespace; a listing of blanks
    and line breaks only means that there is no such job, and a listing
    that cannot be launched is an error, not an answer. *)
Theorem job_exists_iff_listing_not_blank
    (Popen : list string -> result (string -> string)) (job_name : string) :
  (job_exists Popen job_name = Ok true
   <-> exists pid,
         Popen ["squeue"; "--me"; "--name"; job_name; "--noheader"] = Ok pid
         /\ Str.forallb PyInt.is_space (pid "") = false)
  /\ (job_exists Popen job_name = Ok false
      <-> exists pid,
            Popen ["squeue"; "--me"; "--name"; job_name; "--noheader"]
            = Ok pid
            /\ Str.forallb PyInt.is_space (pid "") = true)
  /\ (forall e,
        Popen ["squeue"; "--me"; "--name"; job_name; "--noheader"] = Raise e
        -> job_exists Popen job_name = Raise e).
Proof.
  unfold job_exists.
  destruct (Popen _) as [pid|e]; simpl.
  - assert (H : Nat.ltb 0 (String.length (PyInt.strip (pid ""))) = false
               <-> Str.forallb PyInt.is_space (pid "") = true).
    { rewrite <- strip_empty. destruct (PyInt.strip (pid "")); simpl.
      - split; reflexivity.
      - split; discriminate. }
    split; [|split].
    + split.
      * intros [= Hlt]. exists pid. split; [reflexivity|].
        destruct (Str.forallb PyInt.is_space (pid "")); [|reflexivity].
        rewrite (proj2 H eq_refl) in Hlt. discriminate.
      * intros (pid' & [= <-] & Hb). f_equal.
        destruct (Nat.ltb 0 _); [reflexivity|].
        rewrite (proj1 H eq_refl) in Hb. discriminate.
    + split.
      * intros [= Hlt]. exists pid. split; [reflexivity|]. apply H, Hlt.
      * intros (pid' & [= <-] & Hb). f_equal. apply H, Hb.
    + intros e [=].
  - split; [|split].
    + split; [discriminate|]. intros (pid & [=] & _).
    + split; [discriminate|]. intros (pid & [=] & _).
    + intros e' [= ->]. reflexivity.
Qed.

(** ** The log of a command without long options *)

Lemma occurs_cons (old : string) (a : ascii) (s : string) :
  occurs old (String a s) = Str.starts_with old (String a s) || occurs old s.
Proof. reflexivity. Qed.

Lemma replace_go_cons (old new : string) (a : ascii) (s : string) :
  Str.replace_go old new O (String a s)
  = if Str.starts_with old (String a s)
    then new +:+ Str.replace_go old new (String.length old - 1) s
    else String a (Str.replace_go old new O s).
Proof. reflexivity. Qed.

(** A command text in which [" --"] does not occur is logged as it is. *)
Theorem reformat_without_options (new_command : string) :
  occurs " --" new_command = false ->
  GridEngine.reformat new_command = new_command.
Proof.
  unfold GridEngine.reformat, Str.replace.
  induction new_command as [|a s IH]; [reflexivity|].
  rewrite occurs_cons. intros H. apply orb_false_elim in H as [Hhere Hlater].
  rewrite replace_go_cons, Hhere, (IH Hlater). reflexivity.
Qed.

Lemma reformat_without_options_witness :
  GridEngine.reformat "python run.py -x 1" = "python run.py -x 1".
Proof. apply reformat_without_options. reflexivity. Defined.

(** ** Reading back the identifier that a scheduler prints *)

Section DecimalRoundTrip.

Lemma digit_pretty_N_char (d : N) :
  (d < 10)%N -> PyInt.digit (pretty_N_char d) = Some (Z.of_N d).
Proof.
  intros H.
  assert (d = 0 \/ d = 1 \/ d = 2 \/ d = 3 \/ d = 4 \/ d = 5 \/ d = 6
          \/ d = 7 \/ d = 8 \/ d = 9)%N as Hd by lia.
  repeat (destruct Hd as [->|Hd]; [reflexivity|]). subst d. reflexivity.
Qed.

Lemma digit_no_space (c : ascii) (d : Z) :
  PyInt.digit c = Some d -> PyInt.is_space c = false.
Proof.
  unfold PyInt.digit, PyInt.is_space.
  destruct (N.leb 48 (N_of_ascii c) && N.leb (N_of_ascii c) 57)%N eqn:E;
    [|discriminate].
  intros _. apply andb_prop in E as [E1 E2].
  apply N.leb_le in E1. apply N.leb_le in E2.
  repeat (apply orb_false_intro); apply N.eqb_neq; lia.
Qed.

(** The sign test of [int] lets a text that starts with a digit through. *)
Lemma digit_not_sign (c : ascii) (d : Z) (r : string) :
  PyInt.digit c = Some d ->
  match String c r with
  | String "-" r' => (true, r')
  | String "+" r' => (false, r')
  | _ => (false, String c r)
  end = (false, String c r).
Proof.
  destruct c as [[] [] [] [] [] [] [] []]; try reflexivity;
    intros H; vm_compute in H; discriminate.
Qed.

(** Reading the digits that [pretty] writes for [x] in front of [s]: the
    value read so far is shifted and [x] is added. *)
Lemma digits_pretty_N_go (x : N) :
  (0 < x)%N ->
  forall (s : string) (acc : Z) (after_digit : bool),
  exists k : Z,
    PyInt.digits acc after_digit (pretty_N_go x s)
    = PyInt.digits (acc * k + Z.of_N x) true s.
Proof.
  induction (N.lt_wf_0 x) as [x _ IH]. intros Hx s acc b.
  rewrite pretty_N_go_step by exact Hx.
  assert (Hmod : (x `mod` 10 < 10)%N) by (apply N.mod_lt; lia).
  assert (Hdm : Z.of_N x
                = 10 * Z.of_N (x `div` 10) + Z.of_N (x `mod` 10)).
  { rewrite (N.div_mod x 10) at 1 by discriminate.
    rewrite N2Z.inj_add, N2Z.inj_mul. reflexivity. }
  destruct (decide (x `div` 10 = 0)%N) as [Hz|Hnz].
  - rewrite Hz in Hdm |- *. rewrite pretty_N_go_0. exists 10. simpl.
    rewrite (digit_pretty_N_char _ Hmod). f_equal. rewrite Hdm.
    change (Z.of_N 0) with 0. ring.
  - destruct (IH (x `div` 10)%N) with
      (s := String (pretty_N_char (x `mod` 10)) s) (acc := acc)
      (after_digit := b) as [k Hk].
    + apply N.div_lt; lia.
    + lia.
    + exists (10 * k). rewrite Hk. simpl.
      rewrite (digit_pretty_N_char _ Hmod). f_equal. rewrite Hdm. ring.
Qed.

Lemma pretty_N_go_head (x : N) :
  (0 < x)%N ->
  forall s : string,
  exists c r d, pretty_N_go x s = String c r /\ PyInt.digit c = Some d.
Proof.
  induction (N.lt_wf_0 x) as [x _ IH]. intros Hx s.
  rewrite pretty_N_go_step by exact Hx.
  assert (Hmod : (x `mod` 10 < 10)%N) by (apply N.mod_lt; lia).
  destruct (decide (x `div` 10 = 0)%N) as [Hz|Hnz].
  - rewrite Hz, pretty_N_go_0. eexists _, _, _.
    split; [reflexivity|apply digit_pretty_N_char, Hmod].
  - apply IH; [apply N.div_lt; [exact Hx|reflexivity]|].
    apply N.neq_0_lt_0, Hnz.
Qed.

Lemma pretty_N_go_no_space (x : N) :
  forall s : string,
  Str.forallb (fun c => negb (PyInt.is_space c)) s = true ->
  Str.forallb (fun c => negb (PyInt.is_space c)) (pretty_N_go x s) = true.
Proof.
  induction (N.lt_wf_0 x) as [x _ IH]. intros s Hs.
  destruct (decide (x = 0)%N) as [->|Hx]; [rewrite pretty_N_go_0; exact Hs|].
  rewrite pretty_N_go_step by lia.
  apply IH; [apply N.div_lt; lia|]. simpl. rewrite Hs, andb_true_r.
  apply negb_true_iff.
  apply (digit_no_space _ (Z.of_N (x `mod` 10))), digit_pretty_N_char.
  apply N.mod_lt. lia.
Qed.

Lemma pretty_Z_no_space (n : Z) :
  Str.forallb (fun c => negb (PyInt.is_space c)) (pretty n) = true.
Proof.
  destruct n as [|x|x]; [reflexivity| |].
  - apply pretty_N_go_no_space. reflexivity.
  - change (pretty (Z.neg x)) with ("-" +:+ pretty_N_go (N.pos x) "").
    rewrite append_cons, append_nil_l. simpl.
    apply pretty_N_go_no_space. reflexivity.
Qed.

Lemma strip_id (s : string) :
  Str.forallb (fun c => negb (PyInt.is_space c)) s = true ->
  PyInt.strip s = s.
Proof.
  intros H. rewrite <- (strip_padded s "" "" eq_refl eq_refl H) at 2.
  rewrite append_nil_l, append_nil_r. reflexivity.
Qed.

Lemma is_digit_pretty_N_char (d : N) :
  (d < 10)%N -> PyInt.is_digit (pretty_N_char d) = true.
Proof.
  intros H. unfold PyInt.is_digit. rewrite (digit_pretty_N_char d H).
  reflexivity.
Qed.

Lemma pretty_N_go_digits (x : N) :
  forall s : string,
  Str.forallb PyInt.is_digit s = true ->
  Str.forallb PyInt.is_digit (pretty_N_go x s) = true.
Proof.
  induction (N.lt_wf_0 x) as [x _ IH]. intros s Hs.
  destruct (decide (x = 0)%N) as [->|Hx]; [rewrite pretty_N_go_0; exact Hs|].
  rewrite pretty_N_go_step by lia.
  apply IH; [apply N.div_lt; lia|]. simpl. rewrite Hs, andb_true_r.
  apply is_digit_pretty_N_char, N.mod_lt. lia.
Qed.

(** On a text of digits the scan takes everything and counts every
    character. *)
Lemma scan_digits (s : string) :
  Str.forallb PyInt.is_digit s = true -> PyInt.scan s = (s, "").
Proof.
  induction s as [|c s IH]; [reflexivity|]. simpl. intros H.
  apply andb_prop in H as [Hc Hs]. rewrite Hc, (IH Hs). reflexivity.
Qed.

Lemma count_digits_digits (s : string) :
  Str.forallb PyInt.is_digit s = true ->
  PyInt.count_digits s = String.length s.
Proof.
  induction s as [|c s IH]; [reflexivity|]. simpl. intros H.
  apply andb_prop in H as [Hc Hs]. rewrite Hc, (IH Hs). reflexivity.
Qed.

(** [int] reads back an integer written in decimal when it has at most
    [int_max_str_digits] digits, and refuses it by its number of digits
    otherwise. *)
Lemma int_pretty (n : Z) :
  PyInt.int (pretty n)
  = if Nat.ltb PyInt.int_max_str_digits (String.length (pretty (Z.abs n)))
    then Raise (ValueError
                  (PyInt.exceeds_limit (String.length (pretty (Z.abs n)))))
    else Ok n.
Proof.
  unfold PyInt.int. rewrite (strip_id _ (pretty_Z_no_space n)).
  destruct n as [|x|x]; [reflexivity| |].
  - change (Z.abs (Z.pos x)) with (Z.pos x).
    change (pretty (Z.pos x)) with (pretty_N_go (N.pos x) "").
    remember (String.length (pretty_N_go (N.pos x) "")) as len eqn:Hlen.
    destruct (pretty_N_go_head (N.pos x) eq_refl "") as (c & r & d & Hc & Hd).
    rewrite Hc, (digit_not_sign c d r Hd), <- Hc.
    rewrite (scan_digits _ (pretty_N_go_digits (N.pos x) "" eq_refl)).
    destruct (digits_pretty_N_go (N.pos x) eq_refl "" 0 false) as [k ->].
    rewrite (count_digits_digits _ (pretty_N_go_digits (N.pos x) "" eq_refl)).
    rewrite <- Hlen. simpl. destruct (Nat.ltb _ _); reflexivity.
  - change (Z.abs (Z.neg x)) with (Z.pos x).
    change (pretty (Z.pos x)) with (pretty_N_go (N.pos x) "").
    change (pretty (Z.neg x)) with ("-" +:+ pretty_N_go (N.pos x) "").
    rewrite append_cons, append_nil_l.
    rewrite (scan_digits _ (pretty_N_go_digits (N.pos x) "" eq_refl)).
    destruct (digits_pretty_N_go (N.pos x) eq_refl "" 0 false) as [k ->].
    rewrite (count_digits_digits _ (pretty_N_go_digits (N.pos x) "" eq_refl)).
    simpl. destruct (Nat.ltb _ _); reflexivity.
Qed.

Variable subst_list :
  Env -> string -> list Node -> list Node -> result (list (list string)).
Variable escape_list : Env -> list string -> list string.
Variable renv_subst : Override -> string -> result string.
Variable shlex_split : string -> result (list string).
Variable Popen : list string -> result (string -> string).
Variable getcwd : string.
Variable Dir_abspath : Env -> string -> string.
Variable generator : list Node -> list Node -> Env -> bool -> list string.
Variable chdir : option string.
Variable submit_string : string.

Local Arguments Str.join : simpl never.
Local Arguments PyInt.int : simpl never.
Local Arguments tag_all : simpl never.
Local Arguments create_name : simpl never.

(** An integer that the scheduler prints in decimal, with any whitespace
    before and after it, is the identifier that the targets are tagged
    with, as long as it has at most [int_max_str_digits] digits; a longer
    one is refused by [int] with a [ValueError] that reports its number of
    digits, and nothing is tagged. *)
Theorem method_reads_back_printed_identifier (target source : list Node)
    (env : Env) (st : TagStore) (commands : list string)
    (name sub shell : string) (argv : list string) (p : string -> string)
    (t0 : Node) (rest : list Node) (job_id : Z) (lead trail : string) :
  prepare_commands subst_list escape_list target source env
    (generator target source env false) = Ok commands ->
  create_name target source env = Ok name ->
  target = t0 :: rest ->
  renv_subst
    (mkOverride env name (get_abspath t0 +:+ ".log")
       (if truthy chdir then Dir_abspath env (default "" chdir) else getcwd)
       (collect_tags st "built_by_job" source) submit_string)
    submit_string = Ok sub ->
  shlex_split sub = Ok argv ->
  Popen argv = Ok p ->
  env !! "STEAMROLLER_SHELL" = Some shell ->
  p (Str.join nl (shell :: commands)) = lead +:+ pretty job_id +:+ trail ->
  Str.forallb PyInt.is_space lead = true ->
  Str.forallb PyInt.is_space trail = true ->
  method subst_list escape_list renv_subst shlex_split Popen getcwd
    Dir_abspath generator chdir submit_string target source env st
  = if Nat.ltb PyInt.int_max_str_digits
         (String.length (pretty (Z.abs job_id)))
    then (st,
          Raise (ValueError
                   (PyInt.exceeds_limit
                      (String.length (pretty (Z.abs job_id))))))
    else (tag_all st "built_by_job" job_id target, Ok tt).
Proof.
  intros Hc Hn Ht Hsub Hargv Hp Hshell Hout Hlead Htrail.
  unfold method, method_submit. rewrite Hc. simpl.
  rewrite (submit_launched renv_subst shlex_split Popen submit_string target
             source env commands _ _ name sub argv p t0 rest Hn Ht Hsub
             Hargv Hp).
  rewrite Hshell, Hout.
  rewrite (strip_padded _ lead trail Hlead Htrail (pretty_Z_no_space job_id)).
  rewrite int_pretty. destruct (Nat.ltb _ _); reflexivity.
Qed.

End DecimalRoundTrip.

Lemma method_reads_back_printed_identifier_witness :
  Sample.method (" " +:+ pretty 90210 +:+ nl) [Sample.out_txt] []
    Sample.env ∅
  = (tag_all ∅ "built_by_job" 90210 [Sample.out_txt], Ok tt).
Proof.
  exact (method_reads_back_printed_identifier Sample.subst_list
           Sample.escape_list Sample.renv_subst Sample.shlex_split
           (Sample.Popen (" " +:+ pretty 90210 +:+ nl)) Sample.getcwd
           Sample.Dir_abspath Sample.generator None "sbatch"
           [Sample.out_txt] [] Sample.env ∅ ["python run.py --x 1"]
           ("steamroller" +:+ "_" +:+
            MD5.hexdigest (Str.join " " ["/w/out.txt"]))
           "sbatch" "#!/bin/bash" ["sbatch"]
           (fun _ => " " +:+ pretty 90210 +:+ nl) Sample.out_txt [] 90210
           " " nl eq_refl eq_refl eq_refl eq_refl eq_refl eq_refl eq_refl
           eq_refl eq_refl eq_refl).
Defined.

(** ** The pattern that [create_builder] matches *)

Section RegexSoundness.

Lemma star_sound {R} (p : ascii -> bool) (s : string)
    (k : string -> option R) (r : R) :
  Re.star p s k = Some r ->
  exists pre rest,
    s = pre +:+ rest /\ Str.forallb p pre = true /\ k rest = Some r.
Proof.
  induction s as [|c s IH]; simpl.
  - intros H. exists "", "". repeat split. exact H.
  - destruct (p c) eqn:Hc.
    + destruct (Re.star p s k) as [r'|] eqn:Hs.
      * intros [= ->]. destruct (IH eq_refl) as (pre & rest & -> & Hp & Hk).
        exists (String c pre), rest. rewrite append_cons. simpl.
        rewrite Hc, Hp. repeat split. exact Hk.
      * intros H. exists "", (String c s). repeat split. exact H.
    + intros H. exists "", (String c s). repeat split. exact H.
Qed.

Lemma star_lazy_sound {R} (p : ascii -> bool) (s : string)
    (k : string -> option R) (r : R) :
  Re.star_lazy p s k = Some r ->
  exists pre rest,
    s = pre +:+ rest /\ Str.forallb p pre = true /\ k rest = Some r.
Proof.
  induction s as [|c s IH]; simpl.
  - destruct (k "") as [r'|] eqn:Hk; [|discriminate].
    intros [= ->]. exists "", "". repeat split. exact Hk.
  - destruct (k (String c s)) as [r'|] eqn:Hk.
    + intros [= ->]. exists "", (String c s). repeat split. exact Hk.
    + destruct (p c) eqn:Hc; [|discriminate].
      intros H. destruct (IH H) as (pre & rest & -> & Hp & Hk').
      exists (String c pre), rest. rewrite append_cons. simpl.
      rewrite Hc, Hp. repeat split. exact Hk'.
Qed.

Lemma consumed_append (pre rest : string) :
  Re.consumed (pre +:+ rest) rest = pre.
Proof.
  unfold Re.consumed. rewrite length_append.
  replace (String.length pre + String.length rest - String.length rest)%nat
    with (String.length pre) by lia.
  apply take_append.
Qed.

(** Whatever the matcher accepts is a match: the text splits into what the
    expression matched and what the continuation received, and the groups
    handed on are the groups of that match. *)
Lemma matcher_sound (r : Re.regex) :
  forall (s : string) (groups : list string)
         (k : string -> list string -> option (list string))
         (res : list string),
    Re.matcher r s groups k = Some res ->
    exists pre rest gs,
      s = pre +:+ rest /\ Re.Sem r pre rest gs
      /\ k rest (groups ++ gs) = Some res.
Proof.
  induction r as [p|p|p|p|r1 IH1 r2 IH2|r IH|]; intros s groups k res; simpl.
  - destruct s as [|c s]; [discriminate|].
    destruct (p c) eqn:Hc; [|discriminate]. intros H.
    exists (String c ""), s, []. rewrite app_nil_r.
    repeat split; [constructor; exact Hc|exact H].
  - intros H. apply star_sound in H as (pre & rest & -> & Hp & Hk).
    exists pre, rest, []. rewrite app_nil_r.
    repeat split; [constructor; exact Hp|exact Hk].
  - intros H. apply star_lazy_sound in H as (pre & rest & -> & Hp & Hk).
    exists pre, rest, []. rewrite app_nil_r.
    repeat split; [constructor; exact Hp|exact Hk].
  - assert (Hnone : k s groups = Some res ->
              exists pre rest gs,
                s = pre +:+ rest /\ Re.Sem (Re.Opt p) pre rest gs
                /\ k rest (groups ++ gs) = Some res).
    { intros H. exists "", s, []. rewrite app_nil_r.
      repeat split; [constructor|exact H]. }
    destruct s as [|c s]; [exact Hnone|].
    destruct (p c) eqn:Hc; [|exact Hnone].
    destruct (k s groups) as [res'|] eqn:Hk; [|exact Hnone].
    intros [= ->]. exists (String c ""), s, []. rewrite app_nil_r.
    repeat split; [constructor; exact Hc|exact Hk].
  - intros H. apply IH1 in H as (pre1 & rest1 & g1 & -> & H1 & H).
    apply IH2 in H as (pre2 & rest & g2 & -> & H2 & H).
    exists (pre1 +:+ pre2), rest, (g1 ++ g2).
    rewrite app_assoc, append_assoc.
    repeat split; [constructor; assumption|exact H].
  - intros H. apply IH in H as (pre & rest & g & -> & H1 & H).
    rewrite consumed_append in H.
    exists pre, rest, (g ++ [pre]). rewrite app_assoc.
    repeat split; [constructor; exact H1|exact H].
  - destruct (String.eqb s "" || String.eqb s nl) eqn:E; [|discriminate].
    intros H. exists "", s, []. rewrite app_nil_r.
    repeat split; [|exact H]. constructor.
    apply orb_prop in E as [E|E]; apply String.eqb_eq in E; auto.
Qed.

End RegexSoundness.

Section PatternShape.

Lemma Sem_Chr_inv p pre rest gs :
  Re.Sem (Re.Chr p) pre rest gs ->
  exists c, pre = String c "" /\ p c = true /\ gs = [].
Proof. inversion 1; subst. eexists. repeat split. assumption. Qed.

Lemma Sem_Star_inv p pre rest gs :
  Re.Sem (Re.Star p) pre rest gs -> Str.forallb p pre = true /\ gs = [].
Proof. inversion 1; subst. split; [assumption|reflexivity]. Qed.

Lemma Sem_StarLazy_inv p pre rest gs :
  Re.Sem (Re.StarLazy p) pre rest gs -> Str.forallb p pre = true /\ gs = [].
Proof. inversion 1; subst. split; [assumption|reflexivity]. Qed.

Lemma Sem_Opt_inv p pre rest gs :
  Re.Sem (Re.Opt p) pre rest gs ->
  gs = [] /\ (pre = "" \/ exists c, pre = String c "" /\ p c = true).
Proof.
  inversion 1; subst; (split; [reflexivity|]); [left; reflexivity|].
  right. eexists. split; [reflexivity|assumption].
Qed.

Lemma Sem_Cat_inv r1 r2 pre rest gs :
  Re.Sem (Re.Cat r1 r2) pre rest gs ->
  exists pre1 pre2 g1 g2,
    pre = pre1 +:+ pre2 /\ gs = g1 ++ g2
    /\ Re.Sem r1 pre1 (pre2 +:+ rest) g1 /\ Re.Sem r2 pre2 rest g2.
Proof.
  inversion 1; subst. eexists _, _, _, _. repeat split; eassumption.
Qed.

Lemma Sem_Group_inv r pre rest gs :
  Re.Sem (Re.Group r) pre rest gs ->
  exists g, gs = g ++ [pre] /\ Re.Sem r pre rest g.
Proof. inversion 1; subst. eexists. split; [reflexivity|assumption]. Qed.

Lemma Sem_Eos_inv pre rest gs :
  Re.Sem Re.Eos pre rest gs ->
  pre = "" /\ gs = [] /\ (rest = "" \/ rest = nl).
Proof. inversion 1; subst. repeat split. assumption. Qed.

Lemma forallb_none (s : string) :
  Str.forallb (fun _ => false) s = true -> s = "".
Proof. destruct s; [reflexivity|discriminate]. Qed.

Lemma Sem_lit_inv (t : string) :
  forall pre rest gs,
    Re.Sem (Re.lit t) pre rest gs -> pre = t /\ gs = [].
Proof.
  induction t as [|c t IH]; intros pre rest gs H.
  - apply Sem_Star_inv in H as [H ->]. apply forallb_none in H.
    split; [exact H|reflexivity].
  - destruct t as [|d t].
    + apply Sem_Chr_inv in H as (c' & -> & Hc & ->).
      apply Ascii.eqb_eq in Hc. subst c'. split; reflexivity.
    + change (Re.lit (String c (String d t)))
        with (Re.Cat (Re.Chr (Ascii.eqb c)) (Re.lit (String d t))) in H.
      apply Sem_Cat_inv in H as (p1 & p2 & g1 & g2 & -> & -> & H1 & H2).
      apply Sem_Chr_inv in H1 as (c' & -> & Hc & ->).
      apply Ascii.eqb_eq in Hc. subst c'.
      apply IH in H2 as [-> ->]. split; reflexivity.
Qed.

Lemma Sem_plus_inv p pre rest gs :
  Re.Sem (Re.plus p) pre rest gs ->
  pre <> "" /\ Str.forallb p pre = true /\ gs = [].
Proof.
  intros H. apply Sem_Cat_inv in H as (p1 & p2 & g1 & g2 & -> & -> & H1 & H2).
  apply Sem_Chr_inv in H1 as (c & -> & Hc & ->).
  apply Sem_Star_inv in H2 as [H2 ->].
  rewrite append_cons, append_nil_l. simpl. rewrite Hc, H2.
  repeat split. discriminate.
Qed.

(** What the pattern accepts. A command is matched only if it reads: blanks;
    a first word that ends in [Python] or [python], possibly followed by
    [3]; blanks, at least one; a text on one line that ends in [.py];
    blanks, at least one; the rest of the line; and at most one final line
    break. The three groups are the first word, the text ending in [.py]
    and the rest of the line. *)
Lemma command_pattern_sound (command : string) (groups : list string) :
  Re.re_match Re.command_pattern command = Some groups ->
  exists lead word q three gap1 stem gap2 args tail,
    groups = [word +:+ String q ("ython" +:+ three); stem +:+ ".py"; args]
    /\ command
       = lead +:+ (word +:+ String q ("ython" +:+ three)) +:+ gap1
         +:+ (stem +:+ ".py") +:+ gap2 +:+ args +:+ tail
    /\ Str.forallb Re.space lead = true
    /\ Str.forallb Re.nonspace word = true
    /\ (q = "P"%char \/ q = "p"%char)
    /\ (three = "" \/ three = "3")
    /\ gap1 <> "" /\ Str.forallb Re.space gap1 = true
    /\ Str.forallb Re.dot stem = true
    /\ gap2 <> "" /\ Str.forallb Re.space gap2 = true
    /\ Str.forallb Re.dot args = true
    /\ (tail = "" \/ tail = nl).
Proof.
  unfold Re.re_match. intros H.
  apply matcher_sound in H as (pre & tail & gs & -> & H & [= <-]).
  unfold Re.command_pattern in H.
  apply Sem_Cat_inv in H as (lead & p1 & ? & ? & -> & -> & Hlead & H).
  apply Sem_Star_inv in Hlead as [Hlead ->].
  apply Sem_Cat_inv in H as (interp & p2 & ? & ? & -> & -> & Hi & H).
  apply Sem_Group_inv in Hi as (? & -> & Hi).
  apply Sem_Cat_inv in Hi as (word & i1 & ? & ? & -> & -> & Hword & Hi).
  apply Sem_Star_inv in Hword as [Hword ->].
  apply Sem_Cat_inv in Hi as (qs & i2 & ? & ? & -> & -> & Hq & Hi).
  apply Sem_Chr_inv in Hq as (q & -> & Hq & ->).
  apply Sem_Cat_inv in Hi as (yt & th & ? & ? & -> & -> & Hy & Hthree).
  apply Sem_lit_inv in Hy as [-> ->].
  apply Sem_Opt_inv in Hthree as [-> Hthree].
  apply Sem_Cat_inv in H as (gap1 & p3 & ? & ? & -> & -> & Hgap1 & H).
  apply Sem_plus_inv in Hgap1 as (Hgap1n & Hgap1 & ->).
  apply Sem_Cat_inv in H as (script & p4 & ? & ? & -> & -> & Hs & H).
  apply Sem_Group_inv in Hs as (? & -> & Hs).
  apply Sem_Cat_inv in Hs as (stem & py & ? & ? & -> & -> & Hstem & Hpy).
  apply Sem_StarLazy_inv in Hstem as [Hstem ->].
  apply Sem_lit_inv in Hpy as [-> ->].
  apply Sem_Cat_inv in H as (gap2 & p5 & ? & ? & -> & -> & Hgap2 & H).
  apply Sem_plus_inv in Hgap2 as (Hgap2n & Hgap2 & ->).
  apply Sem_Cat_inv in H as (args & e & ? & ? & -> & -> & Hargs & He).
  apply Sem_Group_inv in Hargs as (? & -> & Hargs).
  apply Sem_Star_inv in Hargs as [Hargs ->].
  apply Sem_Eos_inv in He as (-> & -> & Htail).
  exists lead, word, q, th, gap1, stem, gap2, args, tail.
  rewrite !append_nil_r, !append_cons, !append_nil_l.
  split; [reflexivity|]. split.
  { rewrite !append_assoc, !append_cons, ?append_nil_l. reflexivity. }
  repeat split; try assumption.
  - apply orb_prop in Hq as [Hq|Hq]; apply Ascii.eqb_eq in Hq; auto.
  - destruct Hthree as [->|(c & -> & Hc)]; [left; reflexivity|].
    apply Ascii.eqb_eq in Hc. subst c. right. reflexivity.
Qed.

End PatternShape.

(** ** [create_builder] *)

Lemma emitter_depends_on_script (script : string)
    (get_contents : list Node -> list Node -> Env -> string)
    (other_deps : list string) (target source : list Node) (env : Env)
    (w : GridEngine.EmitWorld) :
  Forall file_or_dir target ->
  exists new_targets,
    (GridEngine.emitter script get_contents other_deps target source env w).2
    = Ok (new_targets, source)
    /\ forall t', t' ∈ new_targets ->
         (t', script)
         ∈ GridEngine.depends
             (GridEngine.emitter script get_contents other_deps target
                source env w).1.
Proof.
  intros Hkinds. unfold GridEngine.emitter.
  rewrite (rename_known_targets _ target Hkinds). simpl.
  eexists. split; [reflexivity|]. intros t' Hin.
  rewrite depends_foldl_Depends, depends_foldl_write_log.
  apply elem_of_app. right.
  apply list_elem_of_bind. exists t'. split; [|exact Hin].
  apply list_elem_of_bind. exists script. split.
  - apply list_elem_of_singleton. reflexivity.
  - apply elem_of_app. right. apply list_elem_of_singleton. reflexivity.
Qed.

Section CreateBuilderProperties.

Variable subst_list :
  Env -> string -> list Node -> list Node -> result (list (list string)).
Variable escape_list : Env -> list string -> list string.
Variable renv_subst : Override -> string -> result string.
Variable shlex_split : string -> result (list string).
Variable Popen : list string -> result (string -> string).
Variable getcwd : string.
Variable Dir_abspath : Env -> string -> string.
Variable str_commands : list string -> string.
Variable str_set : gset Z -> string.
Variable path_exists : string -> bool.
Variable action_get_contents :
  list string -> list Node -> list Node -> Env -> string.

Local Abbreviation create_builder' :=
  (create_builder subst_list escape_list renv_subst shlex_split Popen getcwd
     Dir_abspath str_commands str_set path_exists action_get_contents).

(** A builder is made only from a parsed command whose script exists. *)
Lemma create_builder_inv (self : GridEngine.Engine) (submit_string : string)
    (c0 : string) (rest : list string) (chdir : option string)
    (b : Builder) :
  create_builder' self submit_string (c0 :: rest) chdir = Ok b ->
  exists interpreter script args,
    Re.re_match Re.command_pattern c0 = Some [interpreter; script; args]
    /\ path_exists script = true
    /\ builder_emitter b = GridEngine.emitter script (action_gc b) [].
Proof.
  unfold create_builder. simpl.
  destruct (Re.re_match Re.command_pattern c0) as [groups|]; [|discriminate].
  destruct groups as [|i [|s [|a [|x groups]]]]; try discriminate.
  destruct (path_exists s) eqn:Hs; simpl; [|discriminate].
  intros [= <-]. exists i, s, a. repeat split. exact Hs.
Qed.

(** [create_builder] returns a builder only when the first command, read
    as ASCII text, is: blanks; a first word ending in [Python] or [python]
    with an optional [3]; blanks; a one-line text ending in [.py]; blanks;
    the rest of the line; at most one final line break; and only when the
    file named by that text ending in [.py] exists. The emitter of the
    builder is the emitter for that script and for the contents of the
    builder's action. *)
Theorem create_builder_accepts (self : GridEngine.Engine)
    (submit_string : string) (c0 : string) (rest : list string)
    (chdir : option string) (b : Builder) :
  Str.forallb Re.is_ascii c0 = true ->
  create_builder' self submit_string (c0 :: rest) chdir = Ok b ->
  exists lead word q three gap1 stem gap2 args tail,
    c0 = lead +:+ (word +:+ String q ("ython" +:+ three)) +:+ gap1
         +:+ (stem +:+ ".py") +:+ gap2 +:+ args +:+ tail
    /\ Str.forallb Re.space lead = true
    /\ Str.forallb Re.nonspace word = true
    /\ (q = "P"%char \/ q = "p"%char)
    /\ (three = "" \/ three = "3")
    /\ gap1 <> "" /\ Str.forallb Re.space gap1 = true
    /\ Str.forallb Re.dot stem = true
    /\ gap2 <> "" /\ Str.forallb Re.space gap2 = true
    /\ Str.forallb Re.dot args = true
    /\ (tail = "" \/ tail = nl)
    /\ path_exists (stem +:+ ".py") = true
    /\ builder_emitter b
       = GridEngine.emitter (stem +:+ ".py") (action_gc b) [].
Proof.
  intros _ H.
  apply create_builder_inv in H as (i & s & a & Hm & Hex & Hem).
  destruct (command_pattern_sound c0 _ Hm)
    as (lead & word & q & three & gap1 & stem & gap2 & args & tail
        & [= -> -> ->] & Hc0 & Hrest).
  exists lead, word, q, three, gap1, stem, gap2, args, tail.
  split; [exact Hc0|].
  destruct Hrest as (H1 & H2 & H3 & H4 & H5 & H6 & H7 & H8 & H9 & H10 & H11).
  repeat split; assumption.
Qed.

(** A first command in which no [.py] is followed by a blank is refused
    with ["Could not parse command"]: a script without arguments after it,
    such as [python run.py], cannot be made into a builder. So is an empty
    list of commands, with [IndexError]. *)
Theorem create_builder_needs_argument (self : GridEngine.Engine)
    (submit_string : string) (c0 : string) (rest : list string)
    (chdir : option string) :
  Str.forallb Re.is_ascii c0 = true ->
  (forall pre w post,
     c0 = pre +:+ ".py" +:+ String w post -> Re.space w = false) ->
  create_builder' self submit_string (c0 :: rest) chdir
  = Raise (Exception ("Could not parse command: '" +:+ c0 +:+ "'"))
  /\ create_builder' self submit_string [] chdir = Raise IndexError.
Proof.
  intros _ Hno. split; [|reflexivity].
  unfold create_builder. simpl.
  destruct (Re.re_match Re.command_pattern c0) as [groups|] eqn:Hm;
    [|reflexivity].
  exfalso.
  destruct (command_pattern_sound c0 _ Hm)
    as (lead & word & q & three & gap1 & stem & gap2 & args & tail
        & _ & Hc0 & _ & _ & _ & _ & _ & _ & _ & Hgap2n & Hgap2 & _).
  destruct gap2 as [|w post]; [congruence|].
  simpl in Hgap2. apply andb_prop in Hgap2 as [Hw _].
  rewrite (Hno (lead +:+ (word +:+ String q ("ython" +:+ three)) +:+ gap1
                +:+ stem) w (post +:+ args +:+ tail)) in Hw;
    [discriminate|].
  rewrite Hc0, !append_assoc, !append_cons, ?append_nil_l. reflexivity.
Qed.

(** Every target that the emitter of a builder returns depends on the
    script named in the first command of the builder. *)
Theorem builder_targets_depend_on_script (self : GridEngine.Engine)
    (submit_string : string) (c0 : string) (rest : list string)
    (chdir : option string) (b : Builder) (interpreter script args : string)
    (target source : list Node) (env : Env) (w : GridEngine.EmitWorld) :
  Str.forallb Re.is_ascii c0 = true ->
  create_builder' self submit_string (c0 :: rest) chdir = Ok b ->
  Re.re_match Re.command_pattern c0 = Some [interpreter; script; args] ->
  Forall file_or_dir target ->
  exists new_targets,
    (builder_emitter b target source env w).2 = Ok (new_targets, source)
    /\ forall t', t' ∈ new_targets ->
         (t', script)
         ∈ GridEngine.depends (builder_emitter b target source env w).1.
Proof.
  intros _ Hb Hm Hkinds.
  apply create_builder_inv in Hb as (i & s & a & Hm' & _ & ->).
  rewrite Hm in Hm'. injection Hm' as <- <- <-.
  apply emitter_depends_on_script, Hkinds.
Qed.

End CreateBuilderProperties.

Lemma create_builder_accepts_witness :
  exists b, SampleBuilder.create_builder ["python run.py --x 1"] None = Ok b
  /\ exists lead word q three gap1 stem gap2 args tail,
    "python run.py --x 1"
    = lead +:+ (word +:+ String q ("ython" +:+ three)) +:+ gap1
      +:+ (stem +:+ ".py") +:+ gap2 +:+ args +:+ tail
    /\ Str.forallb Re.space lead = true
    /\ Str.forallb Re.nonspace word = true
    /\ (q = "P"%char \/ q = "p"%char)
    /\ (three = "" \/ three = "3")
    /\ gap1 <> "" /\ Str.forallb Re.space gap1 = true
    /\ Str.forallb Re.dot stem = true
    /\ gap2 <> "" /\ Str.forallb Re.space gap2 = true
    /\ Str.forallb Re.dot args = true
    /\ (tail = "" \/ tail = nl)
    /\ SampleBuilder.path_exists (stem +:+ ".py") = true
    /\ builder_emitter b
       = GridEngine.emitter (stem +:+ ".py") (action_gc b) [].
Proof.
  eexists. split; [reflexivity|].
  apply (create_builder_accepts Sample.subst_list Sample.escape_list
           Sample.renv_subst Sample.shlex_split (Sample.Popen "1337")
           Sample.getcwd Sample.Dir_abspath Sample.str_commands
           Sample.str_set SampleBuilder.path_exists
           SampleBuilder.action_get_contents Sample.slurm "sbatch"
           "python run.py --x 1" [] None); reflexivity.
Defined.

Lemma create_builder_needs_argument_witness :
  SampleBuilder.create_builder ["python run.py"] None
  = Raise (Exception ("Could not parse command: '" +:+ "python run.py"
                      +:+ "'"))
  /\ SampleBuilder.create_builder [] None = Raise IndexError.
Proof.
  apply (create_builder_needs_argument Sample.subst_list Sample.escape_list
           Sample.renv_subst Sample.shlex_split (Sample.Popen "1337")
           Sample.getcwd Sample.Dir_abspath Sample.str_commands
           Sample.str_set SampleBuilder.path_exists
           SampleBuilder.action_get_contents Sample.slurm "sbatch"
           "python run.py" [] None); [reflexivity|].
  intros pre w post H. exfalso.
  assert (Hlen : String.length "python run.py"
                 = String.length (pre +:+ ".py" +:+ String w post))
    by (rewrite <- H; reflexivity).
  rewrite !length_append in Hlen. simpl in Hlen.
  assert (Hpre : (String.length pre <= 9)%nat) by lia.
  clear Hlen.
  do 10 (destruct pre as [|? pre];
         [rewrite ?append_cons, ?append_nil_l in H; discriminate H|]).
  simpl in Hpre. lia.
Defined.

Lemma builder_targets_depend_on_script_witness :
  exists b, SampleBuilder.create_builder ["python run.py --x 1"] None = Ok b
  /\ exists new_targets,
    (builder_emitter b [Sample.out_txt] [] Sample.env Sample.empty_world).2
    = Ok (new_targets, [])
    /\ forall t', t' ∈ new_targets ->
         (t', "run.py")
         ∈ GridEngine.depends
             (builder_emitter b [Sample.out_txt] [] Sample.env
                Sample.empty_world).1.
Proof.
  eexists. split; [reflexivity|].
  apply (builder_targets_depend_on_script Sample.subst_list
           Sample.escape_list Sample.renv_subst Sample.shlex_split
           (Sample.Popen "1337") Sample.getcwd Sample.Dir_abspath
           Sample.str_commands Sample.str_set SampleBuilder.path_exists
           SampleBuilder.action_get_contents Sample.slurm "sbatch"
           "python run.py --x 1" [] None _ "python" "run.py" "--x 1");
    try reflexivity.
  constructor; [left; reflexivity|]. constructor.
Defined.

(** ** Answers of the scheduler that are not an integer *)

Section AnswerMustBeInteger.

(** The characters that can be part of an answer that [int] accepts. *)
Local Abbreviation int_char :=
  (fun c : ascii =>
     match PyInt.digit c with Some _ => true | None => false end
     || Ascii.eqb c "_" || Ascii.eqb c "+" || Ascii.eqb c "-"
     || PyInt.is_space c).

Lemma sign_split (c : ascii) (r : string) :
  match String c r with
  | String "-" r' => (true, r')
  | String "+" r' => (false, r')
  | _ => (false, String c r)
  end
  = if Ascii.eqb c "-" then (true, r)
    else if Ascii.eqb c "+" then (false, r)
    else (false, String c r).
Proof. destruct c as [[] [] [] [] [] [] [] []]; reflexivity. Qed.

Lemma digits_bad_char (s : string) :
  forall (acc : Z) (after_digit : bool),
    Str.forallb int_char s = false ->
    PyInt.digits acc after_digit s = None.
Proof.
  induction s as [|c s IH]; intros acc b; [discriminate|].
  simpl. destruct (PyInt.digit c) as [d|] eqn:Hd; simpl.
  - intros H. apply IH, H.
  - destruct (Ascii.eqb c "_") eqn:Hu; simpl.
    + intros H. destruct b; [apply IH, H|reflexivity].
    + intros _. reflexivity.
Qed.

Lemma forallb_lstrip (p : ascii -> bool) (s : string) :
  (forall c, PyInt.is_space c = true -> p c = true) ->
  Str.forallb p (PyInt.lstrip s) = Str.forallb p s.
Proof.
  intros Hp. induction s as [|c s IH]; [reflexivity|].
  simpl. destruct (PyInt.is_space c) eqn:Hc; [|reflexivity].
  rewrite (Hp c Hc), IH. reflexivity.
Qed.

Lemma forallb_strip (p : ascii -> bool) (s : string) :
  (forall c, PyInt.is_space c = true -> p c = true) ->
  Str.forallb p (PyInt.strip s) = Str.forallb p s.
Proof.
  intros Hp. unfold PyInt.strip.
  rewrite forallb_rev, (forallb_lstrip p _ Hp), forallb_rev.
  apply forallb_lstrip, Hp.
Qed.

Lemma int_char_space (c : ascii) : PyInt.is_space c = true -> int_char c = true.
Proof. intros H. cbv beta. rewrite H. apply orb_true_r. Qed.

Lemma scan_spec (s : string) :
  forall run rest : string, PyInt.scan s = (run, rest) -> s = run +:+ rest.
Proof.
  induction s as [|c s IH]; intros run rest; simpl.
  - intros [= <- <-]. reflexivity.
  - destruct (PyInt.is_digit c || Ascii.eqb c "_").
    + destruct (PyInt.scan s) as [run' rest'] eqn:E. intros [= <- <-].
      rewrite append_cons, <- (IH run' rest' eq_refl). reflexivity.
    + intros [= <- <-]. reflexivity.
Qed.

Lemma count_digits_append (s t : string) :
  PyInt.count_digits (s +:+ t)
  = (PyInt.count_digits s + PyInt.count_digits t)%nat.
Proof.
  induction s as [|c s IH]; [reflexivity|].
  rewrite append_cons. simpl. rewrite IH.
  destruct (PyInt.is_digit c); reflexivity.
Qed.

Lemma space_not_digit (c : ascii) :
  PyInt.is_space c = true -> PyInt.is_digit c = false.
Proof.
  intros H. unfold PyInt.is_digit.
  destruct (PyInt.digit c) as [d|] eqn:Hd; [|reflexivity].
  rewrite (digit_no_space c d Hd) in H. discriminate.
Qed.

Lemma count_digits_lstrip (s : string) :
  PyInt.count_digits (PyInt.lstrip s) = PyInt.count_digits s.
Proof.
  induction s as [|c s IH]; [reflexivity|]. simpl.
  destruct (PyInt.is_space c) eqn:Hc; [|reflexivity].
  rewrite (space_not_digit c Hc). exact IH.
Qed.

Lemma count_digits_rev (s : string) :
  PyInt.count_digits (String.rev s) = PyInt.count_digits s.
Proof.
  induction s as [|c s IH]; [reflexivity|].
  rewrite rev_cons, count_digits_append, IH. simpl.
  destruct (PyInt.is_digit c); lia.
Qed.

Lemma count_digits_strip (s : string) :
  PyInt.count_digits (PyInt.strip s) = PyInt.count_digits s.
Proof.
  unfold PyInt.strip.
  rewrite count_digits_rev, count_digits_lstrip, count_digits_rev.
  apply count_digits_lstrip.
Qed.

(** After the sign: a text with a character that cannot be part of an
    integer is refused. The message is the one of a refused literal unless
    the text holds more than [int_max_str_digits] digits. *)
Lemma int_body_refuses (body s : string) (negative : bool) :
  Str.forallb int_char body = false ->
  exists msg : string,
    (let '(run, rest) := PyInt.scan body in
     match PyInt.digits 0 false run with
     | None => Raise (ValueError (PyInt.invalid_literal s))
     | Some n =>
         if Nat.ltb PyInt.int_max_str_digits (PyInt.count_digits run)
         then Raise (ValueError
                       (PyInt.exceeds_limit (PyInt.count_digits run)))
         else if String.eqb rest ""
              then Ok (if negative then - n else n)
              else Raise (ValueError (PyInt.invalid_literal s))
     end) = Raise (ValueError msg)
    /\ ((PyInt.count_digits body <= PyInt.int_max_str_digits)%nat ->
        msg = PyInt.invalid_literal s).
Proof.
  intros Hbad. destruct (PyInt.scan body) as [run rest] eqn:Hscan.
  pose proof (scan_spec body run rest Hscan) as Hbody.
  destruct (PyInt.digits 0 false run) as [n|] eqn:Hd.
  - destruct (Nat.ltb PyInt.int_max_str_digits (PyInt.count_digits run))
      eqn:Hl.
    + eexists. split; [reflexivity|]. intros Hle. exfalso.
      apply Nat.ltb_lt in Hl.
      rewrite Hbody, count_digits_append in Hle. lia.
    + destruct (String.eqb rest "") eqn:Hr.
      * apply String.eqb_eq in Hr. subst rest.
        rewrite append_nil_r in Hbody. subst run.
        rewrite (digits_bad_char body 0 false Hbad) in Hd. discriminate.
      * eexists. split; [reflexivity|]. intros _. reflexivity.
  - eexists. split; [reflexivity|]. intros _. reflexivity.
Qed.

(** [int] refuses a text that is blank, and a text with a character that
    is not a digit, an underscore, a sign or whitespace. *)
Lemma int_refuses (s : string) :
  Str.forallb PyInt.is_space s = true \/ Str.forallb int_char s = false ->
  exists msg : string,
    PyInt.int s = Raise (ValueError msg)
    /\ ((PyInt.count_digits s <= PyInt.int_max_str_digits)%nat ->
        msg = PyInt.invalid_literal s).
Proof.
  intros H. unfold PyInt.int.
  destruct (Str.forallb PyInt.is_space s) eqn:Hs.
  - rewrite (proj2 (strip_empty s) Hs). eexists.
    split; [reflexivity|]. intros _. reflexivity.
  - destruct H as [H|H]; [discriminate|].
    rewrite <- (forallb_strip _ s int_char_space) in H.
    rewrite <- (count_digits_strip s).
    destruct (PyInt.strip s) as [|c r]; [discriminate|].
    rewrite sign_split.
    assert (Hcount : (PyInt.count_digits r
                      <= PyInt.count_digits (String c r))%nat)
      by (simpl; destruct (PyInt.is_digit c); lia).
    destruct (Ascii.eqb c "-") eqn:Hm;
      [|destruct (Ascii.eqb c "+") eqn:Hp]; cbv beta iota.
    + destruct (int_body_refuses r s true) as (msg & Hmsg & Hlit).
      { simpl in H. rewrite Hm, !orb_true_r in H. exact H. }
      exists msg. split; [exact Hmsg|]. intros Hle. apply Hlit. lia.
    + destruct (int_body_refuses r s false) as (msg & Hmsg & Hlit).
      { simpl in H. rewrite Hp, !orb_true_r in H. simpl in H.
        rewrite ?orb_true_r in H. exact H. }
      exists msg. split; [exact Hmsg|]. intros Hle. apply Hlit. lia.
    + destruct (int_body_refuses (String c r) s false H)
        as (msg & Hmsg & Hlit).
      exists msg. split; [exact Hmsg|]. exact Hlit.
Qed.

Variable subst_list :
  Env -> string -> list Node -> list Node -> result (list (list string)).
Variable escape_list : Env -> list string -> list string.
Variable renv_subst : Override -> string -> result string.
Variable shlex_split : string -> result (list string).
Variable Popen : list string -> result (string -> string).
Variable getcwd : string.
Variable Dir_abspath : Env -> string -> string.
Variable generator : list Node -> list Node -> Env -> bool -> list string.
Variable chdir : option string.
Variable submit_string : string.

Local Arguments Str.join : simpl never.
Local Arguments PyInt.int : simpl never.
Local Arguments tag_all : simpl never.
Local Arguments create_name : simpl never.

(** When the scheduler answers with blanks only, or with any character
    that is not a digit, an underscore, a sign or whitespace (a sentence
    such as [Submitted batch job 1337]), the method raises [ValueError] and
    tags nothing, although the job has been handed to the scheduler. Unless
    the answer holds more than [int_max_str_digits] digits, the message is
    the one of a refused literal: it shows the [repr] of the stripped
    answer, cut after 200 characters. *)
Theorem method_answer_must_be_integer (target source : list Node)
    (env : Env) (st : TagStore) (commands : list string)
    (name sub shell : string) (argv : list string) (p : string -> string)
    (t0 : Node) (rest : list Node) :
  prepare_commands subst_list escape_list target source env
    (generator target source env false) = Ok commands ->
  create_name target source env = Ok name ->
  target = t0 :: rest ->
  renv_subst
    (mkOverride env name (get_abspath t0 +:+ ".log")
       (if truthy chdir then Dir_abspath env (default "" chdir) else getcwd)
       (collect_tags st "built_by_job" source) submit_string)
    submit_string = Ok sub ->
  shlex_split sub = Ok argv ->
  Popen argv = Ok p ->
  env !! "STEAMROLLER_SHELL" = Some shell ->
  let out := p (Str.join nl (shell :: commands)) in
  Str.forallb PyInt.is_space out = true
  \/ Str.forallb int_char out = false ->
  exists msg : string,
    method subst_list escape_list renv_subst shlex_split Popen getcwd
      Dir_abspath generator chdir submit_string target source env st
    = (st, Raise (ValueError msg))
    /\ ((PyInt.count_digits out <= PyInt.int_max_str_digits)%nat ->
        msg = PyInt.invalid_literal (PyInt.strip out)).
Proof.
  intros Hc Hn Ht Hsub Hargv Hp Hshell out Hout.
  unfold method, method_submit. rewrite Hc. simpl.
  rewrite (submit_launched renv_subst shlex_split Popen submit_string target
             source env commands _ _ name sub argv p t0 rest Hn Ht Hsub
             Hargv Hp).
  rewrite Hshell. fold out.
  destruct (int_refuses (PyInt.strip out)) as (msg & Hmsg & Hlit).
  { destruct Hout as [H|H].
    - left. rewrite forallb_strip; [exact H|]. intros c Hc'. exact Hc'.
    - right. rewrite (forallb_strip _ out int_char_space). exact H. }
  exists msg. rewrite Hmsg. split; [reflexivity|].
  rewrite <- (count_digits_strip out). exact Hlit.
Qed.

End AnswerMustBeInteger.

Lemma method_answer_must_be_integer_witness :
  Sample.method "Submitted batch job 1337" [Sample.out_txt] [] Sample.env ∅
  = (∅,
     Raise (ValueError
              "invalid literal for int() with base 10: b'Submitted batch job 1337'")).
Proof.
  destruct (method_answer_must_be_integer Sample.subst_list
              Sample.escape_list Sample.renv_subst Sample.shlex_split
              (Sample.Popen "Submitted batch job 1337") Sample.getcwd
              Sample.Dir_abspath Sample.generator None "sbatch"
              [Sample.out_txt] [] Sample.env ∅ ["python run.py --x 1"]
              ("steamroller" +:+ "_" +:+
               MD5.hexdigest (Str.join " " ["/w/out.txt"]))
              "sbatch" "#!/bin/bash" ["sbatch"]
              (fun _ => "Submitted batch job 1337") Sample.out_txt []
              eq_refl eq_refl eq_refl eq_refl eq_refl eq_refl eq_refl
              (or_intror eq_refl))
    as (msg & Hmsg & Hlit).
  unfold Sample.method. rewrite Hmsg, Hlit; [reflexivity|].
  apply Nat.leb_le. vm_compute. reflexivity.
Defined.

(** ** Witnesses of the tagging lemmas *)

Lemma method_tags_targets_witness :
  GetTag
    (Sample.method "1337" [Sample.out_txt] [Sample.in_txt] Sample.env
       (Tag ∅ Sample.out_txt "built_by_job" 7)).1
    Sample.out_txt "built_by_job"
  = Some 1337.
Proof.
  apply (method_tags_targets Sample.subst_list Sample.escape_list
           Sample.renv_subst Sample.shlex_split (Sample.Popen "1337")
           Sample.getcwd Sample.Dir_abspath Sample.generator None "sbatch"
           [Sample.out_txt] [Sample.in_txt] Sample.env
           (Tag ∅ Sample.out_txt "built_by_job" 7) 1337 Sample.out_txt).
  - vm_compute. reflexivity.
  - apply elem_of_cons. left. reflexivity.
Defined.

Lemma printer_records_pseudo_job_witness :
  exists d,
    (GridEngine.command_printer Sample.subst_list Sample.escape_list
       Sample.generator Sample.slurm [Sample.out_txt] [] Sample.env
       (∅, GridEngine.initial_attrs)).2 = Ok d
    /\ GetTag
         (GridEngine.command_printer Sample.subst_list Sample.escape_list
            Sample.generator Sample.slurm [Sample.out_txt] [] Sample.env
            (∅, GridEngine.initial_attrs)).1.1
         Sample.out_txt "built_by_pseudo_job"
       = Some (GridEngine.d_job_id d).
Proof.
  eexists. split; [vm_compute; reflexivity|].
  apply (printer_records_pseudo_job Sample.subst_list Sample.escape_list
           Sample.generator Sample.slurm [Sample.out_txt] [] Sample.env
           (∅, GridEngine.initial_attrs)).
  - vm_compute. reflexivity.
  - apply elem_of_cons. left. reflexivity.
Defined.
